(** * Tiered storage for billing records: retrieval and migration

    A shallow embedding of [Retrieval.py] (class [TieredRetrieval]) and of
    [Transfer_data_from_cosmo-db_to_blob-storage.py] (class
    [TieredDataTransfer]).

    Conventions of the embedding.
    - A Python [str] is a Rocq [string] whose characters are code points
      below 256.
    - A JSON document is a finite map from field names to JSON scalars;
      [dict.get(k)] is the map lookup, with [None] for an absent key.
    - Every method is a computation in a state-and-exception monad over
      [world]: the two stores, the log of store calls, the clock, and the
      counters the two classes keep in [self].
    - The stores, the clock and the standard library ([datetime], [json])
      are outside the repository: their behaviour is given by an
      environment [env], and a store call can raise at any point.
    - Wall-clock readings are whole milliseconds, so the source's
      [(time.time() - start) * 1000] is a plain difference here. *)

From stdpp Require Import gmap strings list fin_maps sorting.
From Stdlib Require Import ZArith String Ascii Lia DecimalString.

Local Open Scope string_scope.
Local Open Scope Z_scope.

(** ** Python values *)

Inductive pyval :=
| PNone
| PBool (b : bool)
| PInt (n : Z)
| PStr (s : string).

#[global] Instance pyval_eq_dec : EqDecision pyval.
Proof. solve_decision. Defined.

(** What [json.loads] can give back: an object, or a bare scalar. *)
Inductive pyobj :=
| ODict (d : gmap string pyval)
| OVal (v : pyval).

(** Python truthiness, as tested by [if x:] and [not x]. *)
Definition truthy (v : pyval) : bool :=
  match v with
  | PNone => false
  | PBool b => b
  | PInt n => negb (n =? 0)
  | PStr s => negb (String.eqb s "")
  end.

Definition dict_truthy (d : gmap string pyval) : bool :=
  negb (bool_decide (d = ∅)).

Definition obj_truthy (o : pyobj) : bool :=
  match o with
  | ODict d => dict_truthy d
  | OVal v => truthy v
  end.

(** [d.get(k)]: [None] when the key is absent. *)
Definition dict_get (d : gmap string pyval) (k : string) : pyval :=
  default PNone (d !! k).

(** [v == 'literal'] for a string literal. *)
Definition eq_str (v : pyval) (s : string) : bool :=
  match v with
  | PStr s' => String.eqb s' s
  | _ => false
  end.

(** [str(n)] for an integer: decimal digits, with a minus sign. *)
Definition str_int (n : Z) : string :=
  NilZero.string_of_int (Z.to_int n).

(** [str(v)], as an f-string renders a value. *)
Definition py_str (v : pyval) : string :=
  match v with
  | PNone => "None"
  | PBool true => "True"
  | PBool false => "False"
  | PInt n => str_int n
  | PStr s => s
  end.

(** ** The world *)

(** Content of a blob: the JSON document it encodes, or bytes that
    [json.loads] rejects. *)
Inductive blob :=
| Garbage
| Encoded (o : pyobj).

(** The queries the two classes send to the Cosmos container. *)
Inductive query :=
| QByCustomer (customer_id : pyval)
| QCountByTier
| QTier1Window (one_month_ago three_months_ago : string)
| QTier2Older (three_months_ago : string).

(** One entry per call to a store. *)
Inductive call :=
| CosmosRead (id : string)
| CosmosQuery (q : query) (max_item_count : option nat)
| CosmosReplace (id : string)
| BlobDownload (container path : string)
| BlobUpload (container path : string)
| BlobDelete (container path : string).

Definition is_blob_call (c : call) : bool :=
  match c with
  | BlobDownload _ _ | BlobUpload _ _ | BlobDelete _ _ => true
  | _ => false
  end.

(** [TieredRetrieval.performance_stats]. *)
Record perf := Perf {
  tier1_hits : nat;
  tier2_hits : nat;
  tier3_hits : nat;
  cache_misses : nat;
  times_tier1 : list Z;
  times_tier2 : list Z;
  times_tier3 : list Z
}.

(** One stage of [TieredDataTransfer.stats]. *)
Record stage := Stage {
  success : nat;
  failed : nat;
  errors : list string
}.

Record migration_stats := MigrationStats {
  tier1_to_tier2 : stage;
  tier2_to_tier3 : stage;
  total_size_migrated : Z
}.

Record world := World {
  cosmos : gmap string (gmap string pyval);
  blobs : gmap (string * string) blob;
  calls : list call;
  ticks : nat;
  performance_stats : perf;
  stats : migration_stats
}.

Definition set_cosmos (f : gmap string (gmap string pyval) → gmap string (gmap string pyval))
    (w : world) : world :=
  World (f (cosmos w)) (blobs w) (calls w) (ticks w) (performance_stats w) (stats w).

Definition set_blobs (f : gmap (string * string) blob → gmap (string * string) blob)
    (w : world) : world :=
  World (cosmos w) (f (blobs w)) (calls w) (ticks w) (performance_stats w) (stats w).

Definition log_call (c : call) (w : world) : world :=
  World (cosmos w) (blobs w) (calls w ++ [c]) (ticks w) (performance_stats w) (stats w).

Definition tick (w : world) : world :=
  World (cosmos w) (blobs w) (calls w) (S (ticks w)) (performance_stats w) (stats w).

Definition set_perf (f : perf → perf) (w : world) : world :=
  World (cosmos w) (blobs w) (calls w) (ticks w) (f (performance_stats w)) (stats w).

Definition set_stats (f : migration_stats → migration_stats) (w : world) : world :=
  World (cosmos w) (blobs w) (calls w) (ticks w) (performance_stats w) (f (stats w)).

(** The blob-store calls made so far. *)
Definition blob_calls (w : world) : list call :=
  List.filter is_blob_call (calls w).

(** ** The environment *)

(** The fields of a [datetime] that the code reads. *)
Record datetime := Datetime {
  year : Z;
  month : Z;
  day : Z
}.

Record env := Env {
  (** whether the n-th store call raises, and with which message *)
  fault : nat → option string;
  (** the n-th reading of the clock, in milliseconds *)
  clock : nat → Z;
  (** [datetime.isoformat] of an instant *)
  isoformat : Z → string;
  (** [datetime.fromisoformat]; [None] when it raises [ValueError] *)
  fromisoformat : string → option datetime;
  (** [len(json.dumps(record, indent=2).encode('utf-8'))] *)
  encoded_size : gmap string pyval → Z
}.

(** ** State and exceptions *)

Inductive res (A : Type) :=
| Ok (a : A)
| Exc (msg : string).
Arguments Ok {A} a.
Arguments Exc {A} msg.

Definition M (A : Type) : Type := world → res A * world.

Definition ret {A} (a : A) : M A := λ w, (Ok a, w).

Definition bind {A B} (m : M A) (k : A → M B) : M B :=
  λ w, match m w with
       | (Ok a, w') => k a w'
       | (Exc e, w') => (Exc e, w')
       end.

Definition raise {A} (msg : string) : M A := λ w, (Exc msg, w).

(** [try: m except Exception as e: h e] *)
Definition try_except {A} (m : M A) (h : string → M A) : M A :=
  λ w, match m w with
       | (Ok a, w') => (Ok a, w')
       | (Exc e, w') => h e w'
       end.

Definition modify (f : world → world) : M unit := λ w, (Ok tt, f w).

Definition gets {A} (f : world → A) : M A := λ w, (Ok (f w), w).

Declare Scope py_scope.
Delimit Scope py_scope with py.
Notation "x '<-' m ';;' k" := (bind m (λ x, k))
  (at level 100, m at next level, right associativity) : py_scope.
Notation "m ';;' k" := (bind m (λ _, k))
  (at level 100, right associativity) : py_scope.
Local Open Scope py_scope.

(** ** The queries of the record store

    The Cosmos container and its SDK are not part of the sources. The
    filters and the orders below are read off the query texts in the
    source; what the container does with them follows the record store
    capability of the spec. *)

(** Values of different types are ordered undefined, null, booleans,
    numbers, strings. *)

Definition sql_rank (v : option pyval) : Z :=
  match v with
  | None => 0
  | Some PNone => 1
  | Some (PBool _) => 2
  | Some (PInt _) => 3
  | Some (PStr _) => 4
  end.

Definition sql_leb (a b : option pyval) : bool :=
  match a, b with
  | Some (PBool x), Some (PBool y) => implb x y
  | Some (PInt x), Some (PInt y) => x <=? y
  | Some (PStr x), Some (PStr y) => String.leb x y
  | _, _ => sql_rank a <=? sql_rank b
  end.

(** [c.f < @p] and [c.f >= @p] for a string parameter: undefined unless the
    field is a string. *)
Definition sql_lt_str (v : option pyval) (p : string) : bool :=
  match v with
  | Some (PStr s) => String.ltb s p
  | _ => false
  end.

Definition sql_ge_str (v : option pyval) (p : string) : bool :=
  match v with
  | Some (PStr s) => String.leb p s
  | _ => false
  end.

(** [c.storage_tier IS NULL OR c.storage_tier = 'cosmos'] *)
Definition sql_tier1 (v : option pyval) : bool :=
  match v with
  | None | Some PNone => true
  | Some (PStr s) => String.eqb s "cosmos"
  | _ => false
  end.

Definition created_le (d1 d2 : gmap string pyval) : Prop :=
  sql_leb (d1 !! "createdAt") (d2 !! "createdAt") = true.

Definition created_ge (d1 d2 : gmap string pyval) : Prop :=
  created_le d2 d1.

#[global] Instance created_le_dec d1 d2 : Decision (created_le d1 d2).
Proof. unfold created_le. apply _. Defined.

#[global] Instance created_ge_dec d1 d2 : Decision (created_ge d1 d2).
Proof. unfold created_ge. apply _. Defined.

(** The filter of the tier 1 to tier 2 selection. *)
Definition in_tier1_window (one_month_ago three_months_ago : string)
    (d : gmap string pyval) : bool :=
  sql_lt_str (d !! "createdAt") one_month_ago
  && sql_ge_str (d !! "createdAt") three_months_ago
  && sql_tier1 (d !! "storage_tier").

(** The filter of the tier 2 to tier 3 selection. *)
Definition in_tier2_older (three_months_ago : string) (d : gmap string pyval) : bool :=
  sql_lt_str (d !! "createdAt") three_months_ago
  && bool_decide (d !! "storage_tier" = Some (PStr "hot_blob")).

(** Modelled from the spec: the [aggregate_count_by(field)] capability of
    the record store, for [SELECT c.storage_tier, COUNT(1) as record_count
    ... GROUP BY c.storage_tier]: one row per distinct value, the field
    left out of the row of the documents that do not define it. *)
Definition count_row (docs : list (gmap string pyval)) (k : option pyval) : gmap string pyval :=
  let n := List.length (List.filter (λ d, bool_decide (d !! "storage_tier" = k)) docs) in
  match k with
  | Some v => <["storage_tier" := v]> {["record_count" := PInt (Z.of_nat n)]}
  | None => {["record_count" := PInt (Z.of_nat n)]}
  end.

Definition count_by_tier (docs : list (gmap string pyval)) : list (gmap string pyval) :=
  count_row docs <$> remove_dups ((λ d, d !! "storage_tier") <$> docs).

(** Modelled from the spec: the [query(filter, order, limit)] capability of
    the record store, which the Cosmos container implements; filter and
    order of each query as its text in the source has them. *)
Definition run_query (q : query) (docs : list (gmap string pyval)) : list (gmap string pyval) :=
  match q with
  | QByCustomer cid =>
      merge_sort created_ge
        (List.filter (λ d, bool_decide (d !! "customerId" = Some cid)) docs)
  | QCountByTier => count_by_tier docs
  | QTier1Window hi lo =>
      merge_sort created_le (List.filter (in_tier1_window hi lo) docs)
  | QTier2Older b =>
      merge_sort created_le (List.filter (in_tier2_older b) docs)
  end.

(** Modelled from the spec: [max_item_count] is the [limit] of the query
    capability. *)
Definition cap {A} (max_item_count : option nat) (l : list A) : list A :=
  match max_item_count with
  | Some n => take n l
  | None => l
  end.

(** The documents of the container; each carries its own id. *)
Definition documents (w : world) : list (gmap string pyval) :=
  (λ kv, <["id" := PStr kv.1]> kv.2) <$> map_to_list (cosmos w).

Section Engines.

Variable E : env.

(** ** Store calls *)

(** Every call is logged; the environment decides whether it raises. *)
Definition store_call (c : call) : M unit :=
  λ w, match fault E (List.length (calls w)) with
       | Some msg => (Exc msg, log_call c w)
       | None => (Ok tt, log_call c w)
       end.

(** [time.time()] and [datetime.utcnow()] *)
Definition time_time : M Z :=
  λ w, (Ok (clock E (ticks w)), tick w).

(** [container.read_item(item=id, partition_key=id)] *)
Definition read_item (id : string) : M (gmap string pyval) :=
  store_call (CosmosRead id);;
  c <- gets cosmos;;
  match c !! id with
  | Some d => ret (<["id" := PStr id]> d)
  | None => raise "CosmosResourceNotFoundError"
  end.

(** [list(container.query_items(query, ..., max_item_count=n))] *)
Definition query_items (q : query) (max_item_count : option nat) : M (list (gmap string pyval)) :=
  store_call (CosmosQuery q max_item_count);;
  docs <- gets documents;;
  ret (cap max_item_count (run_query q docs)).

(** [container.replace_item(id, item)] *)
Definition replace_item (id : string) (item : gmap string pyval) : M unit :=
  store_call (CosmosReplace id);;
  c <- gets cosmos;;
  match c !! id with
  | Some _ => modify (set_cosmos (insert id item))
  | None => raise "CosmosResourceNotFoundError"
  end.

(** [get_blob_client(container, path).download_blob().readall()] followed
    by [json.loads(... .decode('utf-8'))]. A blob name that is not a string
    makes the client raise before any request is sent. *)
Definition download_json (container : string) (blob_path : pyval) : M pyobj :=
  match blob_path with
  | PStr path =>
      store_call (BlobDownload container path);;
      b <- gets blobs;;
      match b !! (container, path) with
      | Some (Encoded o) => ret o
      | Some Garbage => raise "JSONDecodeError"
      | None => raise "BlobNotFound"
      end
  | _ => raise "TypeError"
  end.

(** ** [TieredRetrieval] *)

Definition hot_container : string := "billing-hot".
Definition cold_container : string := "billing-cold".

Definition _search_cosmos_db (record_id : string) : M (option (gmap string pyval) * Z) :=
  search_start <- time_time;;
  try_except
    (item <- read_item record_id;;
     t <- time_time;;
     ret (Some item, t - search_start))
    (λ _, t <- time_time;;
          ret (None, t - search_start)).

Definition search_blob (container : string) (blob_path : pyval) : M (option pyobj * Z) :=
  if negb (truthy blob_path) then ret (None, 0)
  else
    search_start <- time_time;;
    try_except
      (record <- download_json container blob_path;;
       t <- time_time;;
       ret (Some record, t - search_start))
      (λ _, t <- time_time;;
            ret (None, t - search_start)).

Definition _search_hot_blob (blob_path : pyval) : M (option pyobj * Z) :=
  search_blob hot_container blob_path.

Definition _search_cold_blob (blob_path : pyval) : M (option pyobj * Z) :=
  search_blob cold_container blob_path.

Definition _is_record_in_tier1 (record : gmap string pyval) : bool :=
  let storage_tier := dict_get record "storage_tier" in
  bool_decide (storage_tier = PNone) || eq_str storage_tier "cosmos".

(** [record and test(record)] for a value that is a record or [None]. *)
Definition record_and (record : option (gmap string pyval))
    (test : gmap string pyval → bool) : bool :=
  match record with
  | Some d => dict_truthy d && test d
  | None => false
  end.

Definition blob_truthy (blob_record : option pyobj) : bool :=
  match blob_record with
  | Some o => obj_truthy o
  | None => false
  end.

(** [record.get(k)], evaluated only behind [record and ...]. *)
Definition record_get (record : option (gmap string pyval)) (k : string) : pyval :=
  match record with
  | Some d => dict_get d k
  | None => PNone
  end.

Definition hit_tier1 (t : Z) (p : perf) : perf :=
  Perf (S (tier1_hits p)) (tier2_hits p) (tier3_hits p) (cache_misses p)
       (times_tier1 p ++ [t]) (times_tier2 p) (times_tier3 p).

Definition hit_tier2 (t : Z) (p : perf) : perf :=
  Perf (tier1_hits p) (S (tier2_hits p)) (tier3_hits p) (cache_misses p)
       (times_tier1 p) (times_tier2 p ++ [t]) (times_tier3 p).

Definition hit_tier3 (t : Z) (p : perf) : perf :=
  Perf (tier1_hits p) (tier2_hits p) (S (tier3_hits p)) (cache_misses p)
       (times_tier1 p) (times_tier2 p) (times_tier3 p ++ [t]).

Definition miss (p : perf) : perf :=
  Perf (tier1_hits p) (tier2_hits p) (tier3_hits p) (S (cache_misses p))
       (times_tier1 p) (times_tier2 p) (times_tier3 p).

(** One of the two blob branches of [get_billing_record]: [Some] when the
    branch returns, [None] when control falls through to the next [if]. *)
Definition blob_branch (start_time : Z) (record : option (gmap string pyval))
    (tier_value : string) (search : pyval → M (option pyobj * Z))
    (hit : Z → perf → perf) (source : string) : M (option (option pyobj * string * Z)) :=
  if record_and record (λ r, eq_str (dict_get r "storage_tier") tier_value) then
    found <- search (record_get record "blob_path");;
    if blob_truthy found.1 then
      t <- time_time;;
      modify (set_perf (hit (t - start_time)));;
      ret (Some (found.1, source, t - start_time))
    else ret None
  else ret None.

Definition get_billing_record (record_id : string) : M (option pyobj * string * Z) :=
  start_time <- time_time;;
  found <- _search_cosmos_db record_id;;
  let record := found.1 in
  if record_and record _is_record_in_tier1 then
    t <- time_time;;
    modify (set_perf (hit_tier1 (t - start_time)));;
    ret (ODict <$> record, "tier1-cosmos", t - start_time)
  else
    r2 <- blob_branch start_time record "hot_blob" _search_hot_blob hit_tier2 "tier2-hot";;
    match r2 with
    | Some out => ret out
    | None =>
        r3 <- blob_branch start_time record "cold_blob" _search_cold_blob hit_tier3 "tier3-cold";;
        match r3 with
        | Some out => ret out
        | None =>
            t <- time_time;;
            modify (set_perf miss);;
            ret (None, "not-found", t - start_time)
        end
    end.

Fixpoint get_multiple_records (record_ids : list string)
    : M (list (string * option pyobj * string * Z)) :=
  match record_ids with
  | [] => ret []
  | record_id :: rest =>
      r <- get_billing_record record_id;;
      results <- get_multiple_records rest;;
      ret ((record_id, r.1.1, r.1.2, r.2) :: results)
  end.

(** An entry of the list [get_records_by_customer] returns. *)
Record customer_entry := CustomerEntry {
  entry_record : pyobj;
  entry_source : string;
  entry_record_id : pyval
}.

(** [item['id']] *)
Definition item_id (item : gmap string pyval) : M pyval :=
  match item !! "id" with
  | Some v => ret v
  | None => raise "'id'"
  end.

(** The body of the loop of [get_records_by_customer]: the entry to
    append, if any. *)
Definition resolve_item (item : gmap string pyval) : M (option customer_entry) :=
  if _is_record_in_tier1 item then
    id <- item_id item;;
    ret (Some (CustomerEntry (ODict item) "tier1-cosmos" id))
  else if eq_str (dict_get item "storage_tier") "hot_blob" then
    found <- _search_hot_blob (dict_get item "blob_path");;
    match found.1 with
    | Some blob_record =>
        if obj_truthy blob_record then
          id <- item_id item;;
          ret (Some (CustomerEntry blob_record "tier2-hot" id))
        else ret None
    | None => ret None
    end
  else if eq_str (dict_get item "storage_tier") "cold_blob" then
    found <- _search_cold_blob (dict_get item "blob_path");;
    match found.1 with
    | Some blob_record =>
        if obj_truthy blob_record then
          id <- item_id item;;
          ret (Some (CustomerEntry blob_record "tier3-cold" id))
        else ret None
    | None => ret None
    end
  else ret None.

Fixpoint resolve_items (items : list (gmap string pyval)) : M (list customer_entry) :=
  match items with
  | [] => ret []
  | item :: rest =>
      e <- resolve_item item;;
      all_records <- resolve_items rest;;
      ret (match e with Some x => x :: all_records | None => all_records end)
  end.

Definition get_records_by_customer (customer_id : pyval) (limit : nat) : M (list customer_entry) :=
  try_except
    (items <- query_items (QByCustomer customer_id) (Some limit);;
     resolve_items items)
    (λ _, ret []).

(** The snapshot [_get_performance_stats] returns. Its percentages and
    mean latencies are floating-point quotients of these counters and are
    left out. *)
Record perf_snapshot := PerfSnapshot {
  total_requests : nat
}.

Definition _get_performance_stats : M perf_snapshot :=
  p <- gets performance_stats;;
  ret (PerfSnapshot (tier1_hits p + tier2_hits p + tier3_hits p + cache_misses p)%nat).

(** The dictionary [get_storage_statistics] returns. *)
Record storage_stats := StorageStats {
  tier1_cosmos : pyval;
  tier2_hot_blob : pyval;
  tier3_cold_blob : pyval;
  total_records : Z;
  performance : perf_snapshot
}.

(** [total += count]: [None] when the addition raises [TypeError]. *)
Definition add_count (total : Z) (count : pyval) : option Z :=
  match count with
  | PInt n => Some (total + n)
  | PBool b => Some (total + (if b then 1 else 0))
  | _ => None
  end.

(** The loop of [get_storage_statistics] over the rows of the aggregation.
    [stats] is updated in place, so a row that raises leaves the updates
    made so far; the flag tells whether the loop ran to its end. *)
Fixpoint tally (items : list (gmap string pyval)) (s : storage_stats) : storage_stats * bool :=
  match items with
  | [] => (s, true)
  | item :: rest =>
      let tier := default (PStr "cosmos") (item !! "storage_tier") in
      let count := default (PInt 0) (item !! "record_count") in
      let s1 :=
        if bool_decide (tier = PNone) || eq_str tier "cosmos" then
          StorageStats count (tier2_hot_blob s) (tier3_cold_blob s) (total_records s) (performance s)
        else if eq_str tier "hot_blob" then
          StorageStats (tier1_cosmos s) count (tier3_cold_blob s) (total_records s) (performance s)
        else if eq_str tier "cold_blob" then
          StorageStats (tier1_cosmos s) (tier2_hot_blob s) count (total_records s) (performance s)
        else s in
      match add_count (total_records s1) count with
      | Some total =>
          tally rest (StorageStats (tier1_cosmos s1) (tier2_hot_blob s1) (tier3_cold_blob s1)
                        total (performance s1))
      | None => (s1, false)
      end
  end.

Definition get_storage_statistics : M storage_stats :=
  snapshot <- _get_performance_stats;;
  let stats0 := StorageStats (PInt 0) (PInt 0) (PInt 0) 0 snapshot in
  try_except
    (items <- query_items QCountByTier None;;
     ret (tally items stats0).1)
    (λ _, ret stats0).

(** ** [TieredDataTransfer] *)

(** [str.isalnum] on the code points below 256. *)
Definition isalnum (c : ascii) : bool :=
  let n := Z.of_N (N_of_ascii c) in
  ((48 <=? n) && (n <=? 57)) || ((65 <=? n) && (n <=? 90)) || ((97 <=? n) && (n <=? 122))
  || (n =? 170) || (n =? 178) || (n =? 179) || (n =? 181) || (n =? 185) || (n =? 186)
  || ((188 <=? n) && (n <=? 190))
  || ((192 <=? n) && (n <=? 214)) || ((216 <=? n) && (n <=? 246)) || ((248 <=? n) && (n <=? 255)).

(** [c if c.isalnum() or c in ['_', '-'] else '_'] *)
Definition safe_char (c : ascii) : ascii :=
  if isalnum c || Ascii.eqb c "_" || Ascii.eqb c "-" then c else "_"%char.

Fixpoint sanitize (customer_id : string) : string :=
  match customer_id with
  | EmptyString => EmptyString
  | String c rest => String (safe_char c) (sanitize rest)
  end.

(** [s.replace('Z', '+00:00')] *)
Fixpoint replace_Z (s : string) : string :=
  match s with
  | EmptyString => EmptyString
  | String c rest =>
      if Ascii.eqb c "Z" then "+00:00" ++ replace_Z rest else String c (replace_Z rest)
  end.

(** [f"{n:02d}"] *)
Definition pad2 (n : Z) : string :=
  if (0 <=? n) && (n <? 10) then "0" ++ str_int n else str_int n.

(** The [try] block of [_generate_blob_path]. *)
Definition blob_path_of (record : gmap string pyval) (tier : string) : res string :=
  match record !! "createdAt" with
  | None => Exc "'createdAt'"
  | Some (PStr s) =>
      match fromisoformat E (replace_Z s) with
      | None => Exc "Invalid isoformat string"
      | Some created_at =>
          match default (PStr "unknown") (record !! "customerId") with
          | PStr customer_id =>
              match record !! "id" with
              | Some id =>
                  Ok (tier ++ "/" ++ str_int (year created_at) ++ "/" ++ pad2 (month created_at)
                      ++ "/" ++ pad2 (day created_at) ++ "/" ++ sanitize customer_id
                      ++ "/" ++ py_str id ++ ".json")
              | None => Exc "'id'"
              end
          | _ => Exc "object is not iterable"
          end
      end
  | Some _ => Exc "object has no attribute 'year'"
  end.

(** The fallback path of the [except] block. *)
Definition error_path_of (record : gmap string pyval) (tier : string) : res string :=
  match record !! "id" with
  | Some id => Ok (tier ++ "/error/" ++ py_str id ++ ".json")
  | None => Exc "'id'"
  end.

Definition _generate_blob_path (record : gmap string pyval) (tier : string) : res string :=
  match blob_path_of record tier with
  | Ok path => Ok path
  | Exc _ => error_path_of record tier
  end.

Definition lift {A} (r : res A) : M A := λ w, (r, w).

(** [_store_in_blob]. The blob is kept as the document its bytes encode:
    [json.loads] gives back what [json.dumps] was given. The metadata of
    the upload is not kept, as nothing reads it back; building it evaluates
    [record['id']] and reads the clock. *)
Definition _store_in_blob (record : gmap string pyval) (container_name blob_path : string) : M Z :=
  let blob_size := encoded_size E record in
  _ <- item_id record;;
  _ <- time_time;;
  store_call (BlobUpload container_name blob_path);;
  modify (set_blobs (insert (container_name, blob_path) (Encoded (ODict record))));;
  ret blob_size.

Definition _retrieve_from_blob (container_name : string) (blob_path : pyval) : M (option pyobj) :=
  try_except
    (record <- download_json container_name blob_path;;
     ret (Some record))
    (λ _, ret None).

Definition _delete_from_blob (container_name : string) (blob_path : pyval) : M unit :=
  try_except
    match blob_path with
    | PStr path =>
        store_call (BlobDelete container_name path);;
        b <- gets blobs;;
        match b !! (container_name, path) with
        | Some _ => modify (set_blobs (delete (container_name, path)))
        | None => raise "BlobNotFound"
        end
    | _ => raise "TypeError"
    end
    (λ _, ret tt).

Definition add_success (s : stage) : stage :=
  Stage (S (success s)) (failed s) (errors s).

Definition add_failure (error_msg : string) (s : stage) : stage :=
  Stage (success s) (S (failed s)) (errors s ++ [error_msg]).

Definition on_tier1_to_tier2 (f : stage → stage) (m : migration_stats) : migration_stats :=
  MigrationStats (f (tier1_to_tier2 m)) (tier2_to_tier3 m) (total_size_migrated m).

Definition on_tier2_to_tier3 (f : stage → stage) (m : migration_stats) : migration_stats :=
  MigrationStats (tier1_to_tier2 m) (f (tier2_to_tier3 m)) (total_size_migrated m).

Definition add_size (blob_size : Z) (m : migration_stats) : migration_stats :=
  MigrationStats (tier1_to_tier2 m) (tier2_to_tier3 m) (total_size_migrated m + blob_size).

(** [f"Record {item.get('id', 'unknown')}: {str(e)}"] *)
Definition error_msg_of (item : gmap string pyval) (e : string) : string :=
  "Record " ++ py_str (default (PStr "unknown") (item !! "id")) ++ ": " ++ e.

(** The id under which [replace_item(item['id'], item)] addresses the
    document. *)
Definition replace_by_id (item : gmap string pyval) : M unit :=
  id <- item_id item;;
  match id with
  | PStr k => replace_item k item
  | _ => raise "id is not a string"
  end.

(** The pointer record as the tier 1 to tier 2 loop rewrites it. *)
Definition hot_pointer (item : gmap string pyval) (blob_path migrated_at : string)
    (blob_size : Z) : gmap string pyval :=
  <["blob_size" := PInt blob_size]>
    (<["migrated_to_hot_at" := PStr migrated_at]>
      (<["blob_path" := PStr blob_path]>
        (<["storage_tier" := PStr "hot_blob"]> item))).

Definition cold_pointer (item : gmap string pyval) (blob_path migrated_at : string)
    (blob_size : Z) : gmap string pyval :=
  <["blob_size" := PInt blob_size]>
    (<["migrated_to_cold_at" := PStr migrated_at]>
      (<["blob_path" := PStr blob_path]>
        (<["storage_tier" := PStr "cold_blob"]> item))).

(** The [try] block of the body of the loop of [migrate_tier1_to_tier2]. *)
Definition tier2_attempt (item : gmap string pyval) : M unit :=
  blob_path <- lift (_generate_blob_path item "hot");;
  blob_size <- _store_in_blob item hot_container blob_path;;
  now <- time_time;;
  let item' := hot_pointer item blob_path (isoformat E now) blob_size in
  replace_by_id item';;
  modify (set_stats (on_tier1_to_tier2 add_success));;
  modify (set_stats (add_size blob_size)).

(** The body of the loop of [migrate_tier1_to_tier2], with its
    [try]/[except]. *)
Definition migrate_item_to_tier2 (item : gmap string pyval) : M unit :=
  try_except
    (tier2_attempt item)
    (λ e, modify (set_stats (on_tier1_to_tier2 (add_failure (error_msg_of item e))))).

(** [for item in items: body item] *)
Fixpoint for_each {A} (body : A → M unit) (items : list A) : M unit :=
  match items with
  | [] => ret tt
  | item :: rest => body item;; for_each body rest
  end.

Definition days (n : Z) : Z := n * 86400000.

Definition migrate_tier1_to_tier2 (batch_size : nat) : M unit :=
  now1 <- time_time;;
  let one_month_ago := now1 - days 30 in
  now2 <- time_time;;
  let three_months_ago := now2 - days 90 in
  try_except
    (items <- query_items
                (QTier1Window (isoformat E one_month_ago) (isoformat E three_months_ago))
                (Some batch_size);;
     for_each migrate_item_to_tier2 items)
    (λ e, raise e).

(** The [try] block of the body of the loop of [migrate_tier2_to_tier3].
    The pointer is rewritten in place before the hot blob is deleted, so
    the deletion is asked for [item['blob_path']] as it is then: the cold
    path. *)
Definition tier3_attempt (item : gmap string pyval) : M unit :=
  blob_path <- match item !! "blob_path" with
               | Some v => ret v
               | None => raise "'blob_path'"
               end;;
  full_record <- _retrieve_from_blob hot_container blob_path;;
  match full_record with
  | Some (ODict d) =>
      if dict_truthy d then
        cold_blob_path <- lift (_generate_blob_path d "cold");;
        blob_size <- _store_in_blob d cold_container cold_blob_path;;
        now <- time_time;;
        let item' := cold_pointer item cold_blob_path (isoformat E now) blob_size in
        replace_by_id item';;
        _delete_from_blob hot_container (dict_get item' "blob_path");;
        modify (set_stats (on_tier2_to_tier3 add_success));;
        modify (set_stats (add_size blob_size))
      else raise "Could not retrieve record from hot blob storage"
  | Some (OVal v) =>
      if truthy v then raise "object has no attribute 'get'"
      else raise "Could not retrieve record from hot blob storage"
  | None => raise "Could not retrieve record from hot blob storage"
  end.

(** The body of the loop of [migrate_tier2_to_tier3], with its
    [try]/[except]. *)
Definition migrate_item_to_tier3 (item : gmap string pyval) : M unit :=
  try_except
    (tier3_attempt item)
    (λ e, modify (set_stats (on_tier2_to_tier3 (add_failure (error_msg_of item e))))).

Definition migrate_tier2_to_tier3 (batch_size : nat) : M unit :=
  now <- time_time;;
  let three_months_ago := now - days 90 in
  try_except
    (items <- query_items (QTier2Older (isoformat E three_months_ago)) (Some batch_size);;
     for_each migrate_item_to_tier3 items)
    (λ e, raise e).

(** What [_print_migration_summary] prints. The duration is in
    milliseconds and the size in bytes, where the source prints seconds and
    megabytes; the errors are the lines under "First 5 Errors", printed
    only when something failed. *)
Record summary := Summary {
  summary_duration : Z;
  summary_processed : nat;
  summary_success : nat;
  summary_failed : nat;
  summary_size : Z;
  summary_tier1 : nat * nat;
  summary_tier2 : nat * nat;
  summary_errors : list string
}.

Definition _print_migration_summary (start_time end_time : Z) (m : migration_stats) : summary :=
  let duration := end_time - start_time in
  let total_success := (success (tier1_to_tier2 m) + success (tier2_to_tier3 m))%nat in
  let total_failed := (failed (tier1_to_tier2 m) + failed (tier2_to_tier3 m))%nat in
  Summary duration (total_success + total_failed) total_success total_failed
    (total_size_migrated m)
    (success (tier1_to_tier2 m), failed (tier1_to_tier2 m))
    (success (tier2_to_tier3 m), failed (tier2_to_tier3 m))
    (if (0 <? total_failed)%nat
     then take 5 (errors (tier1_to_tier2 m) ++ errors (tier2_to_tier3 m))%list
     else []).

(** [run_full_migration]: both stages with their default batch size, the
    exception of a stage raised again, and in the [finally] the summary,
    printed whether the run raised or not. [start_time] and [end_time] are
    kept in [self.stats] for the summary only and are handed to it here. *)
Definition run_full_migration : world → (res unit * summary) * world :=
  λ w,
    let start_time := clock E (ticks w) in
    let '(r, w1) :=
      try_except (migrate_tier1_to_tier2 100;; migrate_tier2_to_tier3 100)
                 (λ e, raise e) (tick w) in
    let end_time := clock E (ticks w1) in
    let w2 := tick w1 in
    ((r, _print_migration_summary start_time end_time (stats w2)), w2).

End Engines.

(** ** A reference environment

    A calendar and a fault-free store, for running the model on examples.
    [ref_isoformat] renders an instant, in milliseconds since 1970, the way
    [datetime.isoformat] does; [ref_fromisoformat] reads such strings
    back. *)

(** Days since 1970-01-01 to (year, month, day). *)
Definition civil_of_days (z : Z) : Z * Z * Z :=
  let z := z + 719468 in
  let era := z / 146097 in
  let doe := z - era * 146097 in
  let yoe := (doe - doe / 1460 + doe / 36524 - doe / 146096) / 365 in
  let doy := doe - (365 * yoe + yoe / 4 - yoe / 100) in
  let mp := (5 * doy + 2) / 153 in
  let d := doy - (153 * mp + 2) / 5 + 1 in
  let m := if mp <? 10 then mp + 3 else mp - 9 in
  let y := yoe + era * 400 in
  (if m <=? 2 then y + 1 else y, m, d).

Definition pad_to (width : nat) (s : string) : string :=
  String.concat "" (replicate (width - String.length s) "0") ++ s.

Definition ref_isoformat (ms : Z) : string :=
  let '(y, m, d) := civil_of_days (ms / 86400000) in
  let r := ms mod 86400000 in
  let frac := r mod 1000 in
  pad_to 4 (str_int y) ++ "-" ++ pad2 m ++ "-" ++ pad2 d ++ "T"
  ++ pad2 (r / 3600000) ++ ":" ++ pad2 (r / 60000 mod 60) ++ ":" ++ pad2 (r / 1000 mod 60)
  ++ (if frac =? 0 then "" else "." ++ pad_to 6 (str_int (frac * 1000))).

Definition digit_of (c : ascii) : option Z :=
  let n := Z.of_N (N_of_ascii c) in
  if (48 <=? n) && (n <=? 57) then Some (n - 48) else None.

Fixpoint number_of (acc : Z) (s : string) : option Z :=
  match s with
  | EmptyString => Some acc
  | String c rest =>
      match digit_of c with
      | Some d => number_of (10 * acc + d) rest
      | None => None
      end
  end.

(** Reads [YYYY-MM-DD], alone or followed by [T] and a time of day. *)
Definition ref_fromisoformat (s : string) : option datetime :=
  let rest := String.substring 10 (String.length s - 10) s in
  if (String.eqb rest "" || String.prefix "T" rest)
     && String.eqb (String.substring 4 1 s) "-" && String.eqb (String.substring 7 1 s) "-" then
    match number_of 0 (String.substring 0 4 s), number_of 0 (String.substring 5 2 s),
          number_of 0 (String.substring 8 2 s) with
    | Some y, Some m, Some d =>
        if (1 <=? m) && (m <=? 12) && (1 <=? d) && (d <=? 31) then Some (Datetime y m d)
        else None
    | _, _, _ => None
    end
  else None.

(** The size of a compact rendering: two braces, and per field its name,
    its value and four characters of punctuation. *)
Definition ref_encoded_size (record : gmap string pyval) : Z :=
  map_fold (λ k v acc, acc + Z.of_nat (String.length k) + Z.of_nat (String.length (py_str v)) + 4)
           2 record.

(** No store call fails; the clock stands at [now]. *)
Definition ref_env (now : Z) : env :=
  Env (λ _, None) (λ _, now) ref_isoformat ref_fromisoformat ref_encoded_size.

(** As [ref_env], but the [n]-th store call raises. *)
Definition faulty_env (now : Z) (n : nat) : env :=
  Env (λ i, if Nat.eqb i n then Some "ServiceUnavailable" else None)
      (λ _, now) ref_isoformat ref_fromisoformat ref_encoded_size.



Definition no_perf : perf := Perf 0 0 0 0 [] [] [].

Definition no_stats : migration_stats :=
  MigrationStats (Stage 0 0 []) (Stage 0 0 []) 0.

(** A world with the given stores and fresh engines. *)
Definition fresh (c : gmap string (gmap string pyval)) (b : gmap (string * string) blob) : world :=
  World c b [] 0 no_perf no_stats.

(** ** What one turn of the tier 1 to tier 2 loop does

    The four ways the body of the loop can end, told by what it leaves in
    the two stores, in the call log and in the statistics. *)
Inductive tier2_outcome (E : env) (item : gmap string pyval) (w w' : world) : Prop :=
| Migrated (k path : string) :
    item !! "id" = Some (PStr k) →
    _generate_blob_path E item "hot" = Ok path →
    fault E (List.length (calls w)) = None →
    fault E (S (List.length (calls w))) = None →
    is_Some (cosmos w !! k) →
    calls w' = (calls w ++ [BlobUpload hot_container path; CosmosReplace k])%list →
    blobs w' = <[(hot_container, path) := Encoded (ODict item)]> (blobs w) →
    cosmos w' = <[k := hot_pointer item path (isoformat E (clock E (S (ticks w))))
                         (encoded_size E item)]> (cosmos w) →
    stats w' = add_size (encoded_size E item) (on_tier1_to_tier2 add_success (stats w)) →
    tier2_outcome E item w w'
| NoPath (e : string) :
    _generate_blob_path E item "hot" = Exc e →
    calls w' = calls w → blobs w' = blobs w → cosmos w' = cosmos w →
    stats w' = on_tier1_to_tier2 (add_failure (error_msg_of item e)) (stats w) →
    tier2_outcome E item w w'
| UploadFailed (path e : string) :
    _generate_blob_path E item "hot" = Ok path →
    fault E (List.length (calls w)) = Some e →
    calls w' = (calls w ++ [BlobUpload hot_container path])%list →
    blobs w' = blobs w → cosmos w' = cosmos w →
    stats w' = on_tier1_to_tier2 (add_failure (error_msg_of item e)) (stats w) →
    tier2_outcome E item w w'
| PointerFailed (path e : string) :
    _generate_blob_path E item "hot" = Ok path →
    fault E (List.length (calls w)) = None →
    (calls w' = (calls w ++ [BlobUpload hot_container path])%list
     ∨ ∃ k, item !! "id" = Some (PStr k)
            ∧ calls w' = (calls w ++ [BlobUpload hot_container path; CosmosReplace k])%list) →
    blobs w' = <[(hot_container, path) := Encoded (ODict item)]> (blobs w) →
    cosmos w' = cosmos w →
    stats w' = on_tier1_to_tier2 (add_failure (error_msg_of item e)) (stats w) →
    tier2_outcome E item w w'.

(** The items [migrate_tier1_to_tier2] iterates over, when its query goes
    through: the query is sent after two readings of the clock. *)
Definition tier1_selection (E : env) (batch_size : nat) (w : world) : list (gmap string pyval) :=
  cap (Some batch_size)
    (run_query (QTier1Window (isoformat E (clock E (ticks w) - days 30))
                             (isoformat E (clock E (S (ticks w)) - days 90)))
               (documents w)).

Definition tier2_selection (E : env) (batch_size : nat) (w : world) : list (gmap string pyval) :=
  cap (Some batch_size)
    (run_query (QTier2Older (isoformat E (clock E (ticks w) - days 90))) (documents w)).

(** A run of a loop, as the chain of the worlds between its turns. *)
Inductive steps {A} (R : A → world → world → Prop) : list A → world → world → Prop :=
| steps_nil w : steps R [] w w
| steps_cons item items w w1 w2 :
    R item w w1 → steps R items w1 w2 → steps R (item :: items) w w2.

(** One turn counts its item in one stage of the statistics: one more
    success, or one more failure with its message. *)
Definition stage_step (get : migration_stats → stage)
    (item : gmap string pyval) (w w' : world) : Prop :=
  get (stats w') = add_success (get (stats w))
  ∨ ∃ e, get (stats w') = add_failure (error_msg_of item e) (get (stats w)).

(** The filter of the tier 1 to tier 2 selection, in words: the creation
    timestamp is a string in the half-open interval from [lo] to [hi], and
    [storage_tier] is absent, null or ['cosmos']. *)
Definition eligible (lo hi : string) (d : gmap string pyval) : Prop :=
  (∃ c, d !! "createdAt" = Some (PStr c) ∧ String.leb lo c = true ∧ String.ltb c hi = true)
  ∧ (d !! "storage_tier" = None ∨ d !! "storage_tier" = Some PNone
     ∨ d !! "storage_tier" = Some (PStr "cosmos")).

(** The world in which the loop of a stage starts: the clock was read
    [reads] times and the query was logged. *)
Definition after_query (q : query) (batch_size reads : nat) (w : world) : world :=
  log_call (CosmosQuery q (Some batch_size)) (Nat.iter reads tick w).

(** The account a stage gives of a run of its loop over [items]: every
    item is counted once, as a success or as a failure, and every failure
    leaves one message that starts with the id of its record. *)
Definition accounted (get : migration_stats → stage) (items : list (gmap string pyval))
    (w w' : world) : Prop :=
  ∃ new_errors,
    errors (get (stats w')) = (errors (get (stats w)) ++ new_errors)%list
    ∧ failed (get (stats w')) = (failed (get (stats w)) + List.length new_errors)%nat
    ∧ (success (get (stats w')) + failed (get (stats w'))
       = success (get (stats w)) + failed (get (stats w)) + List.length items)%nat
    ∧ Forall (λ m, ∃ item k e, item ∈ items ∧ item !! "id" = Some (PStr k)
                               ∧ m = "Record " ++ k ++ ": " ++ e) new_errors.

(** One turn of a migration loop accounts for its item by what its [try]
    block did: one more success when the block returned, one more failure
    with the message of the exception, under the id of the record, when
    the block raised. *)
Definition counted (get : migration_stats → stage) (attempt : gmap string pyval → M unit)
    (item : gmap string pyval) (w w' : world) : Prop :=
  match (attempt item w).1 with
  | Ok _ => get (stats w') = add_success (get (stats w))
  | Exc e => get (stats w') = add_failure (error_msg_of item e) (get (stats w))
  end.



(** The string has no occurrence of the character. *)
Fixpoint lacks (c0 : ascii) (s : string) : Prop :=
  match s with
  | EmptyString => True
  | String c rest => c ≠ c0 ∧ lacks c0 rest
  end.


(** ** Example worlds

    The clock stands at 2024-06-01. The primary store holds a record of 100
    days that is in tier 2 already, a record of 40 days and a record of 10
    days. *)
Definition june_1st : Z := 1717200000000.

Definition created (age_in_days : Z) : pyval :=
  PStr (ref_isoformat (june_1st - days age_in_days)).

Definition r_old : gmap string pyval :=
  {[ "customerId" := PStr "acme"; "createdAt" := created 100; "amount" := PInt 1200;
     "storage_tier" := PStr "hot_blob";
     "blob_path" := PStr "hot/2024/02/22/acme/r-old.json" ]}.

Definition r_mid : gmap string pyval :=
  {[ "customerId" := PStr "cust/1 2"; "createdAt" := created 40; "amount" := PInt 75 ]}.

Definition r_new : gmap string pyval :=
  {[ "customerId" := PStr "acme"; "createdAt" := created 10; "amount" := PInt 30 ]}.

Definition scenario : world :=
  fresh {[ "r-old" := r_old; "r-mid" := r_mid; "r-new" := r_new ]}
        {[ (hot_container, "hot/2024/02/22/acme/r-old.json")
           := Encoded (ODict (<["id" := PStr "r-old"]> r_old)) ]}.

(** A pointer to a blob that holds the empty JSON object. *)
Definition empty_blob_world : world :=
  fresh {[ "r1" := {[ "storage_tier" := PStr "hot_blob"; "blob_path" := PStr "hot/x.json" ]} ]}
        {[ (hot_container, "hot/x.json") := Encoded (ODict ∅) ]}.

(** A pointer in tier 2 that has no [blob_path]. *)
Definition no_path_world : world :=
  fresh {[ "r1" := {[ "storage_tier" := PStr "hot_blob"; "amount" := PInt 5 ]} ]} ∅.

(** Two records in tier 1, one without [storage_tier] and one with
    ['cosmos'], and one record in tier 2. *)
Definition mixed_world : world :=
  fresh {[ "a" := {[ "amount" := PInt 1 ]};
           "b" := {[ "amount" := PInt 2; "storage_tier" := PStr "cosmos" ]};
           "c" := {[ "amount" := PInt 3; "storage_tier" := PStr "hot_blob";
                     "blob_path" := PStr "hot/c.json" ]} ]} ∅.




(** ** The convenience functions of [Retrieval.py]

    Each builds a [TieredRetrieval()] of its own, whose counters start at
    zero and are dropped with it; the counters of any other engine are
    left alone. Setting up the clients of the new engine is outside the
    model. *)
Definition with_new_retrieval {A} (m : M A) : M A :=
  λ w, let '(r, w') := m (set_perf (λ _, no_perf) w) in
       (r, set_perf (λ _, performance_stats w) w').

Module Convenience.

Definition get_billing_record (E : env) (record_id : string) : M (option pyobj) :=
  with_new_retrieval (r <- get_billing_record E record_id;; ret r.1.1).

Definition get_billing_records (E : env) (record_ids : list string)
    : M (list (string * option pyobj * string * Z)) :=
  with_new_retrieval (get_multiple_records E record_ids).

Definition get_customer_records (E : env) (customer_id : pyval) (limit : nat)
    : M (list customer_entry) :=
  with_new_retrieval (get_records_by_customer E customer_id limit).

Definition get_storage_stats (E : env) : M storage_stats :=
  with_new_retrieval (get_storage_statistics E).

End Convenience.

(** ** Vocabulary of the further properties *)

(** Neither store nor the migration statistics changed. *)
Definition same_stores (w w' : world) : Prop :=
  cosmos w' = cosmos w ∧ blobs w' = blobs w ∧ stats w' = stats w.

(** The number of lookups an engine has answered: the [total_requests] of
    its performance snapshot. *)
Definition requests (p : perf) : nat :=
  (tier1_hits p + tier2_hits p + tier3_hits p + cache_misses p)%nat.

(** Each tier has one latency on record per hit. *)
Definition latencies_match (p : perf) : Prop :=
  List.length (times_tier1 p) = tier1_hits p
  ∧ List.length (times_tier2 p) = tier2_hits p
  ∧ List.length (times_tier3 p) = tier3_hits p.

(** The four sources a lookup can report. *)
Definition is_source (s : string) : Prop :=
  s = "tier1-cosmos" ∨ s = "tier2-hot" ∨ s = "tier3-cold" ∨ s = "not-found".

(** The number of documents whose [storage_tier] is the given value. *)
Definition tier_count (tier : option pyval) (docs : list (gmap string pyval)) : nat :=
  List.length (List.filter (λ d, bool_decide (d !! "storage_tier" = tier)) docs).

(** An entry of a customer listing answers a pointer: it carries the id
    of the pointer and, by source, the pointer itself or the truthy content
    of the blob the pointer names in the container of its tier. *)
Definition entry_of (b : gmap (string * string) blob) (item : gmap string pyval)
    (e : customer_entry) : Prop :=
  item !! "id" = Some (entry_record_id e)
  ∧ ((entry_source e = "tier1-cosmos" ∧ entry_record e = ODict item
      ∧ _is_record_in_tier1 item = true)
     ∨ ∃ tier_value container path,
         (tier_value = "hot_blob" ∧ container = hot_container ∧ entry_source e = "tier2-hot"
          ∨ tier_value = "cold_blob" ∧ container = cold_container
            ∧ entry_source e = "tier3-cold")
         ∧ item !! "storage_tier" = Some (PStr tier_value)
         ∧ item !! "blob_path" = Some (PStr path)
         ∧ b !! (container, path) = Some (Encoded (entry_record e))
         ∧ obj_truthy (entry_record e) = true).

(** The content a blob pointer leads to when the store answers: the
    document at a non-empty path of the container, if it decodes. *)
Definition blob_at (b : gmap (string * string) blob) (container : string) (blob_path : pyval)
    : option pyobj :=
  match blob_path with
  | PStr p =>
      if String.eqb p "" then None
      else match b !! (container, p) with
           | Some (Encoded o) => Some o
           | _ => None
           end
  | _ => None
  end.

(** The pointers the customer listing can answer when the store answers:
    those of tier 1, and those of tier 2 and tier 3 whose blob holds a
    truthy value. *)
Definition resolvable (b : gmap (string * string) blob) (item : gmap string pyval) : bool :=
  _is_record_in_tier1 item
  || eq_str (dict_get item "storage_tier") "hot_blob"
     && blob_truthy (blob_at b hot_container (dict_get item "blob_path"))
  || eq_str (dict_get item "storage_tier") "cold_blob"
     && blob_truthy (blob_at b cold_container (dict_get item "blob_path")).

(** ** What one turn of the tier 2 to tier 3 loop does

    Either the record moved: its content was read from the hot container,
    written to the cold container, and the pointer was replaced, in that
    order, after which the deletion was asked for the cold path in the hot
    container. Or it did not: the pointer and the hot container are as
    they were and the record is counted as failed. *)
Inductive tier3_outcome (E : env) (item : gmap string pyval) (w w' : world) : Prop :=
| Moved (k path cold_path : string) (d : gmap string pyval) :
    item !! "blob_path" = Some (PStr path) →
    item !! "id" = Some (PStr k) →
    blobs w !! (hot_container, path) = Some (Encoded (ODict d)) →
    d ≠ ∅ →
    _generate_blob_path E d "cold" = Ok cold_path →
    fault E (List.length (calls w)) = None →
    fault E (S (List.length (calls w))) = None →
    fault E (S (S (List.length (calls w)))) = None →
    is_Some (cosmos w !! k) →
    calls w' = (calls w ++ [BlobDownload hot_container path;
                            BlobUpload cold_container cold_path;
                            CosmosReplace k;
                            BlobDelete hot_container cold_path])%list →
    (blobs w' = <[(cold_container, cold_path) := Encoded (ODict d)]> (blobs w)
     ∨ blobs w' = delete (hot_container, cold_path)
                    (<[(cold_container, cold_path) := Encoded (ODict d)]> (blobs w))) →
    cosmos w' = <[k := cold_pointer item cold_path (isoformat E (clock E (S (ticks w))))
                         (encoded_size E d)]> (cosmos w) →
    stats w' = add_size (encoded_size E d) (on_tier2_to_tier3 add_success (stats w)) →
    tier3_outcome E item w w'
| NotMoved (e : string) :
    cosmos w' = cosmos w →
    (blobs w' = blobs w
     ∨ ∃ cold_path d, blobs w' = <[(cold_container, cold_path) := Encoded (ODict d)]> (blobs w)) →
    stats w' = on_tier2_to_tier3 (add_failure (error_msg_of item e)) (stats w) →
    tier3_outcome E item w w'.

(** The filter of the tier 2 to tier 3 selection, in words: the creation
    timestamp is a string below [bound], and [storage_tier] is
    ['hot_blob']. *)
Definition aged (bound : string) (d : gmap string pyval) : Prop :=
  (∃ c, d !! "createdAt" = Some (PStr c) ∧ String.ltb c bound = true)
  ∧ d !! "storage_tier" = Some (PStr "hot_blob").

(** Two worlds that differ in the counters of the retrieval engine at
    most. *)
Definition same_but_counters (w v : world) : Prop :=
  cosmos w = cosmos v ∧ blobs w = blobs v ∧ calls w = calls v ∧ ticks w = ticks v
  ∧ stats w = stats v.

(** An operation that never looks at the counters: from two such worlds
    it gives the same result and two such worlds again. *)
Definition counter_blind {A} (m : M A) : Prop :=
  ∀ w v, same_but_counters w v → (m w).1 = (m v).1 ∧ same_but_counters (m w).2 (m v).2.

(** The statistics with another performance snapshot. *)
Definition with_performance (p : perf_snapshot) (s : storage_stats) : storage_stats :=
  StorageStats (tier1_cosmos s) (tier2_hot_blob s) (tier3_cold_blob s) (total_records s) p.

(** ** Further example worlds *)

(** A record of 200 days that is in tier 3, and a record of 120 days that
    never left tier 1. *)
Definition r_cold : gmap string pyval :=
  {[ "customerId" := PStr "acme"; "createdAt" := created 200; "amount" := PInt 310;
     "storage_tier" := PStr "cold_blob";
     "blob_path" := PStr "cold/2023/11/14/acme/r-cold.json" ]}.

Definition r_stale : gmap string pyval :=
  {[ "customerId" := PStr "acme"; "createdAt" := created 120; "amount" := PInt 9 ]}.

Definition archive : world :=
  fresh {[ "r-cold" := r_cold; "r-stale" := r_stale ]}
        {[ (cold_container, "cold/2023/11/14/acme/r-cold.json")
           := Encoded (ODict (<["id" := PStr "r-cold"]> r_cold)) ]}.

(** * Properties *)

Local Open Scope list_scope.

(** Case analysis on an innermost [match] of the goal. *)
Ltac split_match :=
  match goal with
  | |- context [match ?x with _ => _ end] =>
      lazymatch x with
      | context [match _ with _ => _ end] => fail
      | _ => destruct x eqn:?
      end
  end.

(** Unfolds the monad, leaving the store calls and the methods folded. *)
Ltac monad :=
  cbv beta iota delta [bind ret gets modify raise try_except lift time_time].

Section Retrieval.

Variable E : env.

(** ** Store calls, one step at a time *)

Lemma store_call_ok c w :
  fault E (List.length (calls w)) = None →
  store_call E c w = (Ok tt, log_call c w).
Proof. intros H. unfold store_call. by rewrite H. Qed.

Lemma store_call_fault c w msg :
  fault E (List.length (calls w)) = Some msg →
  store_call E c w = (Exc msg, log_call c w).
Proof. intros H. unfold store_call. by rewrite H. Qed.

Lemma dict_truthy_insert k v (d : gmap string pyval) :
  dict_truthy (<[k:=v]> d) = true.
Proof.
  unfold dict_truthy. rewrite bool_decide_eq_false_2; [done|].
  apply insert_non_empty.
Qed.

Lemma dict_get_with_id id (d : gmap string pyval) k :
  k ≠ "id" → dict_get (<["id" := PStr id]> d) k = dict_get d k.
Proof. intros H. unfold dict_get. by rewrite lookup_insert_ne. Qed.

(** The pointer lookup when the document is there and the call goes
    through. *)
Lemma search_cosmos_found w id d :
  cosmos w !! id = Some d →
  fault E (List.length (calls w)) = None →
  _search_cosmos_db E id w =
    (Ok (Some (<["id" := PStr id]> d), clock E (S (ticks w)) - clock E (ticks w)),
     tick (log_call (CosmosRead id) (tick w))).
Proof.
  intros Hd Hf.
  unfold _search_cosmos_db, read_item. monad.
  rewrite (store_call_ok _ (tick w)) by done. simpl. by rewrite Hd.
Qed.

Lemma in_tier1_with_id id (d : gmap string pyval) :
  _is_record_in_tier1 (<["id" := PStr id]> d) = _is_record_in_tier1 d.
Proof. unfold _is_record_in_tier1. by rewrite dict_get_with_id. Qed.

(** C1. A record whose pointer has no [storage_tier], a null one, or
    ['cosmos'], is answered from the primary store: [get_billing_record]
    returns the pointer document itself with the source ['tier1-cosmos'],
    counts a tier 1 hit, and the only store call it makes is the read of the
    pointer, so no blob store call is made. *)
Theorem get_tier1_record w id d :
  cosmos w !! id = Some d →
  fault E (List.length (calls w)) = None →
  d !! "storage_tier" = None ∨ d !! "storage_tier" = Some PNone
    ∨ d !! "storage_tier" = Some (PStr "cosmos") →
  ∃ t w',
    get_billing_record E id w = (Ok (Some (ODict (<["id" := PStr id]> d)), "tier1-cosmos", t), w')
    ∧ calls w' = calls w ++ [CosmosRead id]
    ∧ blob_calls w' = blob_calls w
    ∧ blobs w' = blobs w
    ∧ cosmos w' = cosmos w
    ∧ tier1_hits (performance_stats w') = S (tier1_hits (performance_stats w)).
Proof.
  intros Hd Hf Ht.
  assert (Hin : _is_record_in_tier1 d = true).
  { unfold _is_record_in_tier1, dict_get.
    destruct Ht as [-> | [-> | ->]]; done. }
  unfold get_billing_record. monad.
  rewrite (search_cosmos_found (tick w) id d) by done.
  cbn [fst snd record_and]. rewrite dict_truthy_insert, in_tier1_with_id, Hin.
  cbn [andb fmap option_fmap option_map].
  eexists _, _. split; [reflexivity|].
  unfold blob_calls. simpl. rewrite List.filter_app. simpl.
  by rewrite app_nil_r.
Qed.

Lemma eq_str_true v s : eq_str v s = true ↔ v = PStr s.
Proof.
  destruct v; simpl; try (split; [discriminate | discriminate]).
  rewrite String.eqb_eq. split; congruence.
Qed.

Lemma eq_str_false v s : eq_str v s = false ↔ v ≠ PStr s.
Proof.
  rewrite <- eq_str_true. destruct (eq_str v s); split; congruence.
Qed.

Lemma in_tier1_false (d : gmap string pyval) v :
  d !! "storage_tier" = Some v → v ≠ PNone → v ≠ PStr "cosmos" →
  _is_record_in_tier1 d = false.
Proof.
  intros Hv H1 H2. unfold _is_record_in_tier1, dict_get. rewrite Hv. simpl.
  rewrite bool_decide_eq_false_2 by done.
  by apply eq_str_false.
Qed.

(** What a blob search can return: a document only when the path is a
    non-empty string, the download goes through and the blob decodes. *)
Lemma search_blob_result c bp w :
  ∃ found t w',
    search_blob E c bp w = (Ok (found, t), w')
    ∧ cosmos w' = cosmos w ∧ blobs w' = blobs w
    ∧ performance_stats w' = performance_stats w
    ∧ (∀ o, found = Some o →
         ∃ p, bp = PStr p ∧ p ≠ "" ∧ fault E (List.length (calls w)) = None
              ∧ blobs w !! (c, p) = Some (Encoded o)).
Proof.
  unfold search_blob.
  destruct (truthy bp) eqn:Hbp; cbn [negb].
  { unfold download_json. destruct bp as [| b | n | p]; monad;
      try (eexists _, _, _; split; [reflexivity|]; repeat split; discriminate).
    unfold store_call; cbn [calls tick].
    destruct (fault E (List.length (calls w))) as [msg|] eqn:Hf.
    { eexists _, _, _; split; [reflexivity|]; repeat split; discriminate. }
    cbn [blobs log_call tick].
    destruct (blobs w !! (c, p)) as [[|o]|] eqn:Hb;
      try (eexists _, _, _; split; [reflexivity|]; repeat split; discriminate).
    eexists _, _, _; split; [reflexivity|]. repeat split.
    intros o' [= <-]. exists p. repeat split; try done.
    intros ->. discriminate. }
  monad. eexists _, _, _; split; [reflexivity|]. repeat split. discriminate.
Qed.

(** The search when everything is in place. *)
Lemma search_blob_found c p o w :
  p ≠ "" →
  fault E (List.length (calls w)) = None →
  blobs w !! (c, p) = Some (Encoded o) →
  search_blob E c (PStr p) w =
    (Ok (Some o, clock E (S (ticks w)) - clock E (ticks w)),
     tick (log_call (BlobDownload c p) (tick w))).
Proof.
  intros Hp Hf Hb. unfold search_blob. cbn [truthy].
  destruct (String.eqb p "") eqn:Hp'; [by apply String.eqb_eq in Hp'|].
  cbn [negb]. unfold download_json. monad.
  rewrite (store_call_ok _ (tick w)) by done.
  cbn [blobs log_call tick]. by rewrite Hb.
Qed.

Lemma search_blob_falsy c bp w :
  truthy bp = false → search_blob E c bp w = (Ok (None, 0), w).
Proof. intros H. unfold search_blob. by rewrite H. Qed.

Lemma blob_branch_skip st record tv search hit src w :
  record_and record (λ r, eq_str (dict_get r "storage_tier") tv) = false →
  blob_branch E st record tv search hit src w = (Ok None, w).
Proof. intros H. unfold blob_branch. by rewrite H. Qed.

Lemma blob_branch_run st record tv search hit src w found t w' :
  record_and record (λ r, eq_str (dict_get r "storage_tier") tv) = true →
  search (record_get record "blob_path") w = (Ok (found, t), w') →
  blob_branch E st record tv search hit src w =
    if blob_truthy found
    then (Ok (Some (found, src, clock E (ticks w') - st)),
          set_perf (hit (clock E (ticks w') - st)) (tick w'))
    else (Ok None, w').
Proof.
  intros H Hs. unfold blob_branch. rewrite H. monad. rewrite Hs.
  cbn [fst snd]. by destruct (blob_truthy found).
Qed.

Lemma record_and_with_id id (d : gmap string pyval) tv :
  record_and (Some (<["id" := PStr id]> d)) (λ r, eq_str (dict_get r "storage_tier") tv)
  = eq_str (dict_get d "storage_tier") tv.
Proof. cbn [record_and]. by rewrite dict_truthy_insert, dict_get_with_id. Qed.

(** [get_billing_record] once the pointer is read and is not a tier 1
    record: what is left is the two blob branches and the miss. *)
Lemma get_past_tier1 w id d :
  cosmos w !! id = Some d →
  fault E (List.length (calls w)) = None →
  _is_record_in_tier1 d = false →
  get_billing_record E id w =
    (r2 <- blob_branch E (clock E (ticks w)) (Some (<["id" := PStr id]> d)) "hot_blob"
             (_search_hot_blob E) hit_tier2 "tier2-hot";;
     match r2 with
     | Some out => ret out
     | None =>
         r3 <- blob_branch E (clock E (ticks w)) (Some (<["id" := PStr id]> d)) "cold_blob"
                 (_search_cold_blob E) hit_tier3 "tier3-cold";;
         match r3 with
         | Some out => ret out
         | None =>
             t <- time_time E;;
             modify (set_perf miss);;
             ret (None, "not-found", t - clock E (ticks w))
         end
     end)%py (tick (log_call (CosmosRead id) (tick (tick w)))).
Proof.
  intros Hd Hf Hin. unfold get_billing_record. monad.
  rewrite (search_cosmos_found (tick w) id d) by done.
  cbn [fst snd record_and]. rewrite dict_truthy_insert, in_tier1_with_id, Hin.
  reflexivity.
Qed.

(** C2, as the code has it. For a pointer whose [storage_tier] is
    ['hot_blob']: when [blob_path] is a non-empty string, the download from
    the hot container goes through, the blob decodes and the decoded value
    is truthy, [get_billing_record] returns exactly that value with the
    source ['tier2-hot'], after one blob call; in every other case it
    returns no record with the source ['not-found']. The pointer document
    is returned in neither case. *)
Theorem get_tier2_record w id d :
  cosmos w !! id = Some d →
  fault E (List.length (calls w)) = None →
  d !! "storage_tier" = Some (PStr "hot_blob") →
  (∀ p o,
     d !! "blob_path" = Some (PStr p) → p ≠ "" →
     fault E (S (List.length (calls w))) = None →
     blobs w !! (hot_container, p) = Some (Encoded o) →
     obj_truthy o = true →
     ∃ t w', get_billing_record E id w = (Ok (Some o, "tier2-hot", t), w')
             ∧ blob_calls w' = blob_calls w ++ [BlobDownload hot_container p]
             ∧ tier2_hits (performance_stats w') = S (tier2_hits (performance_stats w)))
  ∧ ((∀ p o, ¬ (d !! "blob_path" = Some (PStr p) ∧ p ≠ ""
                ∧ fault E (S (List.length (calls w))) = None
                ∧ blobs w !! (hot_container, p) = Some (Encoded o)
                ∧ obj_truthy o = true)) →
     ∃ t w', get_billing_record E id w = (Ok (None, "not-found", t), w')
             ∧ cache_misses (performance_stats w') = S (cache_misses (performance_stats w))).
Proof.
  intros Hd Hf Ht.
  assert (Hget : dict_get d "storage_tier" = PStr "hot_blob").
  { unfold dict_get. by rewrite Ht. }
  assert (Hin : _is_record_in_tier1 d = false).
  { by apply (in_tier1_false d (PStr "hot_blob")). }
  pose proof (get_past_tier1 w id d Hd Hf Hin) as Hstart.
  set (w1 := tick (log_call (CosmosRead id) (tick (tick w)))) in *.
  assert (Hlen : List.length (calls w1) = S (List.length (calls w))).
  { subst w1. simpl. rewrite length_app. simpl. lia. }
  assert (Hhot : record_and (Some (<["id" := PStr id]> d))
                   (λ r, eq_str (dict_get r "storage_tier") "hot_blob") = true).
  { rewrite record_and_with_id, Hget. done. }
  assert (Hcold : record_and (Some (<["id" := PStr id]> d))
                    (λ r, eq_str (dict_get r "storage_tier") "cold_blob") = false).
  { rewrite record_and_with_id, Hget. done. }
  split.
  - intros p o Hp Hne Hf2 Hb Ho.
    rewrite Hstart. monad.
    erewrite blob_branch_run; [|exact Hhot|].
    2:{ cbn [record_get]. rewrite dict_get_with_id by done.
        unfold dict_get. rewrite Hp.
        change (default PNone (Some (PStr p))) with (PStr p).
        unfold _search_hot_blob. apply search_blob_found; [done| |done].
        by rewrite Hlen. }
    cbn [blob_truthy]. rewrite Ho.
    eexists _, _. split; [reflexivity|].
    subst w1. unfold blob_calls. simpl.
    rewrite !List.filter_app. simpl. by rewrite app_nil_r.
  - intros Hno.
    rewrite Hstart. monad.
    destruct (search_blob_result hot_container
                (record_get (Some (<["id" := PStr id]> d)) "blob_path") w1)
      as (found & t & w' & Hs & _ & _ & Hperf & Hfound).
    erewrite blob_branch_run; [|exact Hhot|exact Hs].
    assert (Hfalse : blob_truthy found = false).
    { destruct found as [o|]; [|done]. cbn [blob_truthy].
      destruct (obj_truthy o) eqn:Ho; [|done].
      destruct (Hfound o eq_refl) as (p & Hp & Hne & Hf2 & Hb).
      exfalso. apply (Hno p o).
      split; [|split; [exact Hne|split; [by rewrite <- Hlen|split; [exact Hb|exact Ho]]]].
      cbn [record_get] in Hp. rewrite dict_get_with_id in Hp by done.
      unfold dict_get in Hp. destruct (d !! "blob_path") as [v|]; simpl in Hp; by subst. }
    rewrite Hfalse. rewrite blob_branch_skip by exact Hcold.
    eexists _, _. split; [reflexivity|].
    simpl. by rewrite Hperf.
Qed.

(** C10. A pointer that exists in the primary store, whose [storage_tier]
    is present, not null and not ['cosmos'], and either is none of
    ['hot_blob'] and ['cold_blob'], or comes with a [blob_path] that is
    absent, null or empty: [get_billing_record] returns no record with the
    source ['not-found'] and counts a miss, without any blob store call; the
    pointer is still in the primary store afterwards. *)
Theorem get_unresolvable_pointer w id d v :
  cosmos w !! id = Some d →
  fault E (List.length (calls w)) = None →
  d !! "storage_tier" = Some v → v ≠ PNone → v ≠ PStr "cosmos" →
  (v ≠ PStr "hot_blob" ∧ v ≠ PStr "cold_blob") ∨ truthy (dict_get d "blob_path") = false →
  ∃ t w',
    get_billing_record E id w = (Ok (None, "not-found", t), w')
    ∧ cache_misses (performance_stats w') = S (cache_misses (performance_stats w))
    ∧ tier1_hits (performance_stats w') = tier1_hits (performance_stats w)
    ∧ tier2_hits (performance_stats w') = tier2_hits (performance_stats w)
    ∧ tier3_hits (performance_stats w') = tier3_hits (performance_stats w)
    ∧ blob_calls w' = blob_calls w
    ∧ cosmos w' !! id = Some d.
Proof.
  intros Hd Hf Hv Hn Hc Hcase.
  rewrite (get_past_tier1 w id d Hd Hf (in_tier1_false d v Hv Hn Hc)).
  assert (Hget : dict_get d "storage_tier" = v) by (unfold dict_get; by rewrite Hv).
  set (w1 := tick (log_call (CosmosRead id) (tick (tick w)))).
  assert (Hbranch : ∀ tv c hit src,
    tv = "hot_blob" ∨ tv = "cold_blob" →
    blob_branch E (clock E (ticks w)) (Some (<["id" := PStr id]> d)) tv
      (search_blob E c) hit src w1 = (Ok None, w1)).
  { intros tv c hit src Htier.
    destruct (eq_str v tv) eqn:Htv.
    - destruct Hcase as [[Hh Hcold] | Hpath].
      + apply eq_str_true in Htv. destruct Htier; congruence.
      + erewrite blob_branch_run.
        2:{ by rewrite record_and_with_id, Hget. }
        2:{ apply search_blob_falsy. cbn [record_get].
            by rewrite dict_get_with_id. }
        done.
    - apply blob_branch_skip. by rewrite record_and_with_id, Hget. }
  monad. unfold _search_hot_blob, _search_cold_blob.
  change (λ blob_path, search_blob E hot_container blob_path)
    with (search_blob E hot_container).
  change (λ blob_path, search_blob E cold_container blob_path)
    with (search_blob E cold_container).
  rewrite !Hbranch by auto.
  eexists _, _. split; [reflexivity|].
  subst w1. unfold blob_calls. simpl. rewrite List.filter_app. simpl.
  rewrite app_nil_r. done.
Qed.

(** C9, as the code has it. When the primary-store query cannot run,
    neither batch operation of the retrieval engine raises:
    [get_records_by_customer] returns the empty list and
    [get_storage_statistics] returns its zero counts with the performance
    snapshot. *)
Theorem query_failure_is_swallowed w msg customer_id limit :
  fault E (List.length (calls w)) = Some msg →
  (∃ w', get_records_by_customer E customer_id limit w = (Ok [], w'))
  ∧ (∃ w', get_storage_statistics E w =
             (Ok (StorageStats (PInt 0) (PInt 0) (PInt 0) 0
                    (PerfSnapshot (tier1_hits (performance_stats w)
                                   + tier2_hits (performance_stats w)
                                   + tier3_hits (performance_stats w)
                                   + cache_misses (performance_stats w))%nat)), w')).
Proof.
  intros Hf. split.
  - unfold get_records_by_customer, query_items. monad.
    rewrite (store_call_fault _ w msg) by done. by eexists.
  - unfold get_storage_statistics, _get_performance_stats, query_items. monad.
    rewrite (store_call_fault _ w msg) by done. by eexists.
Qed.

End Retrieval.

Section Migration.

Variable E : env.

Lemma generate_blob_path_id (item : gmap string pyval) tier path :
  _generate_blob_path E item tier = Ok path → is_Some (item !! "id").
Proof.
  unfold _generate_blob_path, blob_path_of, error_path_of.
  destruct (item !! "id"); [by eauto|].
  intros H. repeat case_match; discriminate.
Qed.

Lemma store_in_blob_ok (record : gmap string pyval) c path w :
  is_Some (record !! "id") →
  fault E (List.length (calls w)) = None →
  _store_in_blob E record c path w =
    (Ok (encoded_size E record),
     set_blobs (insert (c, path) (Encoded (ODict record))) (log_call (BlobUpload c path) (tick w))).
Proof.
  intros [v Hv] Hf. unfold _store_in_blob, item_id. rewrite Hv. monad.
  by rewrite (store_call_ok _ _ (tick w)).
Qed.

Lemma store_in_blob_fault (record : gmap string pyval) c path w e :
  is_Some (record !! "id") →
  fault E (List.length (calls w)) = Some e →
  _store_in_blob E record c path w = (Exc e, log_call (BlobUpload c path) (tick w)).
Proof.
  intros [v Hv] Hf. unfold _store_in_blob, item_id. rewrite Hv. monad.
  by rewrite (store_call_fault _ _ (tick w) e).
Qed.

Lemma hot_pointer_id (item : gmap string pyval) path t size :
  hot_pointer item path t size !! "id" = item !! "id".
Proof. unfold hot_pointer. by rewrite !lookup_insert_ne. Qed.

Lemma replace_item_run k item w :
  replace_item E k item w =
    match fault E (List.length (calls w)) with
    | Some e => (Exc e, log_call (CosmosReplace k) w)
    | None =>
        match cosmos w !! k with
        | Some _ => (Ok tt, set_cosmos (insert k item) (log_call (CosmosReplace k) w))
        | None => (Exc "CosmosResourceNotFoundError", log_call (CosmosReplace k) w)
        end
    end.
Proof.
  unfold replace_item, store_call. monad.
  destruct (fault E (List.length (calls w))); [done|].
  cbn [cosmos log_call]. by destruct (cosmos w !! k).
Qed.

(** One turn of the loop never raises, and ends in one of the four ways. *)
Lemma migrate_item_to_tier2_outcome item w :
  ∃ w', migrate_item_to_tier2 E item w = (Ok tt, w') ∧ tier2_outcome E item w w'.
Proof.
  unfold migrate_item_to_tier2, tier2_attempt.
  destruct (_generate_blob_path E item "hot") as [path|e] eqn:Hpath.
  2:{ monad. eexists. split; [reflexivity|]. by eapply NoPath. }
  pose proof (generate_blob_path_id _ _ _ Hpath) as Hid.
  destruct (fault E (List.length (calls w))) as [e|] eqn:Hf.
  { monad. rewrite (store_in_blob_fault item _ _ w e) by done.
    eexists. split; [reflexivity|]. by eapply UploadFailed. }
  monad. rewrite (store_in_blob_ok item _ _ w) by done.
  unfold replace_by_id, item_id. rewrite hot_pointer_id.
  destruct Hid as [v Hv]. rewrite Hv. monad.
  destruct v as [| b | n | k];
    try (eexists; split; [reflexivity|]; by eapply PointerFailed; eauto).
  rewrite replace_item_run.
  cbn [calls set_blobs log_call tick cosmos].
  rewrite length_app. cbn [List.length]. rewrite Nat.add_1_r.
  destruct (fault E (S (List.length (calls w)))) as [e|] eqn:Hf2.
  { eexists; split; [reflexivity|]. eapply PointerFailed; eauto.
    right. exists k. split; [done|]. simpl. by rewrite <- app_assoc. }
  destruct (cosmos w !! k) as [d|] eqn:Hk.
  2:{ eexists; split; [reflexivity|]. eapply PointerFailed; eauto.
      right. exists k. split; [done|]. simpl. by rewrite <- app_assoc. }
  eexists; split; [reflexivity|]. eapply Migrated; eauto.
  simpl. by rewrite <- app_assoc.
Qed.

Lemma hot_pointer_fields (item : gmap string pyval) path t size :
  let d' := hot_pointer item path t size in
  d' !! "storage_tier" = Some (PStr "hot_blob")
  ∧ d' !! "blob_path" = Some (PStr path)
  ∧ d' !! "migrated_to_hot_at" = Some (PStr t)
  ∧ d' !! "blob_size" = Some (PInt size)
  ∧ ∀ f, f ≠ "storage_tier" → f ≠ "blob_path" → f ≠ "migrated_to_hot_at" → f ≠ "blob_size" →
         d' !! f = item !! f.
Proof.
  cbv zeta. unfold hot_pointer.
  split; [by simplify_map_eq|]. split; [by simplify_map_eq|].
  split; [by simplify_map_eq|]. split; [by simplify_map_eq|].
  intros f H1 H2 H3 H4. by rewrite !lookup_insert_ne.
Qed.


(** ** Loops *)

Lemma for_each_steps {A} (body : A → M unit) (R : A → world → world → Prop) :
  (∀ item w, ∃ w', body item w = (Ok tt, w') ∧ R item w w') →
  ∀ items w, ∃ w', for_each body items w = (Ok tt, w') ∧ steps R items w w'.
Proof.
  intros Hbody items. induction items as [|item items IH]; intros w.
  - exists w. split; [done|]. constructor.
  - destruct (Hbody item w) as (w1 & Hrun & HR).
    destruct (IH w1) as (w2 & Hrest & Hsteps).
    exists w2. split; [|by econstructor].
    cbn [for_each]. monad. by rewrite Hrun.
Qed.

Lemma steps_impl {A} (R R' : A → world → world → Prop) items w w' :
  (∀ item w w', R item w w' → R' item w w') →
  steps R items w w' → steps R' items w w'.
Proof. intros H. induction 1; econstructor; eauto. Qed.

(** The statistics of a stage after a loop: every item was counted, as a
    success or as a failure with a message of its own. *)
Lemma steps_stage get items w w' :
  steps (stage_step get) items w w' →
  ∃ new_errors,
    errors (get (stats w')) = errors (get (stats w)) ++ new_errors
    ∧ failed (get (stats w')) = (failed (get (stats w)) + List.length new_errors)%nat
    ∧ (success (get (stats w')) + List.length new_errors
       = success (get (stats w)) + List.length items)%nat
    ∧ Forall (λ m, ∃ item e, item ∈ items ∧ m = error_msg_of item e) new_errors.
Proof.
  induction 1 as [w | item items w w1 w2 Hstep _ (errs & He & Hf & Hs & Hall)].
  - exists []. rewrite app_nil_r. repeat split; [simpl; lia .. | constructor].
  - assert (Hweaken : Forall (λ m, ∃ item' e, item' ∈ item :: items ∧ m = error_msg_of item' e) errs).
    { eapply Forall_impl; [exact Hall|]. intros m (i & e & Hi & ->).
      exists i, e. split; [by right|done]. }
    destruct Hstep as [Hok | (e & Hfail)].
    + exists errs. rewrite Hok in He, Hf, Hs. cbn in He, Hf, Hs.
      split; [done|]. split; [done|]. split; [cbn; lia|done].
    + exists (error_msg_of item e :: errs).
      rewrite Hfail in He, Hf, Hs. cbn in He, Hf, Hs.
      split; [by rewrite He, <- app_assoc|]. split; [cbn; lia|]. split; [cbn; lia|].
      constructor; [|done]. exists item, e. split; [by left|done].
Qed.

Lemma tier2_outcome_stage item w w' :
  tier2_outcome E item w w' → stage_step tier1_to_tier2 item w w'.
Proof.
  intros [k path ???????? Hs | e ???? Hs | path e ????? Hs | path e ????? Hs];
    unfold stage_step; rewrite Hs; [by left | right; by exists e ..].
Qed.

(** One turn of the tier 2 to tier 3 loop never raises, and counts its
    item once. *)
Lemma migrate_item_to_tier3_step item w :
  ∃ w', migrate_item_to_tier3 E item w = (Ok tt, w')
        ∧ stage_step tier2_to_tier3 item w w'.
Proof.
  unfold migrate_item_to_tier3, tier3_attempt, _retrieve_from_blob, download_json, _store_in_blob,
    replace_by_id, item_id, replace_item, _delete_from_blob, store_call, stage_step.
  monad.
  repeat (split_match; cbn [fst snd]; try discriminate; simplify_eq);
    (eexists; split; [reflexivity|]; cbn;
     first [by left | right; eexists; reflexivity]).
Qed.

(** ** Selections *)

Lemma in_tier1_window_eligible hi lo (d : gmap string pyval) :
  in_tier1_window hi lo d = true ↔ eligible lo hi d.
Proof.
  unfold in_tier1_window, eligible, sql_lt_str, sql_ge_str, sql_tier1.
  rewrite !andb_true_iff. split.
  - intros [[H1 H2] H3]. split.
    + destruct (d !! "createdAt") as [[| | |c]|]; try discriminate. by exists c.
    + destruct (d !! "storage_tier") as [[| | |t]|]; try discriminate; auto.
      apply String.eqb_eq in H3. subst. auto.
  - intros [(c & -> & H1 & H2) H3]. repeat split; try done.
    destruct H3 as [-> | [-> | ->]]; done.
Qed.

Lemma in_tier1_window_with_id hi lo k (d : gmap string pyval) :
  in_tier1_window hi lo (<["id" := PStr k]> d) = in_tier1_window hi lo d.
Proof. unfold in_tier1_window. by rewrite !lookup_insert_ne. Qed.

Lemma elem_of_documents w item :
  item ∈ documents w ↔ ∃ k d, cosmos w !! k = Some d ∧ item = <["id" := PStr k]> d.
Proof.
  unfold documents. rewrite list_elem_of_fmap. split.
  - intros ([k d] & -> & Hin). apply elem_of_map_to_list in Hin. by exists k, d.
  - intros (k & d & Hk & ->). exists (k, d). split; [done|].
    by apply elem_of_map_to_list.
Qed.

Lemma elem_of_filter_bool {A} (f : A → bool) (l : list A) x :
  x ∈ List.filter f l ↔ x ∈ l ∧ f x = true.
Proof. rewrite !list_elem_of_In. apply List.filter_In. Qed.

Lemma sql_leb_total a b : sql_leb a b = true ∨ sql_leb b a = true.
Proof.
  destruct a as [[| x | x | x]|], b as [[| y | y | y]|]; cbn; auto.
  - destruct x, y; auto.
  - rewrite !Z.leb_le. lia.
  - apply String.leb_total.
Qed.

#[local] Instance created_le_total : Total created_le.
Proof. intros d1 d2. apply sql_leb_total. Qed.


Lemma query_items_ok q max_item_count w :
  fault E (List.length (calls w)) = None →
  query_items E q max_item_count w =
    (Ok (cap max_item_count (run_query q (documents w))),
     log_call (CosmosQuery q max_item_count) w).
Proof.
  intros Hf. unfold query_items. monad. by rewrite store_call_ok.
Qed.

Lemma query_items_fault q max_item_count w e :
  fault E (List.length (calls w)) = Some e →
  query_items E q max_item_count w = (Exc e, log_call (CosmosQuery q max_item_count) w).
Proof.
  intros Hf. unfold query_items. monad. by rewrite (store_call_fault _ _ _ e).
Qed.

(** When its query goes through, the stage is the loop over its
    selection; it does not raise. *)
Lemma migrate_tier1_to_tier2_run batch_size w :
  fault E (List.length (calls w)) = None →
  ∃ w',
    migrate_tier1_to_tier2 E batch_size w = (Ok tt, w')
    ∧ steps (tier2_outcome E) (tier1_selection E batch_size w)
        (after_query (QTier1Window (isoformat E (clock E (ticks w) - days 30))
                                   (isoformat E (clock E (S (ticks w)) - days 90)))
                     batch_size 2 w) w'.
Proof.
  intros Hf. unfold migrate_tier1_to_tier2. monad.
  rewrite query_items_ok by done.
  match goal with
  | |- context [for_each _ ?items ?w0] =>
      destruct (for_each_steps (migrate_item_to_tier2 E) (tier2_outcome E)
                  migrate_item_to_tier2_outcome items w0) as (w' & Hrun & Hsteps)
  end.
  rewrite Hrun. exists w'. split; [done|]. exact Hsteps.
Qed.

(** The loop rewrites the pointers of its items only. *)
Lemma steps_cosmos_frame items w w' j :
  steps (tier2_outcome E) items w w' →
  (∀ item, item ∈ items → item !! "id" ≠ Some (PStr j)) →
  cosmos w' !! j = cosmos w !! j.
Proof.
  induction 1 as [w | item items w w1 w2 Hstep _ IH]; intros Hids; [done|].
  rewrite IH by (intros i Hi; apply Hids; by right).
  destruct Hstep as [k path Hid ?????? Hc ? | e ??? Hc ? | path e ???? Hc ? | path e ???? Hc ?];
    rewrite Hc; [|done..].
  apply lookup_insert_ne. intros ->. by apply (Hids item); [left|].
Qed.

(** The loop writes blobs in the hot container only, at the paths of its
    items. *)
Lemma steps_blobs_frame items w w' c path :
  steps (tier2_outcome E) items w w' →
  (c = hot_container → ∀ item, item ∈ items → _generate_blob_path E item "hot" ≠ Ok path) →
  blobs w' !! (c, path) = blobs w !! (c, path).
Proof.
  induction 1 as [w | item items w w1 w2 Hstep _ IH]; intros Hpaths; [done|].
  rewrite IH by (intros Hc i Hi; apply Hpaths; [done|by right]).
  destruct Hstep as [k p ? Hp ???? Hb ?? | e ?? Hb ?? | p e ??? Hb ?? | p e Hp ?? Hb ??];
    rewrite Hb; try done.
  all: apply lookup_insert_ne; intros [= <- <-];
    by apply (Hpaths eq_refl item); [left|].
Qed.

Lemma elem_of_tier1_selection batch_size w item :
  item ∈ tier1_selection E batch_size w →
  ∃ k d, cosmos w !! k = Some d ∧ item = <["id" := PStr k]> d
         ∧ eligible (isoformat E (clock E (S (ticks w)) - days 90))
                    (isoformat E (clock E (ticks w) - days 30)) d.
Proof.
  unfold tier1_selection, cap, run_query. intros Hin.
  apply subseteq_take in Hin. rewrite merge_sort_Permutation in Hin.
  apply elem_of_filter_bool in Hin as [Hdoc Hwin].
  apply elem_of_documents in Hdoc as (k & d & Hk & ->).
  exists k, d. split; [done|]. split; [done|].
  apply in_tier1_window_eligible. by rewrite in_tier1_window_with_id in Hwin.
Qed.




Lemma migrate_tier2_to_tier3_run batch_size w :
  fault E (List.length (calls w)) = None →
  ∃ w',
    migrate_tier2_to_tier3 E batch_size w = (Ok tt, w')
    ∧ steps (stage_step tier2_to_tier3) (tier2_selection E batch_size w)
        (after_query (QTier2Older (isoformat E (clock E (ticks w) - days 90)))
                     batch_size 1 w) w'.
Proof.
  intros Hf. unfold migrate_tier2_to_tier3. monad.
  rewrite query_items_ok by done.
  match goal with
  | |- context [for_each _ ?items ?w0] =>
      destruct (for_each_steps (migrate_item_to_tier3 E) (stage_step tier2_to_tier3)
                  migrate_item_to_tier3_step items w0) as (w' & Hrun & Hsteps)
  end.
  rewrite Hrun. exists w'. split; [done|]. exact Hsteps.
Qed.

Lemma elem_of_tier2_selection batch_size w item :
  item ∈ tier2_selection E batch_size w →
  ∃ k d, cosmos w !! k = Some d ∧ item = <["id" := PStr k]> d.
Proof.
  unfold tier2_selection, cap, run_query. intros Hin.
  apply subseteq_take in Hin. rewrite merge_sort_Permutation in Hin.
  apply elem_of_filter_bool in Hin as [Hdoc _].
  by apply elem_of_documents in Hdoc.
Qed.

Lemma steps_accounted get items w0 w' w :
  stats w0 = stats w →
  (∀ item, item ∈ items → ∃ k, item !! "id" = Some (PStr k)) →
  steps (stage_step get) items w0 w' →
  accounted get items w w'.
Proof.
  intros Hw Hids Hsteps.
  destruct (steps_stage get items w0 w' Hsteps) as (errs & He & Hf & Hs & Hall).
  rewrite Hw in He, Hf, Hs.
  exists errs. split; [done|]. split; [done|]. split; [lia|].
  eapply Forall_impl; [exact Hall|].
  intros m (item & e & Hin & ->). destruct (Hids item Hin) as [k Hk].
  exists item, k, e. split; [done|]. split; [done|].
  unfold error_msg_of. by rewrite Hk.
Qed.

(** One turn of each loop never raises, and counts its item by what its
    [try] block did. *)
Lemma tier2_turn_counted item w :
  ∃ w', migrate_item_to_tier2 E item w = (Ok tt, w')
        ∧ counted tier1_to_tier2 (tier2_attempt E) item w w'.
Proof.
  unfold counted, migrate_item_to_tier2, tier2_attempt, _store_in_blob, replace_by_id, item_id,
    replace_item, store_call.
  monad.
  repeat (split_match; cbn [fst snd]; try discriminate; simplify_eq);
    (eexists; split; [reflexivity|]; reflexivity).
Qed.

Lemma tier3_turn_counted item w :
  ∃ w', migrate_item_to_tier3 E item w = (Ok tt, w')
        ∧ counted tier2_to_tier3 (tier3_attempt E) item w w'.
Proof.
  unfold counted, migrate_item_to_tier3, tier3_attempt, _retrieve_from_blob, download_json,
    _store_in_blob, replace_by_id, item_id, replace_item, _delete_from_blob, store_call.
  monad.
  repeat (split_match; cbn [fst snd]; try discriminate; simplify_eq);
    (eexists; split; [reflexivity|]; reflexivity).
Qed.

Lemma counted_stage get attempt item w w' :
  counted get attempt item w w' → stage_step get item w w'.
Proof.
  unfold counted, stage_step.
  destruct (attempt item w).1 as [[]|e]; [by left|right; by exists e].
Qed.

Lemma migrate_tier1_to_tier2_counted batch_size w :
  fault E (List.length (calls w)) = None →
  ∃ w',
    migrate_tier1_to_tier2 E batch_size w = (Ok tt, w')
    ∧ steps (counted tier1_to_tier2 (tier2_attempt E)) (tier1_selection E batch_size w)
        (after_query (QTier1Window (isoformat E (clock E (ticks w) - days 30))
                                   (isoformat E (clock E (S (ticks w)) - days 90)))
                     batch_size 2 w) w'.
Proof.
  intros Hf. unfold migrate_tier1_to_tier2. monad.
  rewrite query_items_ok by done.
  match goal with
  | |- context [for_each _ ?items ?w0] =>
      destruct (for_each_steps (migrate_item_to_tier2 E)
                  (counted tier1_to_tier2 (tier2_attempt E))
                  tier2_turn_counted items w0) as (w' & Hrun & Hsteps)
  end.
  rewrite Hrun. exists w'. split; [done|]. exact Hsteps.
Qed.

Lemma migrate_tier2_to_tier3_counted batch_size w :
  fault E (List.length (calls w)) = None →
  ∃ w',
    migrate_tier2_to_tier3 E batch_size w = (Ok tt, w')
    ∧ steps (counted tier2_to_tier3 (tier3_attempt E)) (tier2_selection E batch_size w)
        (after_query (QTier2Older (isoformat E (clock E (ticks w) - days 90)))
                     batch_size 1 w) w'.
Proof.
  intros Hf. unfold migrate_tier2_to_tier3. monad.
  rewrite query_items_ok by done.
  match goal with
  | |- context [for_each _ ?items ?w0] =>
      destruct (for_each_steps (migrate_item_to_tier3 E)
                  (counted tier2_to_tier3 (tier3_attempt E))
                  tier3_turn_counted items w0) as (w' & Hrun & Hsteps)
  end.
  rewrite Hrun. exists w'. split; [done|]. exact Hsteps.
Qed.

(** C5. Each of the two stages raises exactly when its selection query
    fails, with the error of the query and nothing migrated. Otherwise it
    returns, having given every selected item its turn, in order: a turn
    whose [try] block raises adds one to the failed count of the stage and
    appends the message "Record <id>: <error>" with the error it raised,
    a turn whose [try] block returns adds one to the success count, and
    the loop goes on to the next item either way. In total every selected
    item is counted once, and each failure has left one message that
    names the id of its record. *)
Theorem stages_raise_only_on_query_failure batch_size w :
  match fault E (List.length (calls w)) with
  | Some msg =>
      (∃ w', migrate_tier1_to_tier2 E batch_size w = (Exc msg, w')
             ∧ stats w' = stats w ∧ cosmos w' = cosmos w ∧ blobs w' = blobs w)
      ∧ (∃ w', migrate_tier2_to_tier3 E batch_size w = (Exc msg, w')
               ∧ stats w' = stats w ∧ cosmos w' = cosmos w ∧ blobs w' = blobs w)
  | None =>
      (∃ w', migrate_tier1_to_tier2 E batch_size w = (Ok tt, w')
             ∧ steps (counted tier1_to_tier2 (tier2_attempt E))
                 (tier1_selection E batch_size w)
                 (after_query (QTier1Window (isoformat E (clock E (ticks w) - days 30))
                                            (isoformat E (clock E (S (ticks w)) - days 90)))
                              batch_size 2 w) w'
             ∧ accounted tier1_to_tier2 (tier1_selection E batch_size w) w w')
      ∧ (∃ w', migrate_tier2_to_tier3 E batch_size w = (Ok tt, w')
               ∧ steps (counted tier2_to_tier3 (tier3_attempt E))
                   (tier2_selection E batch_size w)
                   (after_query (QTier2Older (isoformat E (clock E (ticks w) - days 90)))
                                batch_size 1 w) w'
               ∧ accounted tier2_to_tier3 (tier2_selection E batch_size w) w w')
  end.
Proof.
  destruct (fault E (List.length (calls w))) as [msg|] eqn:Hf.
  - split.
    + unfold migrate_tier1_to_tier2. monad.
      rewrite (query_items_fault _ _ _ msg) by done. by eexists.
    + unfold migrate_tier2_to_tier3. monad.
      rewrite (query_items_fault _ _ _ msg) by done. by eexists.
  - split.
    + destruct (migrate_tier1_to_tier2_counted batch_size w Hf) as (w' & Hrun & Hsteps).
      exists w'. split; [done|]. split; [exact Hsteps|].
      eapply steps_accounted; [| |eapply steps_impl; [apply counted_stage|exact Hsteps]].
      * done.
      * intros item Hin. apply elem_of_tier1_selection in Hin as (k & d & _ & -> & _).
        exists k. apply lookup_insert_eq.
    + destruct (migrate_tier2_to_tier3_counted batch_size w Hf) as (w' & Hrun & Hsteps).
      exists w'. split; [done|]. split; [exact Hsteps|].
      eapply steps_accounted; [| |eapply steps_impl; [apply counted_stage|exact Hsteps]].
      * done.
      * intros item Hin. apply elem_of_tier2_selection in Hin as (k & d & _ & ->).
        exists k. apply lookup_insert_eq.
Qed.

(** ** Blob paths name their record *)

Lemma lacks_app c0 a b : lacks c0 a → lacks c0 b → lacks c0 (a ++ b)%string.
Proof. induction a as [|c a IH]; cbn; [done|]. intros [? ?] ?. split; auto. Qed.

Lemma append_inj_l (t a b : string) : (t ++ a)%string = (t ++ b)%string → a = b.
Proof. induction t as [|c t IH]; cbn; [done|]. intros [= H]. auto. Qed.

Lemma length_append (a b : string) :
  String.length (a ++ b)%string = (String.length a + String.length b)%nat.
Proof. induction a as [|c a IH]; simpl; [done|]. by f_equal. Qed.

Lemma append_inj_r (t a b : string) : (a ++ t)%string = (b ++ t)%string → a = b.
Proof.
  revert b. induction a as [|c a IH]; intros [|c' b]; simpl; try done.
  - intros H. apply (f_equal String.length) in H.
    rewrite !length_append in H. simpl in H. lia.
  - intros H. apply (f_equal String.length) in H.
    rewrite !length_append in H. simpl in H. lia.
  - intros [= -> H]. f_equal. auto.
Qed.

(** Two strings split at their first occurrence of a character. *)
Lemma split_at_first c0 a b x y :
  lacks c0 a → lacks c0 b →
  (a ++ String c0 x)%string = (b ++ String c0 y)%string → a = b ∧ x = y.
Proof.
  revert b. induction a as [|c a IH]; intros [|c' b]; cbn.
  - intros _ _ [= ->]. done.
  - intros _ [Hc _] [= <- _]. done.
  - intros [Hc _] _ [= -> _]. done.
  - intros [_ Ha] [_ Hb] [= -> H]. destruct (IH b Ha Hb H) as [-> ->]. done.
Qed.

Lemma lacks_string_of_uint c0 d :
  (∀ c, In c (list_ascii_of_string "0123456789") → c ≠ c0) →
  lacks c0 (NilEmpty.string_of_uint d).
Proof.
  intros Hc. induction d; cbn; try done; (split; [apply Hc; cbn; tauto|done]).
Qed.

Lemma lacks_str_int c0 n :
  (∀ c, In c (list_ascii_of_string "-0123456789") → c ≠ c0) →
  lacks c0 (str_int n).
Proof.
  intros Hc.
  assert (Hd : ∀ d, lacks c0 (NilZero.string_of_uint d)).
  { intros d. pose proof (lacks_string_of_uint c0 d) as H.
    destruct d; cbn in *; try (apply H; intros c Hin; apply Hc; cbn in *; tauto).
    split; [apply Hc; cbn; tauto|done]. }
  unfold str_int. destruct (Z.to_int n); cbn; [apply Hd|].
  split; [apply Hc; cbn; tauto|apply Hd].
Qed.

Lemma lacks_pad2 c0 n :
  (∀ c, In c (list_ascii_of_string "-0123456789") → c ≠ c0) →
  lacks c0 (pad2 n).
Proof.
  intros Hc. unfold pad2. destruct (_ && _); [|by apply lacks_str_int].
  cbn. split; [apply Hc; cbn; tauto|by apply lacks_str_int].
Qed.

Lemma safe_char_not_slash c : safe_char c ≠ "/"%char.
Proof. destruct c as [[] [] [] [] [] [] [] []]; vm_compute; discriminate. Qed.

Lemma lacks_sanitize s : lacks "/" (sanitize s).
Proof. induction s as [|c s IH]; cbn; [done|]. split; [apply safe_char_not_slash|done]. Qed.

Lemma not_slash c : In c (list_ascii_of_string "-0123456789") → c ≠ "/"%char.
Proof. cbn. intros H. repeat (destruct H as [<- | H]; [discriminate|]). done. Qed.

Lemma not_e c : In c (list_ascii_of_string "-0123456789") → c ≠ "e"%char.
Proof. cbn. intros H. repeat (destruct H as [<- | H]; [discriminate|]). done. Qed.

(** The two shapes of a generated path. *)
Lemma generate_blob_path_shape (record : gmap string pyval) tier path :
  _generate_blob_path E record tier = Ok path →
  ∃ id, record !! "id" = Some id
    ∧ ((∃ y m d s, lacks "/" y ∧ lacks "e" y ∧ lacks "/" m ∧ lacks "/" d ∧ lacks "/" s
          ∧ path = (tier ++ "/" ++ y ++ "/" ++ m ++ "/" ++ d ++ "/" ++ s ++ "/"
                    ++ py_str id ++ ".json")%string)
       ∨ path = (tier ++ "/error/" ++ py_str id ++ ".json")%string).
Proof.
  unfold _generate_blob_path, blob_path_of, error_path_of.
  destruct (record !! "id") as [id|]; [|intros H; repeat case_match; discriminate].
  intros H. exists id. split; [done|].
  repeat case_match; simplify_eq; auto.
  left. eexists _, _, _, _. split_and!; [..|reflexivity];
    auto using lacks_str_int, lacks_pad2, lacks_sanitize, not_slash, not_e.
Qed.

(** A path is generated for one id only. *)
Lemma generate_blob_path_inj (r1 r2 : gmap string pyval) tier path k1 k2 :
  _generate_blob_path E r1 tier = Ok path →
  _generate_blob_path E r2 tier = Ok path →
  r1 !! "id" = Some (PStr k1) → r2 !! "id" = Some (PStr k2) →
  k1 = k2.
Proof.
  intros H1 H2 Hk1 Hk2.
  apply generate_blob_path_shape in H1 as (id1 & Hid1 & Hs1).
  apply generate_blob_path_shape in H2 as (id2 & Hid2 & Hs2).
  simplify_eq. cbn [py_str] in *.
  destruct Hs1 as [(y1 & m1 & d1 & s1 & Hy1 & He1 & Hm1 & Hd1 & Hs1 & ->) | ->],
           Hs2 as [(y2 & m2 & d2 & s2 & Hy2 & He2 & Hm2 & Hd2 & Hs2 & H) | H];
    apply append_inj_l in H; cbn in H; injection H as H.
  - apply split_at_first in H as [-> H]; [|done..].
    apply split_at_first in H as [-> H]; [|done..].
    apply split_at_first in H as [-> H]; [|done..].
    apply split_at_first in H as [-> H]; [|done..].
    by apply append_inj_r in H.
  - assert (Hy : y1 = "error" ∧ (m1 ++ "/" ++ d1 ++ "/" ++ s1 ++ "/" ++ k1 ++ ".json")%string
                               = (k2 ++ ".json")%string).
    { apply (split_at_first "/" y1 "error"); [done|by repeat split|exact H]. }
    destruct Hy as [-> _]. cbn in He1. tauto.
  - assert (Hy : "error" = y2 ∧ (k1 ++ ".json")%string
                 = (m2 ++ "/" ++ d2 ++ "/" ++ s2 ++ "/" ++ k2 ++ ".json")%string).
    { apply (split_at_first "/" "error" y2); [by repeat split|done|exact H]. }
    destruct Hy as [<- _]. cbn in He2. tauto.
  - exact (append_inj_r ".json" k1 k2 H).
Qed.

(** The path of a record does not change when its pointer is rewritten. *)
Lemma generate_blob_path_hot_pointer (item : gmap string pyval) p t size tier :
  _generate_blob_path E (hot_pointer item p t size) tier = _generate_blob_path E item tier.
Proof.
  unfold _generate_blob_path, blob_path_of, error_path_of, hot_pointer.
  by rewrite !lookup_insert_ne.
Qed.

(** After a turn that migrated its item, the pointer of the item has the
    tier 2 value and, as [blob_path], the hot path of the record. *)
Lemma migrated_pointer_shape item w w' k path :
  item !! "id" = Some (PStr k) →
  _generate_blob_path E item "hot" = Ok path →
  cosmos w' = <[k := hot_pointer item path (isoformat E (clock E (S (ticks w))))
                       (encoded_size E item)]> (cosmos w) →
  ∃ d, cosmos w' !! k = Some d
       ∧ d !! "storage_tier" = Some (PStr "hot_blob")
       ∧ d !! "blob_path" = Some (PStr path)
       ∧ _generate_blob_path E (<["id" := PStr k]> d) "hot" = Ok path.
Proof.
  intros Hid Hpath ->. eexists. split; [apply lookup_insert_eq|].
  destruct (hot_pointer_fields item path (isoformat E (clock E (S (ticks w))))
              (encoded_size E item)) as (H1 & H2 & _).
  split; [exact H1|]. split; [exact H2|].
  rewrite insert_id by (by rewrite hot_pointer_id).
  by rewrite generate_blob_path_hot_pointer.
Qed.

(** C7. A record that was migrated to tier 2, that is, whose pointer has
    [storage_tier = 'hot_blob'] and as [blob_path] the hot path of the
    record, is not selected by [migrate_tier1_to_tier2]; a run of the
    stage, whatever it does to other records, leaves the pointer and the
    blob at that path as they were. *)
Theorem migrated_record_is_skipped batch_size w k d path :
  cosmos w !! k = Some d →
  d !! "storage_tier" = Some (PStr "hot_blob") →
  d !! "blob_path" = Some (PStr path) →
  _generate_blob_path E (<["id" := PStr k]> d) "hot" = Ok path →
  let w' := (migrate_tier1_to_tier2 E batch_size w).2 in
  (∀ item, item ∈ tier1_selection E batch_size w → item !! "id" ≠ Some (PStr k))
  ∧ cosmos w' !! k = Some d
  ∧ blobs w' !! (hot_container, path) = blobs w !! (hot_container, path).
Proof.
  intros Hk Htier Hbp Hpath w'.
  assert (Hskip : ∀ item, item ∈ tier1_selection E batch_size w →
                          item !! "id" ≠ Some (PStr k)).
  { intros item Hin Hid.
    apply elem_of_tier1_selection in Hin as (k' & d' & Hk' & -> & _ & Hel).
    rewrite lookup_insert_eq in Hid. simplify_eq.
    destruct Hel as [H | [H | H]]; congruence. }
  split; [exact Hskip|].
  subst w'.
  destruct (fault E (List.length (calls w))) as [msg|] eqn:Hf.
  { unfold migrate_tier1_to_tier2. monad.
    rewrite (query_items_fault _ _ _ msg) by done. by cbn. }
  destruct (migrate_tier1_to_tier2_run batch_size w Hf) as (w' & Hrun & Hsteps).
  rewrite Hrun. cbn [snd]. split.
  - by rewrite (steps_cosmos_frame _ _ _ k Hsteps).
  - rewrite (steps_blobs_frame _ _ _ hot_container path Hsteps); [done|].
    intros _ item Hin Hitem.
    pose proof (Hskip item Hin) as Hne.
    apply elem_of_tier1_selection in Hin as (k' & d' & Hk' & -> & _).
    apply Hne. rewrite lookup_insert_eq. do 2 f_equal.
    eapply (generate_blob_path_inj _ _ "hot" path); [exact Hitem|exact Hpath|..];
      apply lookup_insert_eq.
Qed.

End Migration.

Section BlobPath.

Variable E : env.





End BlobPath.

(** * The model on the example worlds *)

(** Closes an equation between closed terms by evaluating its two sides. *)
Ltac evaluate :=
  lazymatch goal with
  | |- _ = ?rhs => vm_cast_no_check (@eq_refl _ rhs)
  end.

(** C1 at the record of 40 days, which has no [storage_tier]. *)
Lemma get_tier1_record_witness :
  cosmos scenario !! "r-mid" = Some r_mid
  ∧ r_mid !! "storage_tier" = None
  ∧ ∃ t w',
      get_billing_record (ref_env june_1st) "r-mid" scenario
      = (Ok (Some (ODict (<["id" := PStr "r-mid"]> r_mid)), "tier1-cosmos", t), w')
      ∧ blob_calls w' = blob_calls scenario.
Proof.
  split; [reflexivity|]. split; [reflexivity|].
  destruct (get_tier1_record (ref_env june_1st) scenario "r-mid" r_mid)
    as (t & w' & Hrun & _ & Hblob & _); [reflexivity | reflexivity | left; reflexivity |].
  exists t, w'. split; [exact Hrun | exact Hblob].
Defined.

(** C2 as stated fails on a blob that holds the empty JSON object: the
    download and the decoding succeed, and the lookup reports
    ['not-found']. *)
Lemma empty_blob_is_not_found :
  (download_json (ref_env june_1st) hot_container (PStr "hot/x.json") empty_blob_world).1
  = Ok (ODict ∅)
  ∧ (get_billing_record (ref_env june_1st) "r1" empty_blob_world).1
    = Ok (None, "not-found", 0).
Proof. split; evaluate. Qed.

(** The amended C2 at the record of 100 days, whose blob is in place. *)
Lemma get_tier2_record_witness :
  cosmos scenario !! "r-old" = Some r_old
  ∧ r_old !! "storage_tier" = Some (PStr "hot_blob")
  ∧ ∃ t w',
      get_billing_record (ref_env june_1st) "r-old" scenario
      = (Ok (Some (ODict (<["id" := PStr "r-old"]> r_old)), "tier2-hot", t), w')
      ∧ blob_calls w'
        = blob_calls scenario ++ [BlobDownload hot_container "hot/2024/02/22/acme/r-old.json"].
Proof.
  split; [reflexivity|]. split; [reflexivity|].
  destruct (get_tier2_record (ref_env june_1st) scenario "r-old" r_old)
    as [Hfound _]; [reflexivity | reflexivity | reflexivity |].
  destruct (Hfound "hot/2024/02/22/acme/r-old.json" (ODict (<["id" := PStr "r-old"]> r_old)))
    as (t & w' & Hrun & Hblob & _);
    [reflexivity | discriminate | reflexivity | reflexivity | reflexivity |].
  exists t, w'. split; [exact Hrun | exact Hblob].
Defined.

(** C10 at a pointer in tier 2 without [blob_path]. *)
Lemma get_unresolvable_pointer_witness :
  (∃ d, cosmos no_path_world !! "r1" = Some d
        ∧ d !! "storage_tier" = Some (PStr "hot_blob") ∧ d !! "blob_path" = None)
  ∧ ∃ t w',
      get_billing_record (ref_env june_1st) "r1" no_path_world = (Ok (None, "not-found", t), w')
      ∧ cache_misses (performance_stats w') = 1%nat
      ∧ is_Some (cosmos w' !! "r1").
Proof.
  split; [eexists; split; [reflexivity|]; split; reflexivity|].
  destruct (get_unresolvable_pointer (ref_env june_1st) no_path_world "r1"
              {[ "storage_tier" := PStr "hot_blob"; "amount" := PInt 5 ]} (PStr "hot_blob"))
    as (t & w' & Hrun & Hmiss & _ & _ & _ & _ & Hstill);
    [reflexivity | reflexivity | reflexivity | discriminate | discriminate
     | right; reflexivity |].
  exists t, w'. split; [exact Hrun|]. split; [exact Hmiss|].
  rewrite Hstill. by eexists.
Defined.

(** C9 as stated fails when the store is unreachable: both operations
    return instead of raising. *)
Lemma unreachable_store_is_swallowed :
  fault (faulty_env june_1st 0) 0 = Some "ServiceUnavailable"
  ∧ (get_records_by_customer (faulty_env june_1st 0) (PStr "acme") 100 scenario).1 = Ok []
  ∧ (get_storage_statistics (faulty_env june_1st 0) scenario).1
    = Ok (StorageStats (PInt 0) (PInt 0) (PInt 0) 0 (PerfSnapshot 0)).
Proof. split_and!; evaluate. Qed.

(** The amended C9 on the same run. *)
Lemma query_failure_is_swallowed_witness :
  fault (faulty_env june_1st 0) (List.length (calls scenario)) = Some "ServiceUnavailable"
  ∧ ∃ w', get_records_by_customer (faulty_env june_1st 0) (PStr "acme") 100 scenario
          = (Ok [], w').
Proof.
  split; [reflexivity|].
  destruct (query_failure_is_swallowed (faulty_env june_1st 0) scenario "ServiceUnavailable"
              (PStr "acme") 100) as [Hcust _]; [reflexivity|].
  exact Hcust.
Defined.

(** C8 on a store with two tier 1 records, one without [storage_tier] and
    one with ['cosmos']: the second row of the aggregation overwrites the
    count of the first, and the tier 1 count comes out as 1. *)
Lemma mixed_tier1_counts :
  (get_storage_statistics (ref_env june_1st) mixed_world).1
  = Ok (StorageStats (PInt 1) (PInt 1) (PInt 0) 3 (PerfSnapshot 0)).
Proof. reflexivity. Qed.

(** The scenario of the spec, where both tier 1 records lack
    [storage_tier]. *)
Example scenario_counts :
  (get_storage_statistics (ref_env june_1st) scenario).1
  = Ok (StorageStats (PInt 2) (PInt 1) (PInt 0) 3 (PerfSnapshot 0)).
Proof. reflexivity. Qed.





(** The scenario of the spec: only the record of 40 days is migrated. *)
Example scenario_migration :
  let w' := (migrate_tier1_to_tier2 (ref_env june_1st) 10 scenario).2 in
  tier1_selection (ref_env june_1st) 10 scenario = [<["id" := PStr "r-mid"]> r_mid]
  ∧ tier1_to_tier2 (stats w') = Stage 1 0 []
  ∧ cosmos w' !! "r-mid" ≫= (.!! "storage_tier") = Some (PStr "hot_blob")
  ∧ cosmos w' !! "r-mid" ≫= (.!! "blob_path") = Some (PStr "hot/2024/04/22/cust_1_2/r-mid.json")
  ∧ blobs w' !! (hot_container, "hot/2024/04/22/cust_1_2/r-mid.json")
    = Some (Encoded (ODict (<["id" := PStr "r-mid"]> r_mid)))
  ∧ cosmos w' !! "r-new" = Some r_new
  ∧ cosmos w' !! "r-old" = Some r_old.
Proof. cbv zeta. split_and!; evaluate. Qed.

(** When the upload fails, the pointer stays and the record is counted as
    failed. *)
Example scenario_failed_upload :
  let w' := (migrate_tier1_to_tier2 (faulty_env june_1st 1) 10 scenario).2 in
  tier1_to_tier2 (stats w') = Stage 0 1 ["Record r-mid: ServiceUnavailable"]
  ∧ cosmos w' = cosmos scenario
  ∧ blobs w' = blobs scenario.
Proof. cbv zeta. split_and!; evaluate. Qed.

(** C7 at the record of 100 days of the scenario. *)
Lemma migrated_record_is_skipped_witness :
  cosmos scenario !! "r-old" = Some r_old
  ∧ let w' := (migrate_tier1_to_tier2 (ref_env june_1st) 10 scenario).2 in
    cosmos w' !! "r-old" = Some r_old
    ∧ blobs w' !! (hot_container, "hot/2024/02/22/acme/r-old.json")
      = blobs scenario !! (hot_container, "hot/2024/02/22/acme/r-old.json").
Proof.
  split; [reflexivity|].
  destruct (migrated_record_is_skipped (ref_env june_1st) 10 scenario "r-old" r_old
              "hot/2024/02/22/acme/r-old.json")
    as (_ & Hpointer & Hblob); [reflexivity | reflexivity | reflexivity | reflexivity |].
  split; [exact Hpointer | exact Hblob].
Defined.

(** A second run of the stage after a first one selects nothing, counts
    nothing and calls no blob store. *)
Example second_run_changes_nothing :
  let w1 := (migrate_tier1_to_tier2 (ref_env june_1st) 10 scenario).2 in
  let w2 := (migrate_tier1_to_tier2 (ref_env june_1st) 10 w1).2 in
  tier1_selection (ref_env june_1st) 10 w1 = []
  ∧ tier1_to_tier2 (stats w2) = Stage 1 0 []
  ∧ blob_calls w2 = [BlobUpload hot_container "hot/2024/04/22/cust_1_2/r-mid.json"].
Proof. cbv zeta. split_and!; evaluate. Qed.

(** * Further properties of the retrieval engine *)

(** Projects the fields out of a world built by the setters. *)
Ltac world :=
  cbn [cosmos blobs calls ticks performance_stats stats
       set_cosmos set_blobs set_perf set_stats log_call tick].

Section MoreRetrieval.

Variable E : env.

(** The pointer lookup never raises: it finds the document, or reports
    nothing when the document is missing or the read fails. *)
Lemma search_cosmos_any w id :
  ∃ found t,
    _search_cosmos_db E id w = (Ok (found, t), tick (log_call (CosmosRead id) (tick w)))
    ∧ ((cosmos w !! id = None ∨ is_Some (fault E (List.length (calls w)))) ∧ found = None
       ∨ ∃ d, cosmos w !! id = Some d ∧ fault E (List.length (calls w)) = None
              ∧ found = Some (<["id" := PStr id]> d)).
Proof.
  unfold _search_cosmos_db, read_item, store_call. monad. cbn [calls tick].
  destruct (fault E (List.length (calls w))) as [msg|] eqn:Hf.
  { eexists _, _. split; [reflexivity|]. left. split; [right; by eexists|done]. }
  cbn [cosmos log_call tick].
  destruct (cosmos w !! id) as [d|] eqn:Hd.
  - eexists _, _. split; [reflexivity|]. right. by exists d.
  - eexists _, _. split; [reflexivity|]. left. split; [by left|done].
Qed.

Lemma blob_calls_log c w :
  blob_calls (log_call c w) = blob_calls w ++ (if is_blob_call c then [c] else []).
Proof.
  unfold blob_calls. cbn [calls log_call]. rewrite List.filter_app. cbn.
  by destruct (is_blob_call c).
Qed.

(** One blob branch of the lookup: it falls through and leaves the
    counters alone, or returns what the blob store gave and counts a hit.
    It changes neither store. *)
Lemma blob_branch_any st record tv c hit src w :
  ∃ out w',
    blob_branch E st record tv (search_blob E c) hit src w = (Ok out, w')
    ∧ same_stores w w'
    ∧ (out = None ∧ performance_stats w' = performance_stats w
       ∨ ∃ o t, out = Some (Some o, src, t)
                ∧ performance_stats w' = hit t (performance_stats w)).
Proof.
  destruct (record_and record (λ r, eq_str (dict_get r "storage_tier") tv)) eqn:Hr.
  2:{ rewrite blob_branch_skip by done. eexists _, _. split; [reflexivity|].
      split; [done|]. by left. }
  destruct (search_blob_result E c (record_get record "blob_path") w)
    as (found & t & w' & Hs & Hc & Hb & Hp & _).
  assert (Hst : stats w' = stats w).
  { revert Hs. unfold search_blob, download_json, store_call. monad.
    repeat (split_match; cbn [fst snd]; try discriminate); intros [= <- <- <-]; done. }
  erewrite blob_branch_run; [|exact Hr|exact Hs].
  destruct found as [o|]; cbn [blob_truthy]; [destruct (obj_truthy o)|].
  - eexists _, _. split; [reflexivity|]. split; [done|].
    right. eexists o, _. split; [reflexivity|]. cbn. by rewrite Hp.
  - eexists _, _. split; [reflexivity|]. split; [done|]. by left.
  - eexists _, _. split; [reflexivity|]. split; [done|]. by left.
Qed.

Lemma requests_hit_tier1 t p : requests (hit_tier1 t p) = S (requests p).
Proof. unfold requests. cbn. lia. Qed.

Lemma requests_hit_tier2 t p : requests (hit_tier2 t p) = S (requests p).
Proof. unfold requests. cbn. lia. Qed.

Lemma requests_hit_tier3 t p : requests (hit_tier3 t p) = S (requests p).
Proof. unfold requests. cbn. lia. Qed.

Lemma requests_miss p : requests (miss p) = S (requests p).
Proof. unfold requests. cbn. lia. Qed.

Lemma latencies_hit_tier1 t p : latencies_match p → latencies_match (hit_tier1 t p).
Proof. unfold latencies_match. cbn. rewrite length_app. cbn. lia. Qed.

Lemma latencies_hit_tier2 t p : latencies_match p → latencies_match (hit_tier2 t p).
Proof. unfold latencies_match. cbn. rewrite length_app. cbn. lia. Qed.

Lemma latencies_hit_tier3 t p : latencies_match p → latencies_match (hit_tier3 t p).
Proof. unfold latencies_match. cbn. rewrite length_app. cbn. lia. Qed.

(** What any lookup does to the world and what it can return. *)
Lemma get_billing_record_effect w id :
  ∃ record source t w',
    get_billing_record E id w = (Ok (record, source, t), w')
    ∧ same_stores w w'
    ∧ requests (performance_stats w') = S (requests (performance_stats w))
    ∧ (latencies_match (performance_stats w) → latencies_match (performance_stats w'))
    ∧ is_source source
    ∧ (record = None ↔ source = "not-found").
Proof.
  unfold get_billing_record. monad.
  destruct (search_cosmos_any (tick w) id) as (found & t0 & Hs & _).
  rewrite Hs. cbn [fst snd].
  set (w1 := tick (log_call (CosmosRead id) (tick (tick w)))).
  destruct (record_and found _is_record_in_tier1) eqn:Ht1.
  { destruct found as [r|]; [|done].
    eexists _, _, _, _. split; [reflexivity|]. world.
    split; [done|]. split; [apply requests_hit_tier1|].
    split; [apply latencies_hit_tier1|]. split; [by left|]. split; discriminate. }
  unfold _search_hot_blob, _search_cold_blob.
  destruct (blob_branch_any (clock E (ticks w)) found "hot_blob" hot_container
              hit_tier2 "tier2-hot" w1) as (out2 & w2 & Hb2 & (Hc2 & Hbl2 & Hst2) & Hout2).
  change (λ blob_path, search_blob E hot_container blob_path)
    with (search_blob E hot_container).
  rewrite Hb2.
  destruct Hout2 as [[-> Hp2] | (o & t & -> & Hp2)].
  2:{ eexists _, _, _, _. split; [reflexivity|].
      split; [unfold same_stores; by rewrite Hc2, Hbl2, Hst2|]. rewrite Hp2.
      split; [apply requests_hit_tier2|]. split; [apply latencies_hit_tier2|].
      split; [right; by left|]. split; discriminate. }
  destruct (blob_branch_any (clock E (ticks w)) found "cold_blob" cold_container
              hit_tier3 "tier3-cold" w2) as (out3 & w3 & Hb3 & (Hc3 & Hbl3 & Hst3) & Hout3).
  change (λ blob_path, search_blob E cold_container blob_path)
    with (search_blob E cold_container).
  rewrite Hb3.
  destruct Hout3 as [[-> Hp3] | (o & t & -> & Hp3)].
  2:{ eexists _, _, _, _. split; [reflexivity|].
      split; [unfold same_stores; by rewrite Hc3, Hbl3, Hst3, Hc2, Hbl2, Hst2|].
      rewrite Hp3, Hp2.
      split; [apply requests_hit_tier3|]. split; [apply latencies_hit_tier3|].
      split; [right; right; by left|]. split; discriminate. }
  eexists _, _, _, _. split; [reflexivity|]. world.
  split; [unfold same_stores; world; by rewrite Hc3, Hbl3, Hst3, Hc2, Hbl2, Hst2|].
  rewrite Hp3, Hp2.
  split; [apply requests_miss|]. split; [done|].
  split; [right; right; by right|]. done.
Qed.

(** X1. A lookup never raises and never writes: it leaves both stores and
    the migration statistics as they were. It adds exactly one to the
    total of the four counters, keeps one latency on record per hit, and
    reports one of the four sources, ['not-found'] exactly when it returns
    no record. *)
Theorem lookup_only_reads_and_counts w id :
  ∃ record source t w',
    get_billing_record E id w = (Ok (record, source, t), w')
    ∧ same_stores w w'
    ∧ requests (performance_stats w') = S (requests (performance_stats w))
    ∧ (latencies_match (performance_stats w) → latencies_match (performance_stats w'))
    ∧ is_source source
    ∧ (record = None ↔ source = "not-found").
Proof. apply get_billing_record_effect. Qed.

(** X2. When the pointer is not in the primary store, or the read of the
    pointer fails, the lookup reports ['not-found'] with no record and
    counts a miss; the read is the only store call, so no blob store is
    asked even if a blob of the record exists. *)
Theorem get_missing_record w id :
  cosmos w !! id = None ∨ is_Some (fault E (List.length (calls w))) →
  ∃ t w',
    get_billing_record E id w = (Ok (None, "not-found", t), w')
    ∧ calls w' = calls w ++ [CosmosRead id]
    ∧ cache_misses (performance_stats w') = S (cache_misses (performance_stats w))
    ∧ tier1_hits (performance_stats w') = tier1_hits (performance_stats w)
    ∧ tier2_hits (performance_stats w') = tier2_hits (performance_stats w)
    ∧ tier3_hits (performance_stats w') = tier3_hits (performance_stats w).
Proof.
  intros Hmiss. unfold get_billing_record. monad.
  destruct (search_cosmos_any (tick w) id) as (found & t0 & Hs & Hfound).
  rewrite Hs. cbn [fst snd].
  assert (found = None) as ->.
  { destruct Hfound as [[_ ->] | (d & Hd & Hf & _)]; [done|].
    cbn [cosmos calls tick] in Hd, Hf.
    destruct Hmiss as [Hnone | [msg Hmsg]]; congruence. }
  cbn [record_and]. rewrite !blob_branch_skip by done.
  eexists _, _. split; [reflexivity|]. done.
Qed.

(** X3. For a pointer whose [storage_tier] is ['cold_blob']: when
    [blob_path] is a non-empty string, the download from the cold container
    goes through and the blob decodes to a truthy value, the lookup returns
    that value with the source ['tier3-cold'], counts a tier 3 hit, and its
    one blob call is that download, so the hot container is not asked; in
    every other case it reports ['not-found'] and counts a miss. *)
Theorem get_tier3_record w id d :
  cosmos w !! id = Some d →
  fault E (List.length (calls w)) = None →
  d !! "storage_tier" = Some (PStr "cold_blob") →
  (∀ p o,
     d !! "blob_path" = Some (PStr p) → p ≠ "" →
     fault E (S (List.length (calls w))) = None →
     blobs w !! (cold_container, p) = Some (Encoded o) →
     obj_truthy o = true →
     ∃ t w', get_billing_record E id w = (Ok (Some o, "tier3-cold", t), w')
             ∧ blob_calls w' = blob_calls w ++ [BlobDownload cold_container p]
             ∧ tier3_hits (performance_stats w') = S (tier3_hits (performance_stats w)))
  ∧ ((∀ p o, ¬ (d !! "blob_path" = Some (PStr p) ∧ p ≠ ""
                ∧ fault E (S (List.length (calls w))) = None
                ∧ blobs w !! (cold_container, p) = Some (Encoded o)
                ∧ obj_truthy o = true)) →
     ∃ t w', get_billing_record E id w = (Ok (None, "not-found", t), w')
             ∧ cache_misses (performance_stats w') = S (cache_misses (performance_stats w))).
Proof.
  intros Hd Hf Ht.
  assert (Hget : dict_get d "storage_tier" = PStr "cold_blob").
  { unfold dict_get. by rewrite Ht. }
  assert (Hin : _is_record_in_tier1 d = false).
  { by apply (in_tier1_false d (PStr "cold_blob")). }
  pose proof (get_past_tier1 E w id d Hd Hf Hin) as Hstart.
  set (w1 := tick (log_call (CosmosRead id) (tick (tick w)))) in *.
  assert (Hlen : List.length (calls w1) = S (List.length (calls w))).
  { subst w1. simpl. rewrite length_app. simpl. lia. }
  assert (Hhot : record_and (Some (<["id" := PStr id]> d))
                   (λ r, eq_str (dict_get r "storage_tier") "hot_blob") = false).
  { rewrite record_and_with_id, Hget. done. }
  assert (Hcold : record_and (Some (<["id" := PStr id]> d))
                    (λ r, eq_str (dict_get r "storage_tier") "cold_blob") = true).
  { rewrite record_and_with_id, Hget. done. }
  split.
  - intros p o Hp Hne Hf2 Hb Ho.
    rewrite Hstart. monad.
    rewrite blob_branch_skip by exact Hhot.
    erewrite blob_branch_run; [|exact Hcold|].
    2:{ cbn [record_get]. rewrite dict_get_with_id by done.
        unfold dict_get. rewrite Hp.
        change (default PNone (Some (PStr p))) with (PStr p).
        unfold _search_cold_blob. apply search_blob_found; [done| |done].
        by rewrite Hlen. }
    cbn [blob_truthy]. rewrite Ho.
    eexists _, _. split; [reflexivity|].
    subst w1. unfold blob_calls. simpl.
    rewrite !List.filter_app. simpl. by rewrite app_nil_r.
  - intros Hno.
    rewrite Hstart. monad.
    rewrite blob_branch_skip by exact Hhot.
    destruct (search_blob_result E cold_container
                (record_get (Some (<["id" := PStr id]> d)) "blob_path") w1)
      as (found & t & w' & Hs & _ & _ & Hperf & Hfound).
    erewrite blob_branch_run; [|exact Hcold|exact Hs].
    assert (Hfalse : blob_truthy found = false).
    { destruct found as [o|]; [|done]. cbn [blob_truthy].
      destruct (obj_truthy o) eqn:Ho; [|done].
      destruct (Hfound o eq_refl) as (p & Hp & Hne & Hf2 & Hb).
      exfalso. apply (Hno p o).
      split; [|split; [exact Hne|split; [by rewrite <- Hlen|split; [exact Hb|exact Ho]]]].
      cbn [record_get] in Hp. rewrite dict_get_with_id in Hp by done.
      unfold dict_get in Hp. destruct (d !! "blob_path") as [v|]; simpl in Hp; by subst. }
    rewrite Hfalse.
    eexists _, _. split; [reflexivity|].
    simpl. by rewrite Hperf.
Qed.

(** X4. A batch lookup never raises and answers the ids in the order
    given, one result per id, each with one of the four sources and
    ['not-found'] exactly where it has no record; it changes neither store
    and adds the number of ids to the total of the counters. *)
Theorem get_multiple_records_in_order ids w :
  ∃ results w',
    get_multiple_records E ids w = (Ok results, w')
    ∧ (λ r, r.1.1.1) <$> results = ids
    ∧ Forall (λ r, is_source r.1.2 ∧ (r.1.1.2 = None ↔ r.1.2 = "not-found")) results
    ∧ same_stores w w'
    ∧ requests (performance_stats w')
      = (requests (performance_stats w) + List.length ids)%nat
    ∧ (latencies_match (performance_stats w) → latencies_match (performance_stats w')).
Proof.
  revert w. induction ids as [|id ids IH]; intros w.
  - exists [], w. split; [done|]. split; [done|]. split; [constructor|].
    split; [done|]. split; [cbn [List.length]; lia|done].
  - destruct (get_billing_record_effect w id)
      as (record & source & t & w1 & Hrun & (Hc & Hb & Hs) & Hreq & Hlat & Hsrc & Hnone).
    destruct (IH w1) as (results & w2 & Hrest & Hids & Hall & (Hc2 & Hb2 & Hs2) & Hreq2 & Hlat2).
    eexists _, w2. cbn [get_multiple_records]. monad. rewrite Hrun, Hrest.
    split; [reflexivity|]. cbn [fst snd fmap list_fmap].
    split; [by rewrite <- Hids|]. split; [by constructor|].
    split; [unfold same_stores; by rewrite Hc2, Hb2, Hs2|].
    split; [rewrite Hreq2, Hreq; cbn; lia|auto].
Qed.

Lemma search_blob_stats c bp w r w' :
  search_blob E c bp w = (r, w') → stats w' = stats w.
Proof.
  unfold search_blob, download_json, store_call. monad.
  repeat (split_match; cbn [fst snd]; try discriminate); intros [= <- <-]; done.
Qed.

Lemma dict_get_str (d : gmap string pyval) k s :
  dict_get d k = PStr s → d !! k = Some (PStr s).
Proof. unfold dict_get. destruct (d !! k); cbn; [congruence|discriminate]. Qed.

(** The entry a blob pointer resolves to, if any. *)
Lemma resolve_blob_item item tier_value c src w :
  (tier_value = "hot_blob" ∧ c = hot_container ∧ src = "tier2-hot"
   ∨ tier_value = "cold_blob" ∧ c = cold_container ∧ src = "tier3-cold") →
  eq_str (dict_get item "storage_tier") tier_value = true →
  ∃ r w',
    (found <- search_blob E c (dict_get item "blob_path");;
     match found.1 with
     | Some blob_record =>
         if obj_truthy blob_record then
           id <- item_id item;;
           ret (Some (CustomerEntry blob_record src id))
         else ret None
     | None => ret None
     end)%py w = (r, w')
    ∧ same_stores w w'
    ∧ performance_stats w' = performance_stats w
    ∧ ∀ e, r = Ok (Some e) → entry_of (blobs w) item e.
Proof.
  intros Hkind Htier. monad.
  destruct (search_blob_result E c (dict_get item "blob_path") w)
    as (found & t & w' & Hs & Hc & Hb & Hp & Hfound).
  pose proof (search_blob_stats _ _ _ _ _ Hs) as Hst.
  rewrite Hs. cbn [fst snd].
  destruct found as [o|]; [destruct (obj_truthy o) eqn:Ho|].
  - unfold item_id. destruct (item !! "id") as [v|] eqn:Hid; monad.
    + eexists _, _. split; [reflexivity|]. split; [done|]. split; [done|].
      intros e [= <-]. split; [done|]. right.
      destruct (Hfound o eq_refl) as (p & Hbp & _ & _ & Hblob).
      exists tier_value, c, p. cbn.
      split; [exact Hkind|]. split; [by apply dict_get_str, eq_str_true|].
      split; [by apply dict_get_str|]. done.
    + eexists _, _. split; [reflexivity|]. split; [done|]. split; [done|]. discriminate.
  - eexists _, _. split; [reflexivity|]. split; [done|]. split; [done|]. discriminate.
  - eexists _, _. split; [reflexivity|]. split; [done|]. split; [done|]. discriminate.
Qed.

(** One turn of the loop of the customer listing. *)
Lemma resolve_item_any item w :
  ∃ r w',
    resolve_item E item w = (r, w')
    ∧ same_stores w w'
    ∧ performance_stats w' = performance_stats w
    ∧ ∀ e, r = Ok (Some e) → entry_of (blobs w) item e.
Proof.
  unfold resolve_item.
  destruct (_is_record_in_tier1 item) eqn:H1.
  { unfold item_id. destruct (item !! "id") as [v|] eqn:Hid; monad.
    - eexists _, _. split; [reflexivity|]. split; [done|]. split; [done|].
      intros e [= <-]. split; [done|]. by left.
    - eexists _, _. split; [reflexivity|]. split; [done|]. split; [done|]. discriminate. }
  destruct (eq_str (dict_get item "storage_tier") "hot_blob") eqn:Hh.
  { apply (resolve_blob_item item "hot_blob" hot_container "tier2-hot"); auto. }
  destruct (eq_str (dict_get item "storage_tier") "cold_blob") eqn:Hcold.
  { apply (resolve_blob_item item "cold_blob" cold_container "tier3-cold"); auto. }
  eexists _, _. split; [reflexivity|]. split; [done|]. split; [done|]. discriminate.
Qed.

#[local] Instance created_ge_total : Total created_ge.
Proof. intros d1 d2. unfold created_ge, created_le. apply sql_leb_total. Qed.

(** What a blob search finds when its download goes through. *)
Lemma search_blob_fetch c bp w :
  ∃ found t w',
    search_blob E c bp w = (Ok (found, t), w')
    ∧ (fault E (List.length (calls w)) = None → found = blob_at (blobs w) c bp).
Proof.
  unfold search_blob, blob_at, download_json, store_call.
  destruct bp as [| b | n | s]; cbn [truthy negb]; monad; cbn [calls tick blobs log_call];
    repeat (split_match; cbn [fst snd negb calls tick blobs log_call]);
    eexists _, _, _; (split; [reflexivity|]); try done; intros; congruence.
Qed.

(** Which pointers one turn of the loop of the customer listing keeps. *)
Lemma resolve_item_result item w :
  is_Some (item !! "id") →
  ∃ r, (resolve_item E item w).1 = Ok r
       ∧ (_is_record_in_tier1 item = true → is_Some r)
       ∧ (fault E (List.length (calls w)) = None →
          (is_Some r ↔ resolvable (blobs w) item = true)).
Proof.
  intros [v Hid]. unfold resolve_item, resolvable, item_id, _search_hot_blob, _search_cold_blob.
  rewrite Hid.
  destruct (_is_record_in_tier1 item) eqn:H1; monad.
  { eexists. split; [reflexivity|]. split; [by eexists|]. intros _. split; [done|by eexists]. }
  cbn [orb].
  destruct (eq_str (dict_get item "storage_tier") "hot_blob") eqn:Hh.
  { assert (Hc : eq_str (dict_get item "storage_tier") "cold_blob" = false).
    { destruct (dict_get item "storage_tier"); try done. cbn in *.
      apply String.eqb_eq in Hh as ->. done. }
    rewrite Hc. cbn [andb]. rewrite orb_false_r.
    destruct (search_blob_fetch hot_container (dict_get item "blob_path") w)
      as (found & t & w' & Hs & Hfound).
    rewrite Hs. cbn [fst snd].
    destruct found as [o|].
    - destruct (obj_truthy o) eqn:Ho.
      + eexists. split; [reflexivity|]. split; [done|]. intros Hf.
        rewrite <- (Hfound Hf). cbn. rewrite Ho. split; [done|by eexists].
      + eexists. split; [reflexivity|]. split; [done|]. intros Hf.
        rewrite <- (Hfound Hf). cbn. rewrite Ho. split; [by intros [? [=]]|done].
    - eexists. split; [reflexivity|]. split; [done|]. intros Hf.
      rewrite <- (Hfound Hf). cbn. split; [by intros [? [=]]|done]. }
  cbn [andb orb].
  destruct (eq_str (dict_get item "storage_tier") "cold_blob") eqn:Hc.
  { cbn [andb].
    destruct (search_blob_fetch cold_container (dict_get item "blob_path") w)
      as (found & t & w' & Hs & Hfound).
    rewrite Hs. cbn [fst snd].
    destruct found as [o|].
    - destruct (obj_truthy o) eqn:Ho.
      + eexists. split; [reflexivity|]. split; [done|]. intros Hf.
        rewrite <- (Hfound Hf). cbn. rewrite Ho. split; [done|by eexists].
      + eexists. split; [reflexivity|]. split; [done|]. intros Hf.
        rewrite <- (Hfound Hf). cbn. rewrite Ho. split; [by intros [? [=]]|done].
    - eexists. split; [reflexivity|]. split; [done|]. intros Hf.
      rewrite <- (Hfound Hf). cbn. split; [by intros [? [=]]|done]. }
  eexists. split; [reflexivity|]. split; [done|]. intros _. cbn. split; [by intros [? [=]]|done].
Qed.

(** The loop of the customer listing keeps the order of the pointers, keeps
    every pointer of tier 1 and drops those it cannot resolve. *)
Lemma resolve_items_run items w :
  Forall (λ i : gmap string pyval, is_Some (i !! "id")) items →
  ∃ l w' kept,
    resolve_items E items w = (Ok l, w')
    ∧ same_stores w w'
    ∧ performance_stats w' = performance_stats w
    ∧ kept `sublist_of` items
    ∧ Forall2 (entry_of (blobs w)) kept l
    ∧ (∀ item, item ∈ items → _is_record_in_tier1 item = true → item ∈ kept)
    ∧ ((∀ n, fault E n = None) → kept = List.filter (resolvable (blobs w)) items).
Proof.
  intros Hids. revert w. induction Hids as [|item items Hid _ IH]; intros w.
  - exists [], w, []. split; [reflexivity|]. split; [done|]. split; [done|].
    split; [constructor|]. split; [constructor|]. split; [by intros ? ?%elem_of_nil|done].
  - destruct (resolve_item_any item w) as (r1 & w1 & Hrun & (Hc & Hb & Hs) & Hp & He).
    destruct (resolve_item_result item w Hid) as (r & Hr & Htier1 & Hexact).
    rewrite Hrun in Hr. cbn [fst] in Hr. subst r1.
    destruct (IH w1) as (l & w2 & kept & Hrest & (Hc2 & Hb2 & Hs2) & Hp2 & Hsub & Hall & Hin1 & Hfil).
    rewrite Hb in Hall, Hfil.
    cbn [resolve_items]. monad. rewrite Hrun, Hrest.
    destruct r as [e|].
    + exists (e :: l), w2, (item :: kept). split; [reflexivity|].
      split; [unfold same_stores; by rewrite Hc2, Hb2, Hs2|].
      split; [by rewrite Hp2|].
      split; [by constructor|].
      split; [constructor; [by apply He|done]|].
      split.
      * intros i [->|Hi]%elem_of_cons Ht; [by left|right; by apply Hin1].
      * intros Hnf. cbn [List.filter].
        destruct (Hexact (Hnf _)) as [Hres _]. rewrite Hres by (by eexists).
        f_equal. by apply Hfil.
    + exists l, w2, kept. split; [reflexivity|].
      split; [unfold same_stores; by rewrite Hc2, Hb2, Hs2|].
      split; [by rewrite Hp2|].
      split; [by constructor|].
      split; [done|].
      split.
      * intros i [->|Hi]%elem_of_cons Ht; [|by apply Hin1].
        by destruct (Htier1 Ht) as [? [=]].
      * intros Hnf. cbn [List.filter].
        destruct (Hexact (Hnf _)) as [_ Hres].
        destruct (resolvable (blobs w) item); [by destruct Hres as [? [=]]|].
        by apply Hfil.
Qed.

(** X5. The customer listing never raises, changes neither store and does
    not touch the hit counters. When its query fails it returns the empty
    list. Otherwise it goes through the first [limit] pointers of the
    customer, newest first, and its entries answer, in order, the pointers
    it keeps: each entry carries the id of its pointer and either the
    pointer itself (tier 1) or the truthy content of the blob the pointer
    names in the container of its tier. Every tier 1 pointer is kept; when
    no store call fails, the pointers kept are exactly the tier 1 pointers
    and the pointers of tier 2 and tier 3 whose blob holds a truthy
    value. *)
Theorem customer_listing_resolves_pointers w customer_id limit :
  ∃ entries w' all kept,
    get_records_by_customer E customer_id limit w = (Ok entries, w')
    ∧ same_stores w w'
    ∧ performance_stats w' = performance_stats w
    ∧ Sorted created_ge all
    ∧ (∀ item, item ∈ all ↔
         ∃ k d, cosmos w !! k = Some d ∧ item = <["id" := PStr k]> d
                ∧ d !! "customerId" = Some customer_id)
    ∧ match fault E (List.length (calls w)) with
      | Some _ => entries = []
      | None =>
          kept `sublist_of` take limit all
          ∧ Forall2 (entry_of (blobs w)) kept entries
          ∧ (∀ item, item ∈ take limit all → _is_record_in_tier1 item = true → item ∈ kept)
          ∧ ((∀ n, fault E n = None) →
             kept = List.filter (resolvable (blobs w)) (take limit all))
      end.
Proof.
  set (all := merge_sort created_ge
                (List.filter (λ d, bool_decide (d !! "customerId" = Some customer_id))
                   (documents w))).
  assert (Hall : ∀ item, item ∈ all ↔
            ∃ k d, cosmos w !! k = Some d ∧ item = <["id" := PStr k]> d
                   ∧ d !! "customerId" = Some customer_id).
  { intros item. subst all.
    rewrite merge_sort_Permutation, elem_of_filter_bool, elem_of_documents. split.
    - intros [(k & d & Hk & ->) Hcust]. exists k, d. split; [done|]. split; [done|].
      apply bool_decide_eq_true in Hcust. by rewrite lookup_insert_ne in Hcust.
    - intros (k & d & Hk & -> & Hcust). split; [by exists k, d|].
      apply bool_decide_eq_true. by rewrite lookup_insert_ne. }
  assert (Hsorted : Sorted created_ge all).
  { subst all. apply Sorted_merge_sort. intros d1 d2. apply sql_leb_total. }
  unfold get_records_by_customer, query_items, store_call. monad.
  destruct (fault E (List.length (calls w))) as [msg|] eqn:Hf.
  { exists [], (log_call (CosmosQuery (QByCustomer customer_id) (Some limit)) w), all, [].
    split; [reflexivity|]. split; [done|]. split; [done|]. split; [done|]. split; [done|].
    done. }
  change (cap (Some limit) (run_query (QByCustomer customer_id) (documents _)))
    with (take limit all).
  set (w0 := log_call _ w).
  destruct (resolve_items_run (take limit all) w0)
    as (l & w' & kept & Hrun & (Hc & Hb & Hs) & Hp & Hsub & Hentries & Htier1 & Hexact).
  { apply Forall_forall. intros item Hin. apply subseteq_take in Hin.
    apply Hall in Hin as (k & d & _ & -> & _). exists (PStr k). apply lookup_insert_eq. }
  rewrite Hrun. exists l, w', all, kept.
  split; [reflexivity|]. split; [done|]. split; [done|]. split; [done|]. split; [done|].
  split; [done|]. split; [done|]. split; [done|]. exact Hexact.
Qed.

End MoreRetrieval.

(** * Further properties of the storage statistics *)

Section Statistics.

Variable E : env.

Lemma count_row_tier docs k : count_row docs k !! "storage_tier" = k.
Proof. unfold count_row. destruct k; by simplify_map_eq. Qed.

Lemma count_row_count docs k :
  count_row docs k !! "record_count" = Some (PInt (Z.of_nat (tier_count k docs))).
Proof. unfold count_row, tier_count. destruct k; by simplify_map_eq. Qed.

(** The loop of the statistics on one row of the aggregation. *)
Lemma tally_cons docs k rest s :
  tally (count_row docs k :: rest) s =
  tally rest
    (let n := PInt (Z.of_nat (tier_count k docs)) in
     let total := total_records s + Z.of_nat (tier_count k docs) in
     match k with
     | None | Some PNone =>
         StorageStats n (tier2_hot_blob s) (tier3_cold_blob s) total (performance s)
     | Some (PStr t) =>
         if String.eqb t "cosmos" then
           StorageStats n (tier2_hot_blob s) (tier3_cold_blob s) total (performance s)
         else if String.eqb t "hot_blob" then
           StorageStats (tier1_cosmos s) n (tier3_cold_blob s) total (performance s)
         else if String.eqb t "cold_blob" then
           StorageStats (tier1_cosmos s) (tier2_hot_blob s) n total (performance s)
         else
           StorageStats (tier1_cosmos s) (tier2_hot_blob s) (tier3_cold_blob s) total
             (performance s)
     | Some _ =>
         StorageStats (tier1_cosmos s) (tier2_hot_blob s) (tier3_cold_blob s) total
           (performance s)
     end).
Proof.
  cbn [tally]. rewrite count_row_tier, count_row_count.
  destruct k as [[| b | n | t]|]; cbn; try reflexivity.
  rewrite bool_decide_eq_false_2 by discriminate. cbn [orb].
  destruct (String.eqb t "cosmos"); [done|].
  destruct (String.eqb t "hot_blob"); [done|].
  destruct (String.eqb t "cold_blob"); [done|]. by destruct s.
Qed.

(** The statistics after the rows of the keys [ks]: the total grew by the
    counts of the rows, and a blob tier has the count of its own row. *)
Lemma tally_count_rows docs ks s :
  ∃ s',
    tally (count_row docs <$> ks) s = (s', true)
    ∧ total_records s'
      = total_records s + Z.of_nat (sum_list ((λ k, tier_count k docs) <$> ks))
    ∧ performance s' = performance s
    ∧ tier2_hot_blob s'
      = (if decide (Some (PStr "hot_blob") ∈ ks)
         then PInt (Z.of_nat (tier_count (Some (PStr "hot_blob")) docs))
         else tier2_hot_blob s)
    ∧ tier3_cold_blob s'
      = (if decide (Some (PStr "cold_blob") ∈ ks)
         then PInt (Z.of_nat (tier_count (Some (PStr "cold_blob")) docs))
         else tier3_cold_blob s).
Proof.
  revert s. induction ks as [|k ks IH]; intros s.
  - exists s. cbn. split; [done|]. split; [lia|]. split; [done|].
    split; by rewrite decide_False by apply not_elem_of_nil.
  - rewrite fmap_cons, tally_cons.
    match goal with |- context [tally _ ?s1] => set (s1' := s1) end.
    assert (Hs1 : total_records s1' = total_records s + Z.of_nat (tier_count k docs)
                  ∧ performance s1' = performance s
                  ∧ tier2_hot_blob s1'
                    = (if decide (k = Some (PStr "hot_blob"))
                       then PInt (Z.of_nat (tier_count k docs)) else tier2_hot_blob s)
                  ∧ tier3_cold_blob s1'
                    = (if decide (k = Some (PStr "cold_blob"))
                       then PInt (Z.of_nat (tier_count k docs)) else tier3_cold_blob s)).
    { subst s1'. destruct k as [[| b | n | t]|]; cbn; try done.
      destruct (String.eqb_spec t "cosmos") as [->|H1]; [done|].
      destruct (String.eqb_spec t "hot_blob") as [->|H2]; [done|].
      destruct (String.eqb_spec t "cold_blob") as [->|H3]; [done|].
      rewrite !decide_False by congruence. done. }
    destruct Hs1 as (Ht1 & Hp1 & H21 & H31).
    destruct (IH s1') as (s' & Hrun & Htot & Hperf & H2 & H3).
    exists s'. split; [exact Hrun|].
    split; [rewrite Htot, Ht1; cbn; lia|]. split; [congruence|].
    split.
    + rewrite H2, H21.
      destruct (decide (Some (PStr "hot_blob") ∈ ks)) as [Hin|Hni].
      { by rewrite decide_True by (by right). }
      destruct (decide (k = Some (PStr "hot_blob"))) as [->|Hk].
      * by rewrite decide_True by (by left).
      * rewrite decide_False; [done|]. intros [?|?]%elem_of_cons; congruence.
    + rewrite H3, H31.
      destruct (decide (Some (PStr "cold_blob") ∈ ks)) as [Hin|Hni].
      { by rewrite decide_True by (by right). }
      destruct (decide (k = Some (PStr "cold_blob"))) as [->|Hk].
      * by rewrite decide_True by (by left).
      * rewrite decide_False; [done|]. intros [?|?]%elem_of_cons; congruence.
Qed.

Lemma tier_count_cons k d docs :
  tier_count k (d :: docs)
  = ((if bool_decide (d !! "storage_tier" = k) then 1 else 0) + tier_count k docs)%nat.
Proof. unfold tier_count. cbn. by destruct (bool_decide _). Qed.

Lemma sum_list_plus {A} (a b : A → nat) ks :
  sum_list ((λ k, a k + b k)%nat <$> ks) = (sum_list (a <$> ks) + sum_list (b <$> ks))%nat.
Proof. induction ks as [|k ks IH]; cbn; [done|]. rewrite IH. lia. Qed.

Lemma sum_list_indicator (x : option pyval) ks :
  NoDup ks → x ∈ ks →
  sum_list ((λ k, if bool_decide (x = k) then 1 else 0)%nat <$> ks) = 1%nat.
Proof.
  induction 1 as [|k ks Hk Hnd IH]; [by intros ?%elem_of_nil|].
  assert (Hzero : ∀ l : list (option pyval), x ∉ l →
            sum_list ((λ k, if bool_decide (x = k) then 1 else 0)%nat <$> l) = 0%nat).
  { induction l as [|y l IHl]; cbn; [done|]. intros [Hne Hni]%not_elem_of_cons.
    rewrite bool_decide_eq_false_2 by done. by rewrite IHl. }
  intros [->|Hin]%elem_of_cons; cbn.
  - rewrite bool_decide_eq_true_2 by done. by rewrite Hzero.
  - rewrite bool_decide_eq_false_2 by (intros ->; done). by rewrite IH.
Qed.

(** The rows of the aggregation count every document once. *)
Lemma tier_count_partition docs ks :
  NoDup ks → (∀ d, d ∈ docs → d !! "storage_tier" ∈ ks) →
  sum_list ((λ k, tier_count k docs) <$> ks) = List.length docs.
Proof.
  intros Hnd. induction docs as [|d docs IH]; intros Hin.
  - clear Hnd Hin. induction ks as [|k ks IHk]; cbn; [done|]. exact IHk.
  - assert (Hext : (λ k, tier_count k (d :: docs)) <$> ks
                   = (λ k, (if bool_decide (d !! "storage_tier" = k) then 1 else 0)
                           + tier_count k docs)%nat <$> ks).
    { apply list_fmap_ext. intros i k _. apply tier_count_cons. }
    rewrite Hext, sum_list_plus, sum_list_indicator by (try done; apply Hin; by left).
    rewrite IH by (intros; apply Hin; by right). done.
Qed.

Lemma tier_count_absent k docs :
  k ∉ (λ d : gmap string pyval, d !! "storage_tier") <$> docs → tier_count k docs = 0%nat.
Proof.
  induction docs as [|d docs IH]; [done|]. rewrite fmap_cons, tier_count_cons.
  intros Hni. apply not_elem_of_cons in Hni as [Hne Hni].
  rewrite bool_decide_eq_false_2 by congruence. by rewrite IH.
Qed.

(** X6. When its query goes through, [get_storage_statistics] reports as
    total the number of documents of the primary store, as tier 2 and tier
    3 counts the numbers of documents whose [storage_tier] is ['hot_blob']
    and ['cold_blob'], and as [total_requests] the lookups its engine has
    answered; it changes neither store. *)
Theorem storage_statistics_counts w :
  fault E (List.length (calls w)) = None →
  ∃ s w',
    get_storage_statistics E w = (Ok s, w')
    ∧ total_records s = Z.of_nat (size (cosmos w))
    ∧ tier2_hot_blob s = PInt (Z.of_nat (tier_count (Some (PStr "hot_blob")) (documents w)))
    ∧ tier3_cold_blob s = PInt (Z.of_nat (tier_count (Some (PStr "cold_blob")) (documents w)))
    ∧ total_requests (performance s) = requests (performance_stats w)
    ∧ same_stores w w'.
Proof.
  intros Hf. unfold get_storage_statistics, _get_performance_stats. monad.
  rewrite query_items_ok by done. cbn [cap run_query fst snd].
  unfold count_by_tier.
  set (docs := documents w).
  set (ks := remove_dups ((λ d : gmap string pyval, d !! "storage_tier") <$> docs)).
  match goal with |- context [tally _ ?s0] =>
    destruct (tally_count_rows docs ks s0) as (s' & Hrun & Htot & Hperf & H2 & H3)
  end.
  rewrite Hrun. eexists _, _. split; [reflexivity|]. cbn [fst].
  assert (Habsent : ∀ k, k ∉ ks → tier_count k docs = 0%nat).
  { intros k Hk. apply tier_count_absent. by rewrite <- elem_of_remove_dups. }
  split.
  { rewrite Htot, tier_count_partition.
    - subst docs. unfold documents. rewrite length_fmap, length_map_to_list. cbn. lia.
    - apply NoDup_remove_dups.
    - intros d Hd. apply elem_of_remove_dups, list_elem_of_fmap. by exists d. }
  split.
  { rewrite H2. destruct (decide (Some (PStr "hot_blob") ∈ ks)); [done|].
    by rewrite Habsent. }
  split.
  { rewrite H3. destruct (decide (Some (PStr "cold_blob") ∈ ks)); [done|].
    by rewrite Habsent. }
  split; [by rewrite Hperf|]. unfold same_stores. by world.
Qed.

End Statistics.

(** * Further properties of the migration engine *)

Section MoreMigration.

Variable E : env.

Lemma retrieve_from_blob_any c bp w :
  ∃ r w',
    _retrieve_from_blob E c bp w = (Ok r, w')
    ∧ cosmos w' = cosmos w ∧ blobs w' = blobs w ∧ stats w' = stats w ∧ ticks w' = ticks w
    ∧ (r = None
       ∨ ∃ p o, bp = PStr p ∧ r = Some o ∧ fault E (List.length (calls w)) = None
                ∧ blobs w !! (c, p) = Some (Encoded o)
                ∧ calls w' = calls w ++ [BlobDownload c p]).
Proof.
  unfold _retrieve_from_blob, download_json, store_call. monad.
  destruct bp as [| b | n | p];
    try (eexists _, _; split; [reflexivity|]; split_and!; try done; by left).
  destruct (fault E (List.length (calls w))) as [msg|] eqn:Hf.
  { eexists _, _; split; [reflexivity|]; split_and!; try done; by left. }
  cbn [blobs log_call].
  destruct (blobs w !! (c, p)) as [[|o]|] eqn:Hb;
    try (eexists _, _; split; [reflexivity|]; split_and!; try done; by left).
  eexists _, _; split; [reflexivity|]; split_and!; try done.
  right. by exists p, o.
Qed.

Lemma delete_from_blob_run c p w :
  _delete_from_blob E c (PStr p) w =
    (Ok tt,
     match fault E (List.length (calls w)) with
     | Some _ => log_call (BlobDelete c p) w
     | None =>
         match blobs w !! (c, p) with
         | Some _ => set_blobs (delete (c, p)) (log_call (BlobDelete c p) w)
         | None => log_call (BlobDelete c p) w
         end
     end).
Proof.
  unfold _delete_from_blob, store_call. monad.
  destruct (fault E (List.length (calls w))); [done|].
  cbn [blobs log_call]. by destruct (blobs w !! (c, p)).
Qed.

Lemma cold_pointer_id (item : gmap string pyval) path t size :
  cold_pointer item path t size !! "id" = item !! "id".
Proof. unfold cold_pointer. by rewrite !lookup_insert_ne. Qed.

Lemma cold_pointer_blob_path (item : gmap string pyval) path t size :
  dict_get (cold_pointer item path t size) "blob_path" = PStr path.
Proof. unfold cold_pointer, dict_get. by simplify_map_eq. Qed.

Lemma dict_truthy_true (d : gmap string pyval) : dict_truthy d = true ↔ d ≠ ∅.
Proof.
  unfold dict_truthy. rewrite negb_true_iff. split.
  - by intros ?%bool_decide_eq_false.
  - by intros ?; apply bool_decide_eq_false.
Qed.

(** One turn of the tier 2 to tier 3 loop never raises, and either moves
    the record or leaves the pointer in place. *)
Lemma migrate_item_to_tier3_outcome item w :
  ∃ w', migrate_item_to_tier3 E item w = (Ok tt, w') ∧ tier3_outcome E item w w'.
Proof.
  unfold migrate_item_to_tier3, tier3_attempt, tier3_attempt.
  destruct (item !! "blob_path") as [bp|] eqn:Hbp.
  2:{ monad. eexists. split; [reflexivity|]. eapply NotMoved; eauto. }
  monad.
  destruct (retrieve_from_blob_any hot_container bp w)
    as (r & w1 & Hr & Hc1 & Hb1 & Hs1 & Ht1 & Hfound).
  rewrite Hr.
  assert (Hfail : ∀ e, tier3_outcome E item w
            (set_stats (on_tier2_to_tier3 (add_failure (error_msg_of item e))) w1)).
  { intros e. eapply NotMoved; world; eauto. by rewrite Hs1. }
  destruct Hfound as [-> | (p & o & -> & -> & Hf & Hblob & Hcalls)].
  { eexists. split; [reflexivity|]. apply Hfail. }
  destruct o as [d|v].
  2:{ destruct (truthy v); eexists; (split; [reflexivity|]); apply Hfail. }
  destruct (dict_truthy d) eqn:Hd.
  2:{ eexists. split; [reflexivity|]. apply Hfail. }
  apply dict_truthy_true in Hd.
  destruct (_generate_blob_path E d "cold") as [cp|e] eqn:Hcp.
  2:{ eexists. split; [reflexivity|]. apply Hfail. }
  pose proof (generate_blob_path_id E _ _ _ Hcp) as Hdid.
  assert (Hlen1 : List.length (calls w1) = S (List.length (calls w))).
  { rewrite Hcalls, length_app. cbn. lia. }
  destruct (fault E (S (List.length (calls w)))) as [e|] eqn:Hf1.
  { rewrite (store_in_blob_fault E d _ _ w1 e) by (by rewrite ?Hlen1).
    eexists. split; [reflexivity|]. eapply NotMoved; world; eauto. by rewrite Hs1. }
  rewrite (store_in_blob_ok E d _ _ w1) by (by rewrite ?Hlen1).
  unfold replace_by_id, item_id. rewrite cold_pointer_id.
  assert (Hfail2 : ∀ e calls' ticks',
    tier3_outcome E item w
      (set_stats (on_tier2_to_tier3 (add_failure (error_msg_of item e)))
         (World (cosmos w1) (<[(cold_container, cp) := Encoded (ODict d)]> (blobs w1))
                calls' ticks' (performance_stats w1) (stats w1)))).
  { intros e cs ts. eapply NotMoved; world; eauto.
    - right. exists cp, d. by rewrite Hb1.
    - by rewrite Hs1. }
  destruct (item !! "id") as [[| b | n | k]|] eqn:Hid; monad;
    try (eexists; (split; [reflexivity|]); apply Hfail2).
  rewrite replace_item_run. world.
  rewrite length_app. cbn [List.length]. rewrite Nat.add_1_r, Hlen1.
  destruct (fault E (S (S (List.length (calls w))))) as [e|] eqn:Hf2.
  { eexists; (split; [reflexivity|]); apply Hfail2. }
  rewrite Hc1.
  destruct (cosmos w !! k) as [old|] eqn:Hk.
  2:{ eexists; (split; [reflexivity|]); apply Hfail2. }
  rewrite cold_pointer_blob_path, delete_from_blob_run.
  eexists. split; [reflexivity|].
  eapply (Moved E item w _ k p cp d); eauto.
  - repeat split_match; world; rewrite Hcalls, <- !app_assoc; done.
  - repeat split_match; world; rewrite Hb1; auto.
  - repeat split_match; world; by rewrite Hc1, Ht1.
  - repeat split_match; world; by rewrite Hs1.
Qed.

Lemma cold_pointer_fields (item : gmap string pyval) path t size :
  let d' := cold_pointer item path t size in
  d' !! "storage_tier" = Some (PStr "cold_blob")
  ∧ d' !! "blob_path" = Some (PStr path)
  ∧ d' !! "migrated_to_cold_at" = Some (PStr t)
  ∧ d' !! "blob_size" = Some (PInt size)
  ∧ ∀ f, f ≠ "storage_tier" → f ≠ "blob_path" → f ≠ "migrated_to_cold_at" → f ≠ "blob_size" →
         d' !! f = item !! f.
Proof.
  cbv zeta. unfold cold_pointer.
  split; [by simplify_map_eq|]. split; [by simplify_map_eq|].
  split; [by simplify_map_eq|]. split; [by simplify_map_eq|].
  intros f H1 H2 H3 H4. by rewrite !lookup_insert_ne.
Qed.

Lemma containers_differ : hot_container ≠ cold_container.
Proof. discriminate. Qed.

(** X7. One turn of the tier 2 to tier 3 loop never raises and ends in one
    of two ways. Either the pointer and the whole hot container are as they
    were and the record is counted as failed with a message. Or the record
    moved: the content of its hot blob is in the cold container, the
    pointer was replaced after the upload by the old pointer with
    [storage_tier = 'cold_blob'], the cold path, [migrated_to_cold_at] and
    [blob_size], the deletion was then asked for the cold path in the hot
    container, and the record is counted as a success. *)
Theorem tier3_pointer_follows_cold_write item w :
  ∃ w',
    migrate_item_to_tier3 E item w = (Ok tt, w')
    ∧ ((cosmos w' = cosmos w
        ∧ (∀ q, blobs w' !! (hot_container, q) = blobs w !! (hot_container, q))
        ∧ ∃ e, tier2_to_tier3 (stats w')
               = add_failure (error_msg_of item e) (tier2_to_tier3 (stats w)))
       ∨ ∃ k path cold_path d d',
           item !! "id" = Some (PStr k)
           ∧ item !! "blob_path" = Some (PStr path)
           ∧ blobs w !! (hot_container, path) = Some (Encoded (ODict d))
           ∧ _generate_blob_path E d "cold" = Ok cold_path
           ∧ blobs w' !! (cold_container, cold_path) = Some (Encoded (ODict d))
           ∧ calls w' = calls w ++ [BlobDownload hot_container path;
                                    BlobUpload cold_container cold_path;
                                    CosmosReplace k;
                                    BlobDelete hot_container cold_path]
           ∧ cosmos w' = <[k := d']> (cosmos w)
           ∧ d' !! "storage_tier" = Some (PStr "cold_blob")
           ∧ d' !! "blob_path" = Some (PStr cold_path)
           ∧ d' !! "blob_size" = Some (PInt (encoded_size E d))
           ∧ is_Some (d' !! "migrated_to_cold_at")
           ∧ d' !! "id" = Some (PStr k)
           ∧ tier2_to_tier3 (stats w') = add_success (tier2_to_tier3 (stats w))).
Proof.
  destruct (migrate_item_to_tier3_outcome item w) as (w' & Hrun & Hout).
  exists w'. split; [exact Hrun|].
  destruct Hout as [k path cp d Hbp Hid Hblob Hd Hcp Hf Hf1 Hf2 Hk Hcalls Hblobs Hcosmos Hstats
                   | e Hcosmos Hblobs Hstats].
  - right.
    exists k, path, cp, d,
      (cold_pointer item cp (isoformat E (clock E (S (ticks w)))) (encoded_size E d)).
    destruct (cold_pointer_fields item cp (isoformat E (clock E (S (ticks w))))
                (encoded_size E d)) as (H1 & H2 & H3 & H4 & Hrest).
    split; [done|]. split; [done|]. split; [done|]. split; [done|].
    split.
    { destruct Hblobs as [-> | ->].
      - apply lookup_insert_eq.
      - rewrite lookup_delete_ne by (intros H; by inversion H). apply lookup_insert_eq. }
    split; [done|]. split; [done|]. split; [done|]. split; [done|]. split; [done|].
    split; [by eexists|]. split; [by rewrite cold_pointer_id|]. by rewrite Hstats.
  - left. split; [done|]. split.
    + intros q. destruct Hblobs as [-> | (cp & d & ->)]; [done|].
      apply lookup_insert_ne. intros H. by inversion H.
    + exists e. by rewrite Hstats.
Qed.

Lemma retrieve_from_blob_found c p o w :
  fault E (List.length (calls w)) = None →
  blobs w !! (c, p) = Some (Encoded o) →
  _retrieve_from_blob E c (PStr p) w = (Ok (Some o), log_call (BlobDownload c p) w).
Proof.
  intros Hf Hb. unfold _retrieve_from_blob, download_json. monad.
  rewrite store_call_ok by done. cbn [blobs log_call]. by rewrite Hb.
Qed.

(** X8. When the hot blob of a pointer holds a non-empty record for which
    a cold path can be made, the three store calls go through and the
    pointer is in the primary store, the turn moves the record: the cold
    container gets the content of the hot blob, the pointer names the cold
    path, and a success is counted. The deletion that follows is asked for
    the cold path in the hot container, so the hot blob of the record,
    whose path is another one, stays where it was. *)
Theorem tier3_turn_moves_record item w k path d cold_path :
  item !! "blob_path" = Some (PStr path) →
  item !! "id" = Some (PStr k) →
  blobs w !! (hot_container, path) = Some (Encoded (ODict d)) →
  d ≠ ∅ →
  _generate_blob_path E d "cold" = Ok cold_path →
  fault E (List.length (calls w)) = None →
  fault E (S (List.length (calls w))) = None →
  fault E (S (S (List.length (calls w)))) = None →
  is_Some (cosmos w !! k) →
  path ≠ cold_path →
  ∃ w' d',
    migrate_item_to_tier3 E item w = (Ok tt, w')
    ∧ cosmos w' !! k = Some d'
    ∧ d' !! "storage_tier" = Some (PStr "cold_blob")
    ∧ d' !! "blob_path" = Some (PStr cold_path)
    ∧ blobs w' !! (cold_container, cold_path) = Some (Encoded (ODict d))
    ∧ blobs w' !! (hot_container, path) = Some (Encoded (ODict d))
    ∧ calls w' = calls w ++ [BlobDownload hot_container path;
                             BlobUpload cold_container cold_path;
                             CosmosReplace k;
                             BlobDelete hot_container cold_path]
    ∧ tier2_to_tier3 (stats w') = add_success (tier2_to_tier3 (stats w))
    ∧ total_size_migrated (stats w') = total_size_migrated (stats w) + encoded_size E d.
Proof.
  intros Hbp Hid Hblob Hd Hcp Hf Hf1 Hf2 [old Hk] Hne.
  unfold migrate_item_to_tier3, tier3_attempt, tier3_attempt. rewrite Hbp. monad.
  rewrite (retrieve_from_blob_found hot_container path (ODict d) w) by done.
  apply dict_truthy_true in Hd. rewrite Hd, Hcp.
  set (w1 := log_call (BlobDownload hot_container path) w).
  assert (Hlen1 : List.length (calls w1) = S (List.length (calls w))).
  { subst w1. cbn. rewrite length_app. cbn. lia. }
  rewrite (store_in_blob_ok E d _ _ w1)
    by (eauto using generate_blob_path_id; by rewrite Hlen1).
  unfold replace_by_id, item_id. rewrite cold_pointer_id, Hid. monad.
  rewrite replace_item_run. world.
  rewrite length_app. cbn [List.length]. rewrite Nat.add_1_r, Hlen1, Hf2.
  subst w1. world. rewrite Hk.
  rewrite cold_pointer_blob_path, delete_from_blob_run.
  destruct (cold_pointer_fields item cold_path
              (isoformat E (clock E (ticks (tick w)))) (encoded_size E d))
    as (H1 & H2 & _).
  eexists _, _. split; [reflexivity|].
  repeat split_match; world.
  all: split; [apply lookup_insert_eq|].
  all: split; [exact H1|]. all: split; [exact H2|].
  all: rewrite ?lookup_delete_ne by (intros H; inversion H; done).
  all: split; [apply lookup_insert_eq|].
  all: split; [rewrite lookup_insert_ne by (intros H; by inversion H); exact Hblob|].
  all: split; [by rewrite <- !app_assoc|]. all: done.
Qed.

Lemma retrieve_from_blob_calls c bp w x :
  x ∈ calls (_retrieve_from_blob E c bp w).2 →
  x ∈ calls w ∨ ∃ p, x = BlobDownload c p.
Proof.
  unfold _retrieve_from_blob, download_json, store_call. monad.
  destruct bp as [| b | n | p]; cbn [snd]; auto.
  repeat (split_match; cbn [fst snd]); cbn [calls log_call];
    (intros [?|Hx%list_elem_of_singleton]%elem_of_app; [by left|right; by eexists]).
Qed.

(** X9. When the hot blob of a pointer cannot be read, that is, the
    download or the decoding fails, or the decoded value is falsy, the turn
    counts the record as failed with the message "Could not retrieve
    record from hot blob storage"; it writes and deletes nothing, and
    calls no store but for the download. *)
Theorem tier3_unreadable_blob_is_failure item w bp r :
  item !! "blob_path" = Some bp →
  (_retrieve_from_blob E hot_container bp w).1 = Ok r →
  blob_truthy r = false →
  ∃ w',
    migrate_item_to_tier3 E item w = (Ok tt, w')
    ∧ cosmos w' = cosmos w ∧ blobs w' = blobs w
    ∧ (∀ c, c ∈ calls w' → c ∈ calls w ∨ ∃ p, c = BlobDownload hot_container p)
    ∧ stats w'
      = on_tier2_to_tier3
          (add_failure (error_msg_of item "Could not retrieve record from hot blob storage"))
          (stats w).
Proof.
  intros Hbp Hr Hfalsy.
  pose proof (retrieve_from_blob_calls hot_container bp w) as Hcalls.
  destruct (retrieve_from_blob_any hot_container bp w)
    as (r' & w1 & Hrun & Hc1 & Hb1 & Hs1 & Ht1 & _).
  rewrite Hrun in Hr, Hcalls. cbn [fst snd] in Hr, Hcalls. injection Hr as ->.
  unfold migrate_item_to_tier3, tier3_attempt, tier3_attempt. rewrite Hbp. monad. rewrite Hrun.
  destruct r as [[d|v]|]; cbn in Hfalsy.
  - rewrite Hfalsy. eexists. split; [reflexivity|]. world. by rewrite Hs1.
  - rewrite Hfalsy. eexists. split; [reflexivity|]. world. by rewrite Hs1.
  - eexists. split; [reflexivity|]. world. by rewrite Hs1.
Qed.

(** ** The loops of the two stages *)

Lemma migrate_tier2_to_tier3_steps batch_size w :
  fault E (List.length (calls w)) = None →
  ∃ w',
    migrate_tier2_to_tier3 E batch_size w = (Ok tt, w')
    ∧ steps (tier3_outcome E) (tier2_selection E batch_size w)
        (after_query (QTier2Older (isoformat E (clock E (ticks w) - days 90)))
                     batch_size 1 w) w'.
Proof.
  intros Hf. unfold migrate_tier2_to_tier3. monad.
  rewrite query_items_ok by done.
  match goal with
  | |- context [for_each _ ?items ?w0] =>
      destruct (for_each_steps (migrate_item_to_tier3 E) (tier3_outcome E)
                  migrate_item_to_tier3_outcome items w0) as (w' & Hrun & Hsteps)
  end.
  rewrite Hrun. exists w'. split; [done|]. exact Hsteps.
Qed.

Lemma migrate_tier2_to_tier3_fault batch_size w msg :
  fault E (List.length (calls w)) = Some msg →
  migrate_tier2_to_tier3 E batch_size w =
    (Exc msg, after_query (QTier2Older (isoformat E (clock E (ticks w) - days 90)))
                batch_size 1 w).
Proof.
  intros Hf. unfold migrate_tier2_to_tier3. monad.
  by rewrite (query_items_fault _ _ _ _ msg).
Qed.

Lemma migrate_tier1_to_tier2_fault batch_size w msg :
  fault E (List.length (calls w)) = Some msg →
  migrate_tier1_to_tier2 E batch_size w =
    (Exc msg, after_query (QTier1Window (isoformat E (clock E (ticks w) - days 30))
                                        (isoformat E (clock E (S (ticks w)) - days 90)))
                batch_size 2 w).
Proof.
  intros Hf. unfold migrate_tier1_to_tier2. monad.
  by rewrite (query_items_fault _ _ _ _ msg).
Qed.

Lemma steps3_cosmos_frame items w w' j :
  steps (tier3_outcome E) items w w' →
  (∀ item, item ∈ items → item !! "id" ≠ Some (PStr j)) →
  cosmos w' !! j = cosmos w !! j.
Proof.
  induction 1 as [w | item items w w1 w2 Hstep _ IH]; intros Hids; [done|].
  rewrite IH by (intros i Hi; apply Hids; by right).
  destruct Hstep as [k p cp d ? Hid ????????? Hc ? | e Hc ??]; rewrite Hc; [|done].
  apply lookup_insert_ne. intros ->. by apply (Hids item); [left|].
Qed.

(** Neither loop adds a document to the primary store or removes one. *)
Lemma steps3_dom items w w' :
  steps (tier3_outcome E) items w w' → dom (cosmos w') = dom (cosmos w).
Proof.
  induction 1 as [w | item items w w1 w2 Hstep _ IH]; [done|]. rewrite IH.
  destruct Hstep as [k p cp d ???????? Hk ?? Hc ? | e Hc ??]; rewrite Hc; [|done].
  by apply dom_insert_lookup_L.
Qed.

Lemma steps2_dom items w w' :
  steps (tier2_outcome E) items w w' → dom (cosmos w') = dom (cosmos w).
Proof.
  induction 1 as [w | item items w w1 w2 Hstep _ IH]; [done|]. rewrite IH.
  destruct Hstep as [k path ???? Hk ?? Hc ? | e ??? Hc ? | path e ???? Hc ? | path e ???? Hc ?];
    rewrite Hc; [|done..].
  by apply dom_insert_lookup_L.
Qed.

Lemma cold_path_prefix (d : gmap string pyval) path :
  _generate_blob_path E d "cold" = Ok path → ∃ rest, path = ("cold/" ++ rest)%string.
Proof.
  intros Hp. apply generate_blob_path_shape in Hp
    as (id & _ & [(y & m & dd & s & _ & _ & _ & _ & _ & ->) | ->]); by eexists.
Qed.

(** The tier 2 to tier 3 loop leaves in place every hot blob whose path
    does not start with [cold/]. *)
Lemma steps3_hot_frame items w w' q :
  steps (tier3_outcome E) items w w' →
  (∀ rest, q ≠ ("cold/" ++ rest)%string) →
  blobs w' !! (hot_container, q) = blobs w !! (hot_container, q).
Proof.
  intros Hsteps Hq. induction Hsteps as [w | item items w w1 w2 Hstep _ IH]; [done|].
  rewrite IH.
  destruct Hstep as [k p cp d ???? Hcp ????? Hb ?? | e ? Hb ?].
  - apply cold_path_prefix in Hcp as [rest ->].
    destruct Hb as [-> | ->].
    + apply lookup_insert_ne. intros Heq. by inversion Heq.
    + rewrite lookup_delete_ne by (intros [= <-]; by apply (Hq rest)).
      apply lookup_insert_ne. intros Heq. by inversion Heq.
  - destruct Hb as [-> | (cp & d & ->)]; [done|].
    apply lookup_insert_ne. intros Heq. by inversion Heq.
Qed.

Lemma in_tier2_older_aged bound (d : gmap string pyval) :
  in_tier2_older bound d = true ↔ aged bound d.
Proof.
  unfold in_tier2_older, aged, sql_lt_str. rewrite andb_true_iff, bool_decide_eq_true.
  split.
  - intros [H1 H2]. split; [|done].
    destruct (d !! "createdAt") as [[| | |c]|]; try discriminate. by exists c.
  - intros [(c & -> & H1) H2]. done.
Qed.

Lemma in_tier2_older_with_id bound k (d : gmap string pyval) :
  in_tier2_older bound (<["id" := PStr k]> d) = in_tier2_older bound d.
Proof. unfold in_tier2_older. by rewrite !lookup_insert_ne. Qed.

(** X10. When its query goes through, [migrate_tier2_to_tier3] gives one
    turn of its loop to each item of its selection, in order, and the
    selection is the first [batch_size] documents of the ascending list of
    all the documents whose [createdAt] is below the ISO form of the clock
    minus 90 days and whose [storage_tier] is ['hot_blob']. A document
    outside this filter keeps its pointer, and the stage neither adds a
    document to the primary store nor removes one. *)
Theorem tier2_selection_processed batch_size w :
  fault E (List.length (calls w)) = None →
  let bound := isoformat E (clock E (ticks w) - days 90) in
  let items := tier2_selection E batch_size w in
  ∃ w' all,
    migrate_tier2_to_tier3 E batch_size w = (Ok tt, w')
    ∧ steps (tier3_outcome E) items (after_query (QTier2Older bound) batch_size 1 w) w'
    ∧ items = take batch_size all
    ∧ Sorted created_le all
    ∧ (∀ item, item ∈ all ↔
         ∃ k d, cosmos w !! k = Some d ∧ item = <["id" := PStr k]> d ∧ aged bound d)
    ∧ (List.length items ≤ batch_size)%nat
    ∧ (∀ k d, cosmos w !! k = Some d → ¬ aged bound d → cosmos w' !! k = Some d)
    ∧ dom (cosmos w') = dom (cosmos w).
Proof.
  intros Hf bound items.
  destruct (migrate_tier2_to_tier3_steps batch_size w Hf) as (w' & Hrun & Hsteps).
  exists w', (merge_sort created_le (List.filter (in_tier2_older bound) (documents w))).
  assert (Hall : ∀ item,
    item ∈ merge_sort created_le (List.filter (in_tier2_older bound) (documents w)) ↔
    ∃ k d, cosmos w !! k = Some d ∧ item = <["id" := PStr k]> d ∧ aged bound d).
  { intros item. rewrite merge_sort_Permutation, elem_of_filter_bool, elem_of_documents.
    split.
    - intros [(k & d & Hk & ->) Hwin]. exists k, d. split; [done|]. split; [done|].
      apply in_tier2_older_aged. by rewrite in_tier2_older_with_id in Hwin.
    - intros (k & d & Hk & -> & Hel). split; [by exists k, d|].
      rewrite in_tier2_older_with_id. by apply in_tier2_older_aged. }
  split; [done|]. split; [done|]. split; [done|].
  split; [apply Sorted_merge_sort, created_le_total|]. split; [exact Hall|].
  split. { subst items. unfold tier2_selection, cap. rewrite length_take. lia. }
  split; [|exact (steps3_dom _ _ _ Hsteps)].
  intros k d Hk Hnot.
  rewrite (steps3_cosmos_frame _ _ _ k Hsteps); [done|].
  intros item Hin Hid.
  apply subseteq_take, Hall in Hin as (k' & d' & Hk' & -> & Hel).
  rewrite lookup_insert_eq in Hid. simplify_eq. done.
Qed.

(** X11. Whatever [migrate_tier2_to_tier3] does, every blob of the hot
    container whose path does not start with [cold/] is afterwards as it
    was before: the stage asks for the deletion of cold paths only, so the
    hot blobs of the records it has moved are not deleted. *)
Theorem tier3_stage_keeps_hot_blobs batch_size w q :
  (∀ rest, q ≠ ("cold/" ++ rest)%string) →
  blobs (migrate_tier2_to_tier3 E batch_size w).2 !! (hot_container, q)
  = blobs w !! (hot_container, q).
Proof.
  intros Hq. destruct (fault E (List.length (calls w))) as [msg|] eqn:Hf.
  - by rewrite (migrate_tier2_to_tier3_fault _ _ msg).
  - destruct (migrate_tier2_to_tier3_steps batch_size w Hf) as (w' & Hrun & Hsteps).
    rewrite Hrun. cbn [snd]. by rewrite (steps3_hot_frame _ _ _ q Hsteps).
Qed.

(** X12. Whatever [migrate_tier1_to_tier2] does, it neither adds a
    document to the primary store nor removes one, it leaves every blob
    outside the hot container as it was, it deletes no blob, and it leaves
    the statistics of the other stage alone. *)
Theorem tier1_stage_only_adds_hot_blobs batch_size w :
  let w' := (migrate_tier1_to_tier2 E batch_size w).2 in
  dom (cosmos w') = dom (cosmos w)
  ∧ (∀ c p, c ≠ hot_container → blobs w' !! (c, p) = blobs w !! (c, p))
  ∧ (∀ c p, is_Some (blobs w !! (c, p)) → is_Some (blobs w' !! (c, p)))
  ∧ tier2_to_tier3 (stats w') = tier2_to_tier3 (stats w).
Proof.
  cbv zeta. destruct (fault E (List.length (calls w))) as [msg|] eqn:Hf.
  { rewrite (migrate_tier1_to_tier2_fault _ _ msg) by done. done. }
  destruct (migrate_tier1_to_tier2_run E batch_size w Hf) as (w' & Hrun & Hsteps).
  rewrite Hrun. cbn [snd].
  set (w0 := after_query _ _ _ _) in Hsteps.
  change (cosmos w) with (cosmos w0). change (blobs w) with (blobs w0).
  change (stats w) with (stats w0).
  clearbody w0. clear Hrun Hf.
  induction Hsteps as [w0 | item items w0 w1 w2 Hstep _ (IH1 & IH2 & IH3 & IH4)]; [done|].
  assert (Hone : dom (cosmos w1) = dom (cosmos w0)
    ∧ (∀ c p, c ≠ hot_container → blobs w1 !! (c, p) = blobs w0 !! (c, p))
    ∧ (∀ c p, is_Some (blobs w0 !! (c, p)) → is_Some (blobs w1 !! (c, p)))
    ∧ tier2_to_tier3 (stats w1) = tier2_to_tier3 (stats w0)).
  { destruct Hstep as [k path ???? Hk ? Hb Hc Hs | e ?? Hb Hc Hs
                      | path e ??? Hb Hc Hs | path e ??? Hb Hc Hs];
      rewrite Hb, Hc, Hs; split_and!; try done.
    - by apply dom_insert_lookup_L.
    - intros c p Hne. apply lookup_insert_ne. congruence.
    - intros c p Hsome. rewrite lookup_insert. by case_decide.
    - intros c p Hne. apply lookup_insert_ne. congruence.
    - intros c p Hsome. rewrite lookup_insert. by case_decide. }
  destruct Hone as (H1 & H2 & H3 & H4).
  split; [congruence|]. split; [intros c p Hne; by rewrite IH2, H2|].
  split; [auto|congruence].
Qed.

(** ** Deletion *)

(** X13. [_delete_from_blob] never raises. It touches no blob but the one
    at the path it is given: when the call goes through, that blob is gone
    afterwards, whether it was there or not; when the call fails, or the
    path is not a string, the blob store is as it was. *)
Theorem delete_is_best_effort c bp w :
  ∃ w',
    _delete_from_blob E c bp w = (Ok tt, w')
    ∧ cosmos w' = cosmos w ∧ stats w' = stats w
    ∧ (∀ cq, bp ≠ PStr cq.2 ∨ cq.1 ≠ c → blobs w' !! cq = blobs w !! cq)
    ∧ (∀ p, bp = PStr p → fault E (List.length (calls w)) = None →
            blobs w' !! (c, p) = None)
    ∧ ((is_Some (fault E (List.length (calls w))) ∨ ∀ p, bp ≠ PStr p) → blobs w' = blobs w).
Proof.
  destruct bp as [| b | n | p];
    try (eexists; split; [reflexivity|]; split_and!; try done;
         intros [[? [=]] | Hno]; done).
  rewrite delete_from_blob_run. eexists. split; [reflexivity|].
  destruct (fault E (List.length (calls w))) as [msg|] eqn:Hf.
  { split_and!; try done. }
  destruct (blobs w !! (c, p)) as [x|] eqn:Hb; world.
  - split_and!; try done.
    + intros [c' p'] [Hne | Hne]; cbn in Hne; apply lookup_delete_ne; congruence.
    + intros p' [= <-] _. apply lookup_delete_eq.
    + intros [[? [=]] | Hno]. by destruct (Hno p).
  - split_and!; try done.
    + intros p' [= <-] _. done.
Qed.

(** ** Migration, then retrieval *)

Lemma generated_path_not_empty (record : gmap string pyval) path :
  _generate_blob_path E record "hot" = Ok path → path ≠ "".
Proof.
  intros Hp. apply generate_blob_path_shape in Hp
    as (id & _ & [(y & m & dd & s & _ & _ & _ & _ & _ & ->) | ->]); discriminate.
Qed.

(** X14. After a turn of the tier 1 to tier 2 loop that replaced the
    pointer of its item, a lookup of the id of the item whose two store
    calls go through returns the item as it was before the turn, with the
    source ['tier2-hot']: the two engines agree on the tier value, the
    container and the path. *)
Theorem migrated_record_is_served item w :
  let w' := (migrate_item_to_tier2 E item w).2 in
  cosmos w' ≠ cosmos w →
  fault E (List.length (calls w')) = None →
  fault E (S (List.length (calls w'))) = None →
  ∃ k t w'',
    item !! "id" = Some (PStr k)
    ∧ get_billing_record E k w' = (Ok (Some (ODict item), "tier2-hot", t), w'')
    ∧ same_stores w' w''.
Proof.
  destruct (migrate_item_to_tier2_outcome E item w) as (w' & Hrun & Hout).
  rewrite Hrun. cbn [snd]. cbv zeta. intros Hchanged Hf Hf2.
  destruct Hout as [k path Hid Hpath _ _ Hk Hcalls Hblobs Hcosmos Hstats
                   | e ??? Hcosmos ? | path e ???? Hcosmos ? | path e ???? Hcosmos ?];
    try done.
  clear Hchanged. exists k.
  set (d' := hot_pointer item path (isoformat E (clock E (S (ticks w)))) (encoded_size E item))
    in Hcosmos.
  destruct (hot_pointer_fields item path (isoformat E (clock E (S (ticks w))))
              (encoded_size E item)) as (H1 & H2 & _).
  fold d' in H1, H2.
  assert (Hd' : cosmos w' !! k = Some d') by (rewrite Hcosmos; apply lookup_insert_eq).
  assert (Hin : _is_record_in_tier1 d' = false).
  { by apply (in_tier1_false d' (PStr "hot_blob")). }
  rewrite (get_past_tier1 E w' k d' Hd' Hf Hin). monad.
  set (w1 := tick (log_call (CosmosRead k) (tick (tick w')))).
  assert (Hlen : List.length (calls w1) = S (List.length (calls w'))).
  { subst w1. simpl. rewrite length_app. simpl. lia. }
  erewrite blob_branch_run.
  2:{ rewrite record_and_with_id. unfold dict_get. by rewrite H1. }
  2:{ cbn [record_get]. rewrite dict_get_with_id by done. unfold dict_get. rewrite H2.
      change (default PNone (Some (PStr path))) with (PStr path).
      unfold _search_hot_blob.
      apply (search_blob_found E hot_container path (ODict item) w1).
      - by eapply generated_path_not_empty.
      - by rewrite Hlen.
      - subst w1. world. rewrite Hblobs. apply lookup_insert_eq. }
  cbn [blob_truthy obj_truthy].
  assert (Htruthy : dict_truthy item = true).
  { apply dict_truthy_true. intros ->. by rewrite lookup_empty in Hid. }
  rewrite Htruthy. eexists _, _. split; [done|]. split; [reflexivity|]. done.
Qed.

End MoreMigration.

(** * Further properties of the full migration *)

Section FullMigration.

Variable E : env.

Lemma tier3_outcome_stage item w w' :
  tier3_outcome E item w w' → stage_step tier2_to_tier3 item w w'.
Proof.
  intros [k p cp d ???????????? Hs | e ?? Hs]; unfold stage_step; rewrite Hs;
    [by left | right; by exists e].
Qed.

(** Each loop counts in the statistics of its own stage only. *)
Lemma steps2_other_stage items w w' :
  steps (tier2_outcome E) items w w' → tier2_to_tier3 (stats w') = tier2_to_tier3 (stats w).
Proof.
  induction 1 as [w | item items w w1 w2 Hstep _ IH]; [done|]. rewrite IH.
  destruct Hstep as [k path ???????? Hs | e ???? Hs | path e ????? Hs | path e ????? Hs];
    by rewrite Hs.
Qed.

Lemma steps3_other_stage items w w' :
  steps (tier3_outcome E) items w w' → tier1_to_tier2 (stats w') = tier1_to_tier2 (stats w).
Proof.
  induction 1 as [w | item items w w1 w2 Hstep _ IH]; [done|]. rewrite IH.
  destruct Hstep as [k p cp d ???????????? Hs | e ?? Hs]; by rewrite Hs.
Qed.

(** How [run_full_migration] goes, by the fate of the two queries. *)
Lemma run_full_migration_run w :
  let out := run_full_migration E w in
  out.1.2 = _print_migration_summary (clock E (ticks w)) (clock E (Nat.pred (ticks out.2)))
              (stats out.2)
  ∧ match fault E (List.length (calls w)) with
    | Some msg =>
        out.1.1 = Exc msg ∧ same_stores w out.2
        ∧ List.length (calls out.2) = S (List.length (calls w))
    | None =>
        ∃ w1,
          migrate_tier1_to_tier2 E 100 (tick w) = (Ok tt, w1)
          ∧ steps (tier2_outcome E) (tier1_selection E 100 (tick w))
              (after_query (QTier1Window (isoformat E (clock E (S (ticks w)) - days 30))
                                         (isoformat E (clock E (S (S (ticks w))) - days 90)))
                           100 2 (tick w)) w1
          ∧ match fault E (List.length (calls w1)) with
            | Some msg =>
                out.1.1 = Exc msg ∧ same_stores w1 out.2
                ∧ List.length (calls out.2) = S (List.length (calls w1))
            | None =>
                ∃ w2,
                  migrate_tier2_to_tier3 E 100 w1 = (Ok tt, w2)
                  ∧ steps (tier3_outcome E) (tier2_selection E 100 w1)
                      (after_query (QTier2Older (isoformat E (clock E (ticks w1) - days 90)))
                                   100 1 w1) w2
                  ∧ out.1.1 = Ok tt ∧ out.2 = tick w2
            end
    end.
Proof.
  cbv zeta. unfold run_full_migration. monad.
  destruct (fault E (List.length (calls w))) as [msg|] eqn:Hf.
  { rewrite (migrate_tier1_to_tier2_fault E 100 (tick w) msg) by done.
    cbn [fst snd]. split; [done|]. split; [done|]. split; [done|].
    unfold after_query. simpl. rewrite length_app. simpl. lia. }
  destruct (migrate_tier1_to_tier2_run E 100 (tick w) Hf) as (w1 & Hrun & Hsteps).
  rewrite Hrun.
  destruct (fault E (List.length (calls w1))) as [msg|] eqn:Hf1.
  { rewrite (migrate_tier2_to_tier3_fault E 100 w1 msg) by done.
    cbn [fst snd]. split; [done|]. exists w1. split; [done|]. split; [exact Hsteps|].
    rewrite Hf1. split; [done|]. split; [done|].
    unfold after_query. simpl. rewrite length_app. simpl. lia. }
  destruct (migrate_tier2_to_tier3_steps E 100 w1 Hf1) as (w2 & Hrun2 & Hsteps2).
  rewrite Hrun2. cbn [fst snd]. split; [done|].
  exists w1. split; [done|]. split; [exact Hsteps|]. rewrite Hf1. by exists w2.
Qed.

(** What a loop adds to the counts of its stage; the stage keeps one
    message per failure. *)
Lemma stage_totals get items w w' :
  steps (stage_step get) items w w' →
  (success (get (stats w')) + failed (get (stats w'))
   = success (get (stats w)) + failed (get (stats w)) + List.length items)%nat
  ∧ (List.length (errors (get (stats w))) = failed (get (stats w)) →
     List.length (errors (get (stats w'))) = failed (get (stats w'))).
Proof.
  intros Hsteps.
  destruct (steps_stage get items w w' Hsteps) as (errs & He & Hf & Hs & _).
  split; [lia|]. intros Hinv. rewrite He, length_app. lia.
Qed.

(** X15. [run_full_migration] runs the tier 1 to tier 2 stage and then,
    only if that one returned, the tier 2 to tier 3 stage on the world the
    first one left. It raises exactly when the query of one of the two
    stages fails, with the error of that query; when the first query
    fails, no second query is sent and both stores are as they were. *)
Theorem full_migration_runs_both_stages w :
  let out := run_full_migration E w in
  let w1 := (migrate_tier1_to_tier2 E 100 (tick w)).2 in
  (out.1.1 = Ok tt
   ↔ fault E (List.length (calls w)) = None ∧ fault E (List.length (calls w1)) = None)
  ∧ (∀ msg, fault E (List.length (calls w)) = Some msg →
       out.1.1 = Exc msg ∧ same_stores w out.2
       ∧ List.length (calls out.2) = S (List.length (calls w)))
  ∧ (fault E (List.length (calls w)) = None →
       out.2 = tick (migrate_tier2_to_tier3 E 100 w1).2
       ∧ ∀ msg, fault E (List.length (calls w1)) = Some msg →
           out.1.1 = Exc msg ∧ same_stores w1 out.2).
Proof.
  cbv zeta. destruct (run_full_migration_run w) as [_ Hrun]. cbv zeta in Hrun.
  destruct (fault E (List.length (calls w))) as [msg|] eqn:Hf.
  { destruct Hrun as (Hr & Hsame & Hcalls). split_and!.
    - rewrite Hr. split; [done | by intros [? _]].
    - by intros ? [= <-].
    - done. }
  destruct Hrun as (w1 & Hrun1 & _ & Hrun). rewrite Hrun1. cbn [snd].
  destruct (fault E (List.length (calls w1))) as [msg|] eqn:Hf1.
  - destruct Hrun as (Hr & Hsame & Hcalls). split_and!.
    + rewrite Hr. split; [done | by intros [_ ?]].
    + done.
    + intros _. split.
      * rewrite (migrate_tier2_to_tier3_fault E 100 w1 msg) by done. cbn [snd].
        unfold run_full_migration. monad. rewrite Hrun1.
        by rewrite (migrate_tier2_to_tier3_fault E 100 w1 msg) by done.
      * by intros ? [= <-].
  - destruct Hrun as (w2 & Hrun2 & _ & Hr & Hw). split_and!.
    + by rewrite Hr.
    + done.
    + intros _. split; [by rewrite Hrun2|done].
Qed.

(** X16. On an engine whose statistics start at zero, the summary that
    [run_full_migration] prints in its [finally] counts as processed the
    records selected by the stages whose query went through, that is,
    none when the first query failed; the processed records are the
    successes and the failures together, and the errors listed are the
    first five at most, one per failure. *)
Theorem full_migration_summary w :
  let out := run_full_migration E w in
  let sm := out.1.2 in
  let w1 := (migrate_tier1_to_tier2 E 100 (tick w)).2 in
  stats w = no_stats →
  summary_processed sm = (summary_success sm + summary_failed sm)%nat
  ∧ List.length (summary_errors sm) = (summary_failed sm `min` 5)%nat
  ∧ summary_processed sm =
      match fault E (List.length (calls w)) with
      | Some _ => 0%nat
      | None =>
          (List.length (tier1_selection E 100 (tick w))
           + match fault E (List.length (calls w1)) with
             | Some _ => 0%nat
             | None => List.length (tier2_selection E 100 w1)
             end)%nat
      end
  ∧ summary_duration sm = clock E (Nat.pred (ticks out.2)) - clock E (ticks w).
Proof.
  cbv zeta. intros Hzero. destruct (run_full_migration_run w) as [Hsm Hrun].
  cbv zeta in Hrun.
  set (m := stats (run_full_migration E w).2) in *.
  assert (Hcounts :
    (List.length (errors (tier1_to_tier2 m)) = failed (tier1_to_tier2 m)
     ∧ List.length (errors (tier2_to_tier3 m)) = failed (tier2_to_tier3 m))
    ∧ (success (tier1_to_tier2 m) + failed (tier1_to_tier2 m)
       + (success (tier2_to_tier3 m) + failed (tier2_to_tier3 m)))%nat
      = match fault E (List.length (calls w)) with
        | Some _ => 0%nat
        | None =>
            (List.length (tier1_selection E 100 (tick w))
             + match fault E (List.length (calls (migrate_tier1_to_tier2 E 100 (tick w)).2)) with
               | Some _ => 0%nat
               | None => List.length
                           (tier2_selection E 100 (migrate_tier1_to_tier2 E 100 (tick w)).2)
               end)%nat
        end).
  { subst m. destruct (fault E (List.length (calls w))) as [msg|] eqn:Hf.
    { destruct Hrun as (_ & (_ & _ & ->) & _). by rewrite Hzero. }
    destruct Hrun as (w1 & Hrun1 & Hsteps1 & Hrun). rewrite Hrun1. cbn [snd].
    pose proof (steps2_other_stage _ _ _ Hsteps1) as Hother1.
    apply (steps_impl _ (stage_step tier1_to_tier2)) in Hsteps1;
      [|apply tier2_outcome_stage].
    apply stage_totals in Hsteps1 as [Ht1 Hi1].
    unfold after_query in Ht1, Hi1, Hother1. simpl in Ht1, Hi1, Hother1.
    rewrite Hzero in Ht1, Hi1, Hother1. simpl in Ht1, Hi1, Hother1.
    specialize (Hi1 eq_refl).
    destruct (fault E (List.length (calls w1))) as [msg|] eqn:Hf1.
    { destruct Hrun as (_ & (_ & _ & ->) & _). rewrite Hother1. simpl. split; [done|lia]. }
    destruct Hrun as (w2 & _ & Hsteps2 & _ & ->).
    pose proof (steps3_other_stage _ _ _ Hsteps2) as Hother2.
    apply (steps_impl _ (stage_step tier2_to_tier3)) in Hsteps2;
      [|apply tier3_outcome_stage].
    apply stage_totals in Hsteps2 as [Ht2 Hi2].
    unfold after_query in Ht2, Hi2, Hother2. simpl in Ht2, Hi2, Hother2.
    rewrite Hother1 in Ht2, Hi2. simpl in Ht2, Hi2. specialize (Hi2 eq_refl).
    simpl. rewrite Hother2. split; [done|lia]. }
  destruct Hcounts as [[He1 He2] Hcount].
  rewrite Hsm. unfold _print_migration_summary. cbn [summary_processed summary_success
    summary_failed summary_errors summary_duration].
  split; [done|]. split; [|split; [lia|done]].
  destruct (0 <? _)%nat eqn:Hpos.
  - rewrite length_take, length_app. lia.
  - apply Nat.ltb_ge in Hpos. simpl. lia.
Qed.

End FullMigration.

(** * Both engines together *)

Section Composition.

Variable E : env.

Lemma ltb_not_leb a b : String.ltb a b = true → String.leb b a = true → False.
Proof.
  unfold String.ltb, String.leb. rewrite (String.compare_antisym a b).
  by destruct (String.compare b a).
Qed.

Lemma tier2_selection_aged batch_size w item :
  item ∈ tier2_selection E batch_size w →
  ∃ k d, cosmos w !! k = Some d ∧ item = <["id" := PStr k]> d
         ∧ d !! "storage_tier" = Some (PStr "hot_blob").
Proof.
  unfold tier2_selection, cap, run_query. intros Hin.
  apply subseteq_take in Hin. rewrite merge_sort_Permutation in Hin.
  apply elem_of_filter_bool in Hin as [Hdoc Hold].
  apply elem_of_documents in Hdoc as (k & d & Hk & ->).
  exists k, d. split; [done|]. split; [done|].
  rewrite in_tier2_older_with_id in Hold. by apply in_tier2_older_aged in Hold as [_ ?].
Qed.

(** X17. A record of the primary store that is older than the 90 days of
    the first stage and is not in tier 2 is left where it is by a full
    migration: the first stage selects the records between 30 and 90 days
    only, and the second stage those of tier 2 only. *)
Theorem stale_record_is_never_migrated w k (d : gmap string pyval) c :
  cosmos w !! k = Some d →
  d !! "createdAt" = Some (PStr c) →
  String.ltb c (isoformat E (clock E (S (S (ticks w))) - days 90)) = true →
  d !! "storage_tier" ≠ Some (PStr "hot_blob") →
  cosmos (run_full_migration E w).2 !! k = Some d.
Proof.
  intros Hk Hc Hold Htier. destruct (run_full_migration_run E w) as [_ Hrun].
  cbv zeta in Hrun.
  destruct (fault E (List.length (calls w))) as [msg|].
  { destruct Hrun as (_ & (-> & _) & _). done. }
  destruct Hrun as (w1 & _ & Hsteps1 & Hrun).
  assert (Hk1 : cosmos w1 !! k = Some d).
  { rewrite (steps_cosmos_frame E _ _ _ k Hsteps1); [done|].
    intros item Hin Hid.
    apply elem_of_tier1_selection in Hin as (k' & d' & Hk' & -> & (c' & Hc' & Hlo & _) & _).
    rewrite lookup_insert_eq in Hid. injection Hid as ->.
    cbn [cosmos tick] in Hk'. rewrite Hk in Hk'. injection Hk' as <-.
    rewrite Hc in Hc'. injection Hc' as <-.
    by eapply ltb_not_leb. }
  destruct (fault E (List.length (calls w1))) as [msg|].
  { destruct Hrun as (_ & (-> & _) & _). done. }
  destruct Hrun as (w2 & _ & Hsteps2 & _ & ->). cbn [cosmos tick].
  rewrite (steps3_cosmos_frame E _ _ _ k Hsteps2); [done|].
  intros item Hin Hid.
  apply tier2_selection_aged in Hin as (k' & d' & Hk' & -> & Hhot).
  rewrite lookup_insert_eq in Hid. injection Hid as ->.
  rewrite Hk1 in Hk'. injection Hk' as <-. done.
Qed.

(** X18. What [_store_in_blob] has written, [_retrieve_from_blob] reads
    back from the same container and path; once [_delete_from_blob] has
    gone through for them, it reads nothing there. *)
Theorem blob_round_trip (record : gmap string pyval) c path w :
  is_Some (record !! "id") →
  fault E (List.length (calls w)) = None →
  fault E (S (List.length (calls w))) = None →
  ∃ size w1,
    _store_in_blob E record c path w = (Ok size, w1)
    ∧ size = encoded_size E record
    ∧ (_retrieve_from_blob E c (PStr path) w1).1 = Ok (Some (ODict record))
    ∧ (_retrieve_from_blob E c (PStr path) (_delete_from_blob E c (PStr path) w1).2).1
      = Ok None.
Proof.
  intros Hid Hf Hf1. rewrite (store_in_blob_ok E record c path w Hid Hf).
  eexists _, _. split; [reflexivity|]. split; [done|].
  set (w1 := set_blobs _ _).
  assert (Hlen : List.length (calls w1) = S (List.length (calls w))).
  { subst w1. simpl. rewrite length_app. simpl. lia. }
  assert (Hb : blobs w1 !! (c, path) = Some (Encoded (ODict record))).
  { subst w1. simpl. apply lookup_insert_eq. }
  split.
  - rewrite (retrieve_from_blob_found E c path (ODict record) w1); [done| |done].
    by rewrite Hlen.
  - rewrite delete_from_blob_run, Hlen, Hf1, Hb. cbn [snd].
    match goal with
    | |- (_retrieve_from_blob _ _ _ ?w2).1 = _ =>
        destruct (retrieve_from_blob_any E c (PStr path) w2)
          as (r & w' & Hrun & _ & _ & _ & _ & [-> | (p & o & [= <-] & _ & _ & Hbo & _)]);
        rewrite Hrun; [done|]
    end.
    cbn [blobs set_blobs log_call] in Hbo. by rewrite lookup_delete_eq in Hbo.
Qed.

End Composition.

(** * Further properties of the blob paths *)

Section MorePaths.

Variable E : env.



(** X20. Within a tier, a path is generated for one record id only: two
    records with string ids that get the same path have the same id. The
    paths of the two tiers never meet. *)
Theorem blob_path_names_its_record (r1 r2 : gmap string pyval) tier path k1 k2 :
  _generate_blob_path E r1 tier = Ok path →
  r1 !! "id" = Some (PStr k1) →
  r2 !! "id" = Some (PStr k2) →
  (_generate_blob_path E r2 tier = Ok path → k1 = k2)
  ∧ (tier = "hot" → _generate_blob_path E r2 "cold" ≠ Ok path).
Proof.
  intros H1 Hk1 Hk2. split.
  - intros H2. exact (generate_blob_path_inj E r1 r2 tier path k1 k2 H1 H2 Hk1 Hk2).
  - intros -> H2.
    apply generate_blob_path_shape in H1 as (? & _ & [(? & ? & ? & ? & _ & _ & _ & _ & _ & ->) | ->]);
    apply generate_blob_path_shape in H2 as (? & _ & [(? & ? & ? & ? & _ & _ & _ & _ & _ & H) | H]);
    discriminate.
Qed.

Lemma safe_char_idemp c : safe_char (safe_char c) = safe_char c.
Proof. by destruct c as [[] [] [] [] [] [] [] []]. Qed.

Lemma safe_char_fixed c :
  safe_char c = c ↔ isalnum c || Ascii.eqb c "_" || Ascii.eqb c "-" = true.
Proof. destruct c as [[] [] [] [] [] [] [] []]; by vm_compute. Qed.

(** X21. Sanitizing a customer id twice is sanitizing it once; the result
    has no [/] in it, so that it is one component of the path; and the
    customer ids that sanitization leaves as they are, are those made of
    alphanumeric characters, [_] and [-] only. *)
Theorem sanitize_is_idempotent s :
  sanitize (sanitize s) = sanitize s
  ∧ lacks "/" (sanitize s)
  ∧ (sanitize s = s
     ↔ ∀ i c, String.get i s = Some c →
              isalnum c || Ascii.eqb c "_" || Ascii.eqb c "-" = true).
Proof.
  split_and!.
  - induction s as [|c s IH]; simpl; [done|]. by rewrite safe_char_idemp, IH.
  - apply lacks_sanitize.
  - induction s as [|c s IH]; simpl; [done|]. split.
    + intros [= Hc Hs] [|i] c'; simpl.
      * intros [= <-]. by apply safe_char_fixed.
      * by apply IH.
    + intros Hall. f_equal.
      * apply safe_char_fixed, (Hall 0%nat). done.
      * apply IH. intros i c' Hget. by apply (Hall (S i)).
Qed.

End MorePaths.

(** * The counters of the retrieval engine *)

Section Counters.

Variable E : env.

Lemma blind_ret {A} (a : A) : counter_blind (ret a).
Proof. by intros w v H. Qed.

Lemma blind_raise {A} e : counter_blind (@raise A e).
Proof. by intros w v H. Qed.

Lemma blind_bind {A B} (m : M A) (k : A → M B) :
  counter_blind m → (∀ a, counter_blind (k a)) → counter_blind (bind m k).
Proof.
  intros Hm Hk w v Hwv. unfold bind. destruct (Hm w v Hwv) as [H1 H2].
  destruct (m w) as [[a|e] w'], (m v) as [[a'|e'] v']; simpl in *; simplify_eq; auto.
  by apply Hk.
Qed.

Lemma blind_try {A} (m : M A) (h : string → M A) :
  counter_blind m → (∀ e, counter_blind (h e)) → counter_blind (try_except m h).
Proof.
  intros Hm Hh w v Hwv. unfold try_except. destruct (Hm w v Hwv) as [H1 H2].
  destruct (m w) as [[a|e] w'], (m v) as [[a'|e'] v']; simpl in *; simplify_eq; auto.
  by apply Hh.
Qed.

Lemma blind_time : counter_blind (time_time E).
Proof.
  intros w v (Hc & Hb & Hl & Ht & Hs). unfold time_time, same_but_counters. simpl.
  by rewrite Hc, Hb, Hl, Ht, Hs.
Qed.

Lemma blind_store_call c : counter_blind (store_call E c).
Proof.
  intros w v (Hc & Hb & Hl & Ht & Hs). unfold store_call, same_but_counters. rewrite Hl.
  destruct (fault E _); simpl; by rewrite Hc, Hb, Hl, Ht, Hs.
Qed.

Lemma blind_gets_cosmos : counter_blind (gets cosmos).
Proof. intros w v H. split; [|done]. simpl. f_equal. apply H. Qed.

Lemma blind_gets_blobs : counter_blind (gets blobs).
Proof. intros w v H. split; [|done]. simpl. f_equal. apply H. Qed.

Lemma blind_gets_documents : counter_blind (gets documents).
Proof.
  intros w v H. split; [|done]. simpl. f_equal. unfold documents.
  by destruct H as [-> _].
Qed.

Lemma blind_set_perf f : counter_blind (modify (set_perf f)).
Proof. by intros w v H. Qed.

Ltac blind :=
  repeat first
    [ apply blind_ret | apply blind_raise | apply blind_time | apply blind_store_call
    | apply blind_gets_cosmos | apply blind_gets_blobs | apply blind_gets_documents
    | apply blind_set_perf
    | apply blind_bind; [|intros ?]
    | apply blind_try; [|intros ?]
    | match goal with
      | |- counter_blind (if ?b then _ else _) => destruct b
      | |- counter_blind (match ?x with _ => _ end) => destruct x
      end ].

Lemma blind_search_blob c bp : counter_blind (search_blob E c bp).
Proof. unfold search_blob, download_json. blind. Qed.

Lemma blind_get_billing_record id : counter_blind (get_billing_record E id).
Proof.
  unfold get_billing_record, blob_branch, _search_cosmos_db, read_item,
    _search_hot_blob, _search_cold_blob.
  blind; apply blind_search_blob.
Qed.

Lemma blind_get_multiple_records ids : counter_blind (get_multiple_records E ids).
Proof.
  induction ids as [|id ids IH]; cbn [get_multiple_records]; [apply blind_ret|].
  apply blind_bind; [apply blind_get_billing_record|]. intros r.
  apply blind_bind; [apply IH|]. intros rs. apply blind_ret.
Qed.

Lemma blind_resolve_items items : counter_blind (resolve_items E items).
Proof.
  induction items as [|item items IH]; cbn [resolve_items]; [apply blind_ret|].
  apply blind_bind.
  - unfold resolve_item, item_id, _search_hot_blob, _search_cold_blob.
    blind; apply blind_search_blob.
  - intros e. apply blind_bind; [apply IH|]. intros rs. apply blind_ret.
Qed.

Lemma blind_query_items q n : counter_blind (query_items E q n).
Proof. unfold query_items. blind. Qed.

Lemma blind_get_records_by_customer c limit :
  counter_blind (get_records_by_customer E c limit).
Proof.
  unfold get_records_by_customer. apply blind_try; [|intros; apply blind_ret].
  apply blind_bind; [apply blind_query_items|]. intros. apply blind_resolve_items.
Qed.

Lemma tally_performance p items s :
  tally items (with_performance p s)
  = (with_performance p (tally items s).1, (tally items s).2).
Proof.
  revert s. induction items as [|item items IH]; intros s; [done|].
  cbn [tally]. cbv zeta.
  set (tier := default (PStr "cosmos") (item !! "storage_tier")).
  set (count := default (PInt 0) (item !! "record_count")).
  destruct (bool_decide (tier = PNone) || eq_str tier "cosmos").
  { cbn [with_performance tier1_cosmos tier2_hot_blob tier3_cold_blob total_records performance].
    destruct (add_count (total_records s) count); [|done].
    apply (IH (StorageStats _ _ _ _ _)). }
  destruct (eq_str tier "hot_blob").
  { cbn [with_performance tier1_cosmos tier2_hot_blob tier3_cold_blob total_records performance].
    destruct (add_count (total_records s) count); [|done].
    apply (IH (StorageStats _ _ _ _ _)). }
  destruct (eq_str tier "cold_blob").
  { cbn [with_performance tier1_cosmos tier2_hot_blob tier3_cold_blob total_records performance].
    destruct (add_count (total_records s) count); [|done].
    apply (IH (StorageStats _ _ _ _ _)). }
  cbn [with_performance tier1_cosmos tier2_hot_blob tier3_cold_blob total_records performance].
  destruct (add_count (total_records s) count); [|by destruct s].
  apply (IH (StorageStats _ _ _ _ _)).
Qed.

Lemma same_but_counters_set_perf f w : same_but_counters (set_perf f w) w.
Proof. done. Qed.

(** X22. The answer of a lookup, of a batch lookup and of a customer
    listing does not depend on the counters of the engine, and neither
    does what they leave in the stores, in the call log and on the clock:
    the counters are written and never read. *)
Theorem lookups_never_read_the_counters :
  (∀ id, counter_blind (get_billing_record E id))
  ∧ (∀ ids, counter_blind (get_multiple_records E ids))
  ∧ (∀ customer_id limit, counter_blind (get_records_by_customer E customer_id limit)).
Proof.
  split_and!.
  - apply blind_get_billing_record.
  - apply blind_get_multiple_records.
  - apply blind_get_records_by_customer.
Qed.

(** X23. A convenience function answers as the method of any engine
    would on the same stores, and leaves the counters of that engine as
    they are; the statistics it returns are those of the method with a
    snapshot of zero requests, as the engine it builds has answered none. *)
Theorem convenience_functions_use_their_own_engine w :
  (∀ id, (Convenience.get_billing_record E id w).1
         = match (get_billing_record E id w).1 with
           | Ok r => Ok r.1.1
           | Exc e => Exc e
           end)
  ∧ (∀ ids, (Convenience.get_billing_records E ids w).1 = (get_multiple_records E ids w).1)
  ∧ (∀ customer_id limit,
       (Convenience.get_customer_records E customer_id limit w).1
       = (get_records_by_customer E customer_id limit w).1)
  ∧ (Convenience.get_storage_stats E w).1
    = match (get_storage_statistics E w).1 with
      | Ok s => Ok (with_performance (PerfSnapshot 0) s)
      | Exc e => Exc e
      end
  ∧ (∀ id, performance_stats (Convenience.get_billing_record E id w).2 = performance_stats w)
  ∧ (∀ ids, performance_stats (Convenience.get_billing_records E ids w).2
            = performance_stats w)
  ∧ (∀ customer_id limit,
       performance_stats (Convenience.get_customer_records E customer_id limit w).2
       = performance_stats w)
  ∧ performance_stats (Convenience.get_storage_stats E w).2 = performance_stats w.
Proof.
  assert (Hnew : ∀ A (m : M A), counter_blind m →
            (with_new_retrieval m w).1 = (m w).1
            ∧ performance_stats (with_new_retrieval m w).2 = performance_stats w).
  { intros A m Hm. unfold with_new_retrieval.
    destruct (Hm _ _ (same_but_counters_set_perf (λ _, no_perf) w)) as [Hr _].
    destruct (m (set_perf _ w)) as [r w']. by rewrite <- Hr. }
  split_and!.
  - intros id. unfold Convenience.get_billing_record.
    destruct (Hnew _ (r <- get_billing_record E id;; ret r.1.1)) as [-> _].
    { apply blind_bind; [apply blind_get_billing_record|intros; apply blind_ret]. }
    unfold bind, ret. by destruct (get_billing_record E id w) as [[r|e] w'].
  - intros ids. apply Hnew, blind_get_multiple_records.
  - intros c limit. apply Hnew, blind_get_records_by_customer.
  - unfold Convenience.get_storage_stats, with_new_retrieval, get_storage_statistics,
      _get_performance_stats. monad. cbn [performance_stats set_perf].
    destruct (blind_query_items QCountByTier None _ _
                (same_but_counters_set_perf (λ _, no_perf) w)) as [Hr _].
    destruct (query_items E QCountByTier None (set_perf _ w)) as [r1 w1],
             (query_items E QCountByTier None w) as [r2 w2].
    cbn [fst snd] in Hr. subst r2. destruct r1 as [items|e]; cbn [fst]; [|done].
    match goal with
    | |- _ = Ok (with_performance _ (tally _ ?s).1) =>
        change (Ok (tally items (with_performance (PerfSnapshot 0) s)).1
                = Ok (with_performance (PerfSnapshot 0) (tally items s).1))
    end.
    by rewrite tally_performance.
  - intros id. apply Hnew.
    apply blind_bind; [apply blind_get_billing_record|intros; apply blind_ret].
  - intros ids. apply Hnew, blind_get_multiple_records.
  - intros c limit. apply Hnew, blind_get_records_by_customer.
  - unfold Convenience.get_storage_stats, with_new_retrieval.
    by destruct (get_storage_statistics E _) as [r w'].
Qed.

End Counters.

(** * The further properties on the example worlds *)

(** X2 at an id that the primary store does not hold. *)
Lemma get_missing_record_witness :
  cosmos scenario !! "r-none" = None
  ∧ ∃ t w',
      get_billing_record (ref_env june_1st) "r-none" scenario = (Ok (None, "not-found", t), w')
      ∧ cache_misses (performance_stats w') = S (cache_misses (performance_stats scenario)).
Proof.
  split; [reflexivity|].
  destruct (get_missing_record (ref_env june_1st) scenario "r-none")
    as (t & w' & Hrun & _ & Hmiss & _); [left; reflexivity|].
  exists t, w'. split; [exact Hrun | exact Hmiss].
Defined.

(** X3 at the record of 200 days, whose blob is in the cold container. *)
Lemma get_tier3_record_witness :
  cosmos archive !! "r-cold" = Some r_cold
  ∧ r_cold !! "storage_tier" = Some (PStr "cold_blob")
  ∧ ∃ t w',
      get_billing_record (ref_env june_1st) "r-cold" archive
      = (Ok (Some (ODict (<["id" := PStr "r-cold"]> r_cold)), "tier3-cold", t), w')
      ∧ blob_calls w'
        = blob_calls archive ++ [BlobDownload cold_container "cold/2023/11/14/acme/r-cold.json"].
Proof.
  split; [reflexivity|]. split; [reflexivity|].
  destruct (get_tier3_record (ref_env june_1st) archive "r-cold" r_cold)
    as [Hfound _]; [reflexivity | reflexivity | reflexivity |].
  destruct (Hfound "cold/2023/11/14/acme/r-cold.json" (ODict (<["id" := PStr "r-cold"]> r_cold)))
    as (t & w' & Hrun & Hblob & _);
    [reflexivity | discriminate | reflexivity | reflexivity | reflexivity |].
  exists t, w'. split; [exact Hrun | exact Hblob].
Defined.

(** X6 on the scenario. *)
Lemma storage_statistics_counts_witness :
  fault (ref_env june_1st) (List.length (calls scenario)) = None
  ∧ ∃ s w',
      get_storage_statistics (ref_env june_1st) scenario = (Ok s, w')
      ∧ total_records s = Z.of_nat (size (cosmos scenario))
      ∧ tier2_hot_blob s
        = PInt (Z.of_nat (tier_count (Some (PStr "hot_blob")) (documents scenario))).
Proof.
  split; [reflexivity|].
  destruct (storage_statistics_counts (ref_env june_1st) scenario eq_refl)
    as (s & w' & Hrun & Htotal & Hhot & _).
  exists s, w'. split; [exact Hrun|]. split; [exact Htotal | exact Hhot].
Defined.

(** X8 at the record of 100 days of the scenario. *)
Lemma tier3_turn_moves_record_witness :
  blobs scenario !! (hot_container, "hot/2024/02/22/acme/r-old.json")
  = Some (Encoded (ODict (<["id" := PStr "r-old"]> r_old)))
  ∧ ∃ w',
      migrate_item_to_tier3 (ref_env june_1st) (<["id" := PStr "r-old"]> r_old) scenario
      = (Ok tt, w')
      ∧ blobs w' !! (cold_container, "cold/2024/02/22/acme/r-old.json")
        = Some (Encoded (ODict (<["id" := PStr "r-old"]> r_old)))
      ∧ blobs w' !! (hot_container, "hot/2024/02/22/acme/r-old.json")
        = Some (Encoded (ODict (<["id" := PStr "r-old"]> r_old))).
Proof.
  split; [reflexivity|].
  destruct (tier3_turn_moves_record (ref_env june_1st) (<["id" := PStr "r-old"]> r_old) scenario
              "r-old" "hot/2024/02/22/acme/r-old.json" (<["id" := PStr "r-old"]> r_old)
              "cold/2024/02/22/acme/r-old.json")
    as (w' & d' & Hrun & _ & _ & _ & Hcold & Hhot & _);
    [ reflexivity | reflexivity | reflexivity
    | intros H; apply (f_equal (λ m : gmap string pyval, m !! "id")) in H;
      vm_compute in H; discriminate H
    | reflexivity | reflexivity | reflexivity | reflexivity
    | eexists; reflexivity | discriminate | ].
  exists w'. split; [exact Hrun|]. split; [exact Hcold | exact Hhot].
Defined.

(** X9 at the pointer whose blob holds the empty JSON object. *)
Lemma tier3_unreadable_blob_is_failure_witness :
  (_retrieve_from_blob (ref_env june_1st) hot_container (PStr "hot/x.json") empty_blob_world).1
  = Ok (Some (ODict ∅))
  ∧ ∃ w',
      migrate_item_to_tier3 (ref_env june_1st)
        {[ "id" := PStr "r1"; "storage_tier" := PStr "hot_blob";
           "blob_path" := PStr "hot/x.json" ]} empty_blob_world
      = (Ok tt, w')
      ∧ cosmos w' = cosmos empty_blob_world ∧ blobs w' = blobs empty_blob_world.
Proof.
  split; [reflexivity|].
  destruct (tier3_unreadable_blob_is_failure (ref_env june_1st)
              {[ "id" := PStr "r1"; "storage_tier" := PStr "hot_blob";
                 "blob_path" := PStr "hot/x.json" ]}
              empty_blob_world (PStr "hot/x.json") (Some (ODict ∅)))
    as (w' & Hrun & Hcosmos & Hblobs & _); [reflexivity | reflexivity | reflexivity |].
  exists w'. split; [exact Hrun|]. split; [exact Hcosmos | exact Hblobs].
Defined.

(** X10 on the scenario: the record of 40 days keeps its pointer. *)
Lemma tier2_selection_processed_witness :
  fault (ref_env june_1st) (List.length (calls scenario)) = None
  ∧ ∃ w',
      migrate_tier2_to_tier3 (ref_env june_1st) 10 scenario = (Ok tt, w')
      ∧ cosmos w' !! "r-mid" = Some r_mid.
Proof.
  split; [reflexivity|].
  destruct (tier2_selection_processed (ref_env june_1st) 10 scenario eq_refl)
    as (w' & all & Hrun & _ & _ & _ & _ & _ & Hkeep & _).
  exists w'. split; [exact Hrun|].
  apply Hkeep; [reflexivity|].
  intros [_ Htier]. vm_compute in Htier. discriminate Htier.
Defined.

(** X11 at the hot blob of the record of 100 days. *)
Lemma tier3_stage_keeps_hot_blobs_witness :
  blobs (migrate_tier2_to_tier3 (ref_env june_1st) 10 scenario).2
    !! (hot_container, "hot/2024/02/22/acme/r-old.json")
  = blobs scenario !! (hot_container, "hot/2024/02/22/acme/r-old.json").
Proof.
  apply (tier3_stage_keeps_hot_blobs (ref_env june_1st) 10 scenario
           "hot/2024/02/22/acme/r-old.json").
  intros rest H. simpl in H. discriminate H.
Defined.

(** X14 at the record of 40 days of the scenario. *)
Lemma migrated_record_is_served_witness :
  let w' := (migrate_item_to_tier2 (ref_env june_1st) (<["id" := PStr "r-mid"]> r_mid)
               scenario).2 in
  ∃ t w'',
    get_billing_record (ref_env june_1st) "r-mid" w'
    = (Ok (Some (ODict (<["id" := PStr "r-mid"]> r_mid)), "tier2-hot", t), w'').
Proof.
  cbv zeta.
  destruct (migrated_record_is_served (ref_env june_1st) (<["id" := PStr "r-mid"]> r_mid)
              scenario)
    as (k & t & w'' & Hid & Hrun & _);
    [ intros H;
      apply (f_equal (λ c : gmap string (gmap string pyval),
                        c !! "r-mid" ≫= (.!! "storage_tier"))) in H;
      vm_compute in H; discriminate H
    | reflexivity | reflexivity | ].
  vm_compute in Hid. injection Hid as <-.
  exists t, w''. exact Hrun.
Defined.

(** X16 on the scenario, with a new engine. *)
Lemma full_migration_summary_witness :
  stats scenario = no_stats
  ∧ List.length (summary_errors (run_full_migration (ref_env june_1st) scenario).1.2)
    = (summary_failed (run_full_migration (ref_env june_1st) scenario).1.2 `min` 5)%nat.
Proof.
  split; [reflexivity|].
  destruct (full_migration_summary (ref_env june_1st) scenario eq_refl) as (_ & Herrors & _).
  exact Herrors.
Defined.

(** X17 at the record of 120 days. *)
Lemma stale_record_is_never_migrated_witness :
  cosmos archive !! "r-stale" = Some r_stale
  ∧ cosmos (run_full_migration (ref_env june_1st) archive).2 !! "r-stale" = Some r_stale.
Proof.
  split; [reflexivity|].
  apply (stale_record_is_never_migrated (ref_env june_1st) archive "r-stale" r_stale
           (ref_isoformat (june_1st - days 120)));
    [ reflexivity | reflexivity | reflexivity
    | intros H; vm_compute in H; discriminate H ].
Defined.

(** X18 with the record of 40 days, written into the hot container. *)
Lemma blob_round_trip_witness :
  ∃ size w1,
    _store_in_blob (ref_env june_1st) (<["id" := PStr "r-mid"]> r_mid) hot_container
      "hot/2024/04/22/cust_1_2/r-mid.json" scenario = (Ok size, w1)
    ∧ (_retrieve_from_blob (ref_env june_1st) hot_container
         (PStr "hot/2024/04/22/cust_1_2/r-mid.json") w1).1
      = Ok (Some (ODict (<["id" := PStr "r-mid"]> r_mid))).
Proof.
  destruct (blob_round_trip (ref_env june_1st) (<["id" := PStr "r-mid"]> r_mid) hot_container
              "hot/2024/04/22/cust_1_2/r-mid.json" scenario)
    as (size & w1 & Hstore & _ & Hback & _);
    [eexists; reflexivity | reflexivity | reflexivity |].
  exists size, w1. split; [exact Hstore | exact Hback].
Defined.

(** X20 at the records of 40 and of 10 days: the path of the one is not
    the path of the other. *)
Lemma blob_path_names_its_record_witness :
  _generate_blob_path (ref_env june_1st) (<["id" := PStr "r-mid"]> r_mid) "hot"
  = Ok "hot/2024/04/22/cust_1_2/r-mid.json"
  ∧ _generate_blob_path (ref_env june_1st) (<["id" := PStr "r-new"]> r_new) "hot"
    ≠ Ok "hot/2024/04/22/cust_1_2/r-mid.json".
Proof.
  split; [reflexivity|].
  destruct (blob_path_names_its_record (ref_env june_1st) (<["id" := PStr "r-mid"]> r_mid)
              (<["id" := PStr "r-new"]> r_new) "hot" "hot/2024/04/22/cust_1_2/r-mid.json"
              "r-mid" "r-new")
    as [Hsame _]; [reflexivity | reflexivity | reflexivity |].
  intros Heq. discriminate (Hsame Heq).
Defined.

(** X5 on the scenario: the listing of the customer [acme] answers the
    record of 10 days from the primary store and the record of 100 days
    from its hot blob, newest first. *)
Example scenario_customer_listing :
  (get_records_by_customer (ref_env june_1st) (PStr "acme") 100 scenario).1
  = Ok [CustomerEntry (ODict (<["id" := PStr "r-new"]> r_new)) "tier1-cosmos" (PStr "r-new");
        CustomerEntry (ODict (<["id" := PStr "r-old"]> r_old)) "tier2-hot" (PStr "r-old")].
Proof. evaluate. Qed.
